(** * Cohort analysis scripts: a shallow embedding and its properties

    The development follows the Python sources of the repository:

    - [tasks/threadCount.py]              (module [ThreadCount])
    - [scripts/cohort_utils.py]           (module [CohortUtils])
    - [scripts/create_manifest_files.py]  (module [CreateManifest])
    - [scripts/cohort_update.py]          (module [CohortUpdate])
    - [scripts/cohort_merge.py]           (module [CohortMerge])
    - [scripts/vcf_merge.py]              (module [VcfMerge])

    Python [int] is [Z]; Python [str] is [string] (a sequence of bytes, whose
    lexicographic order agrees with Python's code point order on ASCII and on
    UTF-8 encoded text); a Python [set] of strings is a [gset string]; the
    files a script writes are a [gmap string (list string)] from path to
    lines.  A script either returns, leaves through [sys.exit], dies on an
    uncaught exception, or waits for ever on a child process: this is the
    type [outcome]. *)

From Stdlib Require Import ZArith QArith String Ascii List Lia.
From Stdlib Require Import Sorting.Sorted Sorting.Permutation.
From Stdlib Require Import DecimalString DecimalZ DecimalNat DecimalPos DecimalFacts.
From Stdlib Require Import Structures.OrdersEx.
From stdpp Require Import base option list gmap strings sorting relations.

Local Open Scope string_scope.
Local Open Scope Z_scope.

(** ** Python outcomes *)

Inductive exn : Type :=
  | ZeroDivisionError
  | ValueError
  | TypeError
  | KeyError
  | FileNotFoundError
  | IsADirectoryError
  | PermissionError
  | UnicodeDecodeError
  | OSError
  | NameError
  | CalledProcessError.

Inductive outcome (A : Type) : Type :=
  | Return (a : A)
  | SysExit (code : Z)
  | Raise (e : exn)
  | Stalls.

Arguments Return {A} a.
Arguments SysExit {A} code.
Arguments Raise {A} e.
Arguments Stalls {A}.

Definition outcome_bind {A B : Type} (f : A -> outcome B) (m : outcome A) : outcome B :=
  match m with
  | Return a => f a
  | SysExit c => SysExit c
  | Raise e => Raise e
  | Stalls => Stalls
  end.

#[global] Instance outcome_mret : MRet outcome := fun _ a => Return a.
#[global] Instance outcome_mbind : MBind outcome := fun _ _ f m => outcome_bind f m.

Definition returns {A : Type} (m : outcome A) : Prop := exists a, m = Return a.

Definition fails {A : Type} (m : outcome A) : Prop :=
  match m with Return _ => False | _ => True end.

(** ** tasks/threadCount.py *)

Module ThreadCount.

(** The script shadows the builtins with its own two-argument versions. *)
Definition max (a b : Z) : Z := if a >? b then a else b.
Definition min (a b : Z) : Z := if a <? b then a else b.

(** [math.floor(a / b)] and [math.ceil(a / b)] on integers.  Python computes
    the quotient in binary64 first; for operands below [2^53], which thread
    and file counts are, the rounded quotient has the floor and the ceiling
    of the exact one, so both are modelled on the exact quotient.  From
    [2^53] on the script's quotient is rounded, and [a / b] raises
    [OverflowError] when it is beyond the binary64 range: what is stated of
    these functions for all counts carries the bound [2^53].  A zero divisor
    raises [ZeroDivisionError] in [a / b]. *)
Definition floor_truediv (a b : Z) : outcome Z :=
  if b =? 0 then Raise ZeroDivisionError else Return (a / b).

Definition ceil_truediv (a b : Z) : outcome Z :=
  if b =? 0 then Raise ZeroDivisionError else Return (- ((- a) / b)).

(** [a / b] kept as a float: modelled by the exact rational. *)
Definition truediv (a b : Z) : outcome Q :=
  if b =? 0 then Raise ZeroDivisionError else Return (inject_Z a / inject_Z b)%Q.

Record args : Type := {
  count : Z;
  reader_threads_flag : bool;
  readers_per_flattener_flag : bool;
  cpu_count_arg : option Z
}.

(** The values [main] has computed when it reaches its printing section. *)
Record counts : Type := {
  cpu_count : Z;
  flatten_threads : Z;
  remaining_threads : Z;
  reader_threads : Z;
  readers_per_flattener : Z;
  merge_threads : Q;
  total : Q
}.

(** Lines 61-74 of [main]. *)
Definition compute (cpu_count file_count : Z) : outcome counts :=
  let flatten_threads := min (cpu_count - 2) file_count in
  let remaining_threads := cpu_count - flatten_threads in
  q ← floor_truediv remaining_threads flatten_threads;
  let reader_threads := max 1 q in
  readers_per_flattener ← ceil_truediv file_count flatten_threads;
  merge_threads ← truediv (file_count + readers_per_flattener) readers_per_flattener;
  let total := (merge_threads * inject_Z reader_threads + merge_threads)%Q in
  Return {| cpu_count := cpu_count;
            flatten_threads := flatten_threads;
            remaining_threads := remaining_threads;
            reader_threads := reader_threads;
            readers_per_flattener := readers_per_flattener;
            merge_threads := merge_threads;
            total := total |}.

(** What the script prints: one number under either flag, all values
    otherwise. *)
Inductive printed : Type :=
  | PrintReaderThreads (n : Z)
  | PrintReadersPerFlattener (n : Z)
  | PrintAll (c : counts).

(** [os_cpu_count] is the value of [os.cpu_count()]. *)
Definition main (os_cpu_count : option Z) (a : args) : outcome printed :=
  if count a <=? 0 then SysExit 1
  else
    cpu ← match cpu_count_arg a with
          | Some n => if n <=? 0 then SysExit 1 else Return n
          | None => match os_cpu_count with
                    | Some n => Return n
                    | None => SysExit 2
                    end
          end;
    c ← compute cpu (count a);
    if reader_threads_flag a then Return (PrintReaderThreads (reader_threads c))
    else if readers_per_flattener_flag a
         then Return (PrintReadersPerFlattener (readers_per_flattener c))
         else Return (PrintAll c).

(** The call [threadCount.py --cpu-count cpu n] with no output flag. *)
Definition plain_args (cpu n : Z) : args :=
  {| count := n; reader_threads_flag := false;
     readers_per_flattener_flag := false; cpu_count_arg := Some cpu |}.

End ThreadCount.

(** ** The parts of Python's [str], [os.path] and [sorted] the scripts use *)

Module Py.

(** [str(n)] for an integer. *)
Definition str (n : Z) : string := NilZero.string_of_int (Z.to_int n).

(** ASCII characters for which [str.isspace] holds: tab, line feed,
    vertical tab, form feed, carriage return, the four separators
    [0x1c]-[0x1f] and the space. *)
Definition isspace (c : ascii) : bool :=
  let n := nat_of_ascii c in
  ((9 <=? n) && (n <=? 13) || (28 <=? n) && (n <=? 32))%nat.

Fixpoint lstrip (s : string) : string :=
  match s with
  | EmptyString => EmptyString
  | String c s' => if isspace c then lstrip s' else s
  end.

Fixpoint rstrip (s : string) : string :=
  match s with
  | EmptyString => EmptyString
  | String c s' =>
      match rstrip s' with
      | EmptyString => if isspace c then EmptyString else String c EmptyString
      | r => String c r
      end
  end.

Definition strip (s : string) : string := rstrip (lstrip s).

(** The double quote character. *)
Definition dquote : ascii := ascii_of_nat 34.

(** Truth value of a string: [if s] and [if not s]. *)
Definition nonempty (s : string) : bool :=
  match s with EmptyString => false | _ => true end.

Definition startswith (s p : string) : bool := String.prefix p s.

Definition endswith (s suffix : string) : bool :=
  let n := String.length s in
  let k := String.length suffix in
  (k <=? n)%nat && String.eqb (String.substring (n - k) k s) suffix.

(** [s.rfind(c)]: position of the last occurrence of the character. *)
Fixpoint rfind (c : ascii) (s : string) : option nat :=
  match s with
  | EmptyString => None
  | String a s' =>
      match rfind c s' with
      | Some i => Some (S i)
      | None => if Ascii.eqb a c then Some 0%nat else None
      end
  end.

(** [s[i:]] and [s[:i]] for [0 <= i]. *)
Definition from (i : nat) (s : string) : string :=
  String.substring i (String.length s - i) s.
Definition upto (i : nat) (s : string) : string := String.substring 0 i s.

(** [os.path.basename]: what follows the last slash. *)
Definition basename (p : string) : string :=
  match rfind "/" p with
  | Some i => from (S i) p
  | None => p
  end.

(** [os.path.join(a, b)] on POSIX. *)
Definition join (a b : string) : string :=
  if startswith b "/" then b
  else if negb (nonempty a) || endswith a "/" then a +:+ b
  else a +:+ "/" +:+ b.

(** Decimal digits of a natural number, without sign. *)
Definition digits (n : nat) : string := NilZero.string_of_uint (Nat.to_uint n).

(** [s.rjust(w, "0")]. *)
Fixpoint zeros (k : nat) : string :=
  match k with O => EmptyString | S k' => String "0" (zeros k') end.

Definition zfill (w : nat) (s : string) : string := zeros (w - String.length s) +:+ s.

(** The characters of a numeral. *)
Definition is_digit (c : ascii) : Prop :=
  In c (list_ascii_of_string "0123456789").

(** The format specification [{n:0wd}] for [0 <= n]. *)
Definition format_0d (w : nat) (n : nat) : string := zfill w (digits n).

Section Sorted.
Context {A K : Type} (key : A -> K) (ltb : K -> K -> bool).

(** Insertion that keeps [x] in front of the elements it does not
    exceed: [x] comes from further left in the input, so equal keys stay
    in input order, as in Python's stable [sorted]. *)
Fixpoint insert_sorted (x : A) (l : list A) : list A :=
  match l with
  | [] => [x]
  | y :: l' => if ltb (key y) (key x) then y :: insert_sorted x l' else x :: l
  end.

(** [sorted(l, key=key)] when [ltb] is [<] on keys, and
    [sorted(l, key=key, reverse=True)] when [ltb] is [>]: a stable sort
    has one possible result, whichever algorithm computes it. *)
Definition sorted (l : list A) : list A := foldr insert_sorted [] l.

(** [x] may stand before [y] in a sorted list: [y] is not below [x]. *)
Definition may_precede (x y : A) : Prop := ltb (key y) (key x) = false.
End Sorted.

Definition sorted_str : list string -> list string := sorted id String.ltb.

(** [l[start:stop]]: a negative index counts from the end, and both are
    clamped to the list. *)
Definition slice_index (len i : Z) : Z :=
  if i <? 0 then Z.max 0 (i + len) else Z.min i len.

Definition slice {A : Type} (l : list A) (start stop : Z) : list A :=
  let n := Z.of_nat (length l) in
  let a := slice_index n start in
  let b := slice_index n stop in
  take (Z.to_nat (b - a)) (drop (Z.to_nat a) l).

(** [s.replace(old, new)] for a non-empty [old]: occurrences are replaced
    from left to right, without overlap.  [skip] counts the characters of
    a replaced occurrence still to pass. *)
Fixpoint replace_from (old new : string) (skip : nat) (s : string) : string :=
  match s with
  | EmptyString => EmptyString
  | String c s' =>
      match skip with
      | S k => replace_from old new k s'
      | O => if String.prefix old s
             then new +:+ replace_from old new (String.length old - 1) s'
             else String c (replace_from old new 0 s')
      end
  end.

Definition replace (old new s : string) : string := replace_from old new 0 s.

(** [int(s)]: surrounding white space is dropped, then a plain decimal
    numeral with an optional minus sign is read; every other text is
    [ValueError] here (Python accepts a few more spellings, none of which
    [str] produces). *)
Definition int (s : string) : outcome Z :=
  match NilZero.int_of_string (strip s) with
  | Some d => Return (Z.of_int d)
  | None => Raise ValueError
  end.

(** [pat in s]. *)
Definition contains (pat s : string) : bool :=
  match String.index 0 pat s with Some _ => true | None => false end.

(** [s.split(sep)[0]] for a one-character separator. *)
Fixpoint before (sep : ascii) (s : string) : string :=
  match s with
  | EmptyString => EmptyString
  | String c s' => if Ascii.eqb c sep then EmptyString else String c (before sep s')
  end.

(** [s.rstrip("/")]. *)
Fixpoint rstrip_slash (s : string) : string :=
  match s with
  | EmptyString => EmptyString
  | String c s' =>
      match rstrip_slash s' with
      | EmptyString => if Ascii.eqb c "/" then EmptyString else String c EmptyString
      | r => String c r
      end
  end.

(** [os.path.dirname] on POSIX: the head up to the last slash, without its
    trailing slashes unless it consists of slashes only. *)
Definition dirname (p : string) : string :=
  let head := match rfind "/" p with Some i => upto (S i) p | None => EmptyString end in
  match rstrip_slash head with
  | EmptyString => head
  | r => r
  end.

(** [f'"{s}"']: the text between double quotes. *)
Definition quoted (s : string) : string :=
  String dquote (s +:+ String dquote EmptyString).

(** The fields of a [datetime] that [strftime] reads here. *)
Record datetime : Type := {
  year : nat; month : nat; day : nat; hour : nat; minute : nat; second : nat
}.

(** [strftime("%Y-%m-%d")] and [strftime("%Y-%m-%d-%H-%M")]; the year is
    written with four digits, which is what every platform does from the
    year 1000 on. *)
Definition strftime_Ymd (d : datetime) : string :=
  format_0d 4 (year d) +:+ "-" +:+ format_0d 2 (month d) +:+ "-" +:+ format_0d 2 (day d).

Definition strftime_YmdHM (d : datetime) : string :=
  strftime_Ymd d +:+ "-" +:+ format_0d 2 (hour d) +:+ "-" +:+ format_0d 2 (minute d).

(** The calendar day and the minute a moment falls in. *)
Definition day_of (d : datetime) : nat * nat * nat := (year d, month d, day d).
Definition minute_of (d : datetime) : nat * nat * nat * nat * nat :=
  (year d, month d, day d, hour d, minute d).

End Py.

(** ** What a script does to the world *)

Inductive event : Type :=
  | Stderr (line : string)                          (* print(..., file=sys.stderr) *)
  | Subprocess (command : list string)              (* subprocess.run / Popen *)
  | WriteFile (path : string) (lines : list string) (* open(path, "w") ... *)
  | RemoveFile (path : string).                     (* os.remove *)

(** A run: the events so far, in order, and how it went on.  Informational
    prints to standard output are not recorded. *)
Definition prog (A : Type) : Type := (list event * outcome A)%type.

Definition prog_bind {A B : Type} (f : A -> prog B) (m : prog A) : prog B :=
  match m with
  | (t, Return a) => let '(t', o) := f a in ((t ++ t')%list, o)
  | (t, SysExit c) => (t, SysExit c)
  | (t, Raise e) => (t, Raise e)
  | (t, Stalls) => (t, Stalls)
  end.

#[global] Instance prog_mret : MRet prog := fun _ a => ([], Return a).
#[global] Instance prog_mbind : MBind prog := fun _ _ f m => prog_bind f m.

Definition emit (e : event) : prog unit := ([e], Return tt).
Definition lift {A : Type} (o : outcome A) : prog A := ([], o).
Definition sys_exit {A : Type} (code : Z) : prog A := ([], SysExit code).

Definition events {A : Type} (m : prog A) : list event := fst m.
Definition result {A : Type} (m : prog A) : outcome A := snd m.

(** ** The surroundings of a run

    What the scripts ask of the operating system, as it answers during one
    run.  [load_config_file] of [cohort_utils.py] is taken by its result (the
    dictionary, an exit or an exception); the messages it prints are not
    recorded. *)

Record world : Type := {
  environ : string -> option string;       (* os.environ.get *)
  os_cpu_count : option Z;                 (* os.cpu_count() *)
  utcnow : Py.datetime;                    (* datetime.utcnow() *)
  now_timestamp : Z;                       (* int(datetime.now().timestamp()) *)
  script_tasks_dir : string;               (* str(Path(__file__).parent.parent / "tasks") *)
  glob : string -> list string;            (* glob.glob, in the order the OS gives *)
  getmtime : string -> Z;                  (* os.path.getmtime, in clock ticks *)
  path_exists : string -> bool;            (* os.path.exists, before the engine runs *)
  open_lines : string -> option (list string);  (* the lines of a readable text file *)
  open_error : string -> exn;              (* what reading any other path raises:
                                              FileNotFoundError, IsADirectoryError,
                                              PermissionError, UnicodeDecodeError, ... *)
  remove_error : string -> option exn;     (* what os.remove raises for a path, if anything *)
  load_config_file : string -> outcome (gmap string string);  (* cohort_utils.load_config_file *)
  child_status : list string -> Z;         (* exit status of a child process *)
  child_stdout : list string -> list string;
  child_stderr : list string -> list string;
  child_fills_stderr : list string -> bool;  (* whether the child, while its standard output
                                              is open, writes more to its standard error
                                              than the pipe takes *)
  repr_float : Q -> string;                (* the text print gives a float *)
  path_exists_after : string -> bool;      (* os.path.exists, after the engine ran *)
  getsize_after : string -> Z              (* os.path.getsize, after the engine ran *)
}.

(** [with open(path, 'r') as f: for line in f: ...] where the loop has no
    effect but on local variables: the lines, or the exception that opening
    or decoding the file raises. *)
Definition open_read (w : world) (path : string) : prog (list string) :=
  match open_lines w path with
  | Some lines => mret lines
  | None => lift (Raise (open_error w path))
  end.

(** [os.remove(path)]. *)
Definition remove (w : world) (path : string) : prog unit :=
  match remove_error w path with
  | Some e => lift (Raise e)
  | None => emit (RemoveFile path)
  end.

(** The surroundings once [path] has been removed. *)
Definition remove_file (w : world) (path : string) : world := {|
  environ := environ w; os_cpu_count := os_cpu_count w;
  utcnow := utcnow w; now_timestamp := now_timestamp w;
  script_tasks_dir := script_tasks_dir w;
  glob := fun pattern => List.filter (fun p => negb (String.eqb p path)) (glob w pattern);
  getmtime := getmtime w;
  path_exists := fun p => if String.eqb p path then false else path_exists w p;
  open_lines := fun p => if String.eqb p path then None else open_lines w p;
  open_error := fun p => if String.eqb p path then FileNotFoundError else open_error w p;
  remove_error := fun p => if String.eqb p path then Some FileNotFoundError
                           else remove_error w p;
  load_config_file := load_config_file w; child_status := child_status w;
  child_stdout := child_stdout w; child_stderr := child_stderr w;
  child_fills_stderr := child_fills_stderr w;
  repr_float := repr_float w; path_exists_after := path_exists_after w;
  getsize_after := getsize_after w
|}.

(** [subprocess.run(command, check=True)]. *)
Definition run_checked (w : world) (command : list string) : prog unit :=
  emit (Subprocess command);;
  if child_status w command =? 0 then mret tt else lift (Raise CalledProcessError).

Definition emit_all (l : list event) : prog unit := (l, Return tt).

(** The text of the engine's warning that is not passed on. *)
Definition benign_warning : string := "GAFeatureReader loop level greater than 1".

(** The printing part of [tasks/threadCount.py]: the lines on standard
    output. *)
Definition thread_count_stdout (w : world) (p : ThreadCount.printed) : list string :=
  match p with
  | ThreadCount.PrintReaderThreads n => [Py.str n]
  | ThreadCount.PrintReadersPerFlattener n => [Py.str n]
  | ThreadCount.PrintAll c =>
      [ "cpu_count: " +:+ Py.str (ThreadCount.cpu_count c);
        "flatten_threads: " +:+ Py.str (ThreadCount.flatten_threads c);
        "readers_per_flattener: " +:+ Py.str (ThreadCount.readers_per_flattener c);
        "reader_threads: " +:+ Py.str (ThreadCount.reader_threads c);
        "total_threads: " +:+ repr_float w (ThreadCount.total c) ]
  end.

(** Text written line by line with [print]. *)
Definition unlines (lines : list string) : string :=
  String.concat EmptyString (List.map (fun l => l +:+ String "010" EmptyString) lines).

(** ** scripts/cohort_utils.py *)

Module CohortUtils.

(** [calculate_thread_counts]: both returned numbers are constants; the
    diagnostic total is computed from them and printed. *)
Definition calculate_thread_counts (cpu_count file_count : Z) : outcome (Z * Z) :=
  let readers_per_flattener := 1 in
  let reader_threads := 5 in
  merge_threads ← ThreadCount.truediv (file_count + readers_per_flattener) readers_per_flattener;
  let total := (merge_threads * inject_Z reader_threads + merge_threads)%Q in
  Return (reader_threads, readers_per_flattener).

Definition get_env_or_error (environ : string -> option string) (var_name : string)
  : prog string :=
  match environ var_name with
  | None =>
      emit (Stderr ("Error: Environment variable " +:+ var_name +:+ " is not set"));;
      sys_exit 1
  | Some value => mret value
  end.

Definition quote_if_needed (value : string) : string :=
  match String.index 0 (String Py.dquote EmptyString) value with
  | Some _ => value
  | None => String Py.dquote (value +:+ String Py.dquote EmptyString)
  end.

(** [run_process_with_filtered_output]: the child runs, the lines of its
    standard error that contain none of [filter_warnings] are passed on,
    and a non-zero status ends the run with that status. *)
Definition run_process_with_filtered_output (w : world) (command : list string)
    (filter_warnings : list string) : prog Z :=
  emit (Subprocess command);;
  emit_all (List.map Stderr
              (List.filter
                 (fun line =>
                    negb (existsb (fun filter_str => Py.contains filter_str line)
                                  filter_warnings))
                 (child_stderr w command)));;
  let return_code := child_status w command in
  if negb (return_code =? 0) then
    emit (Stderr ("Error: Command failed with return code " +:+ Py.str return_code));;
    sys_exit return_code
  else mret return_code.

End CohortUtils.

(** ** scripts/create_manifest_files.py *)

Module CreateManifest.

(** One entry of [dir_path.iterdir()]: its name and whether
    [file_path.is_file()] holds. *)
Record dir_entry : Type := { entry_name : string; entry_is_file : bool }.

(** [file_path.suffix] and [file_path.stem], computed from the name: the
    last dot splits the name unless it is the first or the last character. *)
Definition inner_dot (name : string) : option nat :=
  match Py.rfind "." name with
  | Some i => if (0 <? i)%nat && (i <? String.length name - 1)%nat then Some i else None
  | None => None
  end.

Definition suffix (name : string) : string :=
  match inner_dot name with Some i => Py.from i name | None => EmptyString end.

Definition stem (name : string) : string :=
  match inner_dot name with Some i => Py.upto i name | None => name end.

(** [s.split('.')[-1]]. *)
Definition last_dot_field (s : string) : string :=
  match Py.rfind "." s with Some i => Py.from (S i) s | None => s end.

(** The name filter: the loop goes on to the next entry when this is false. *)
Definition is_vcf_gz (name : string) : bool :=
  negb (negb (String.eqb (suffix name) ".gz")
        || negb (String.eqb (last_dot_field (stem name)) "vcf")).

(** [str(dir_path / name)], where [dir] is [str(dir_path)]. *)
Definition path_str (dir name : string) : string :=
  if String.eqb dir "." then name
  else if Py.endswith dir "/" then dir +:+ name
  else dir +:+ "/" +:+ name.

Section Selector.
(** The lines of the standard output of [bcftools query -l file_path]
    ([result.stdout.splitlines()]), or [None] when the call fails and
    [check=True] raises. *)
Variable bcftools_query_l : string -> option (list string).

Definition get_sample_names_from_file (file_path : string) : outcome (list string) :=
  match bcftools_query_l file_path with
  | Some lines =>
      Return (List.map Py.strip (List.filter (fun line => Py.nonempty (Py.strip line)) lines))
  | None => Raise CalledProcessError
  end.

(** [read_existing_samples] on the lines of the samples file. *)
Definition read_existing_samples (lines : list string) : gset string :=
  foldl (fun existing_samples line =>
           let sample := Py.strip line in
           if Py.nonempty sample then existing_samples ∪ {[ sample ]} else existing_samples)
        ∅ lines.

Variable dir : string.          (* str(dir_path) *)
Variable is_dir : bool.         (* dir_path.is_dir() *)
Variable listing : list dir_entry.  (* dir_path.iterdir(), in the order the OS gives *)

(** The body of the [for] loop: [None] stands for [continue], also out
    of the [except] clause; [Some p] for [append(p)]. *)
Definition visit (existing_samples : gset string) (e : dir_entry) : option string :=
  if entry_is_file e then
    if negb (is_vcf_gz (entry_name e)) then None
    else
      match get_sample_names_from_file (path_str dir (entry_name e)) with
      | Return sample_names =>
          if (length sample_names =? 0)%nat then None
          else
            let sample_exists :=
              existsb (fun sample => bool_decide (sample ∈ existing_samples)) sample_names in
            if sample_exists then None
            else Some (path_str dir (entry_name e))
      | _ => None
      end
  else None.

Definition find_files_with_new_samples (existing_samples : gset string)
  : outcome (list string) :=
  if negb is_dir then Raise ValueError
  else
    Return
      (foldl (fun files_with_new_samples e =>
                match visit existing_samples e with
                | Some p => (files_with_new_samples ++ [p])%list
                | None => files_with_new_samples
                end)
             [] (Py.sorted entry_name String.ltb listing)).
End Selector.

(** [f"{output_prefix}_{i+1:03d}.manifest.txt"]. *)
Definition manifest_filename (output_prefix : string) (i : nat) : string :=
  output_prefix +:+ "_" +:+ Py.format_0d 3 (i + 1) +:+ ".manifest.txt".

(** The slice of [files] that iteration [i] takes. *)
Definition manifest_slice (files : list string) (files_per_manifest : Z) (i : nat)
  : list string :=
  let start_idx := Z.of_nat i * files_per_manifest in
  let end_idx := Z.min (start_idx + files_per_manifest) (Z.of_nat (length files)) in
  Py.slice files start_idx end_idx.

(** One iteration: the sorted slice becomes the content of a manifest, whose
    name is appended to the open index. *)
Definition write_one (files : list string) (output_prefix : string)
    (files_per_manifest : Z) (st : gmap string (list string) * list string) (i : nat)
  : gmap string (list string) * list string :=
  let '(disk, p) := st in
  let manifest_files := Py.sorted_str (manifest_slice files files_per_manifest i) in
  let manifest_filename := manifest_filename output_prefix i in
  (<[ manifest_filename := manifest_files ]> disk, (p ++ [manifest_filename])%list).

(** [write_manifest_files], as a function from the files on disk before
    to the files on disk after and the way the call ends.  A file is its
    list of lines; the index is on disk with its final content when the
    [with] block is left. *)
Definition write_manifest_files (files : list string) (output_prefix : string)
    (files_per_manifest : Z) (disk : gmap string (list string))
  : gmap string (list string) * outcome unit :=
  match files with
  | [] => (disk, Return tt)
  | _ =>
      let p := ["manifest_file"] in
      if files_per_manifest =? 0
      then (<[ "manifest_list.csv" := p ]> disk, Raise ZeroDivisionError)
      else
        let num_manifests :=
          (Z.of_nat (length files) + files_per_manifest - 1) / files_per_manifest in
        let '(disk', p') :=
          foldl (write_one files output_prefix files_per_manifest)
                (disk, p) (seq 0 (Z.to_nat num_manifests)) in
        (<[ "manifest_list.csv" := p' ]> disk', Return tt)
  end.

(** The groups the chunker cuts, before sorting, in creation order. *)
Definition groups (files : list string) (files_per_manifest : Z) : list (list string) :=
  let num_manifests :=
    (Z.of_nat (length files) + files_per_manifest - 1) / files_per_manifest in
  List.map (manifest_slice files files_per_manifest) (seq 0 (Z.to_nat num_manifests)).

End CreateManifest.

(** ** scripts/cohort_update.py *)

Module CohortUpdate.

Record args : Type := {
  manifest_file : string;
  existing_counts : option string;
  out_file : string;
  cohort_name : string;
  series_name : string;
  sample_name_threshold : Z;
  info_filter : string;
  format_filter : string;
  skip_existing_counts : bool;
  gautil_path : string
}.

(** [subprocess.check_output] on [threadCount.py]: the script's standard
    output, or [CalledProcessError] when it does not exit with status 0. *)
Definition check_output_thread_count (w : world) (command : list string)
    (a : ThreadCount.args) : prog string :=
  emit (Subprocess command);;
  match ThreadCount.main (os_cpu_count w) a with
  | Return p => mret (unlines (thread_count_stdout w p))
  | SysExit _ | Raise _ => lift (Raise CalledProcessError)
  | Stalls => lift Stalls
  end.

Definition calculate_thread_counts (w : world) (cpu_count file_count : Z)
    (task_dir : string) : prog (Z * Z) :=
  let thread_count_script := CreateManifest.path_str task_dir "threadCount.py" in
  if negb (path_exists w thread_count_script) then
    emit (Stderr ("Warning: threadCount.py not found at " +:+ thread_count_script));;
    emit (Stderr "Using fallback thread calculation");;
    let reader_threads := Z.max 1 (cpu_count / 4) in
    q ← lift (if cpu_count - 2 =? 0 then Raise ZeroDivisionError
               else Return (file_count / (cpu_count - 2)));
    let readers_per_flattener := Z.max 1 q in
    mret (reader_threads, readers_per_flattener)
  else
    let reader_threads_cmd :=
      ["python3"; thread_count_script; "--reader-threads"; "--cpu-count";
       Py.str cpu_count; Py.str file_count] in
    let readers_per_flattener_cmd :=
      ["python3"; thread_count_script; "--readers-per-flattener"; "--cpu-count";
       Py.str cpu_count; Py.str file_count] in
    out1 ← check_output_thread_count w reader_threads_cmd
             {| ThreadCount.count := file_count;
                ThreadCount.reader_threads_flag := true;
                ThreadCount.readers_per_flattener_flag := false;
                ThreadCount.cpu_count_arg := Some cpu_count |};
    reader_threads ← lift (Py.int (Py.strip out1));
    out2 ← check_output_thread_count w readers_per_flattener_cmd
             {| ThreadCount.count := file_count;
                ThreadCount.reader_threads_flag := false;
                ThreadCount.readers_per_flattener_flag := true;
                ThreadCount.cpu_count_arg := Some cpu_count |};
    readers_per_flattener ← lift (Py.int (Py.strip out2));
    mret (reader_threads, readers_per_flattener).

(** The loop of [check_tbi_files]: the index files that are not there. *)
Definition missing_tbi_files (w : world) (lines : list string) : list string :=
  foldl (fun missing line =>
           let vcf_file := Py.strip line in
           if negb (Py.nonempty vcf_file) then missing
           else if Py.endswith vcf_file ".vcf.gz" then
             let tbi_file := vcf_file +:+ ".tbi" in
             if negb (path_exists w tbi_file) then (missing ++ [tbi_file])%list else missing
           else missing)
        [] lines.

Definition check_tbi_files (w : world) (manifest_file : string) : prog unit :=
  lines ← open_read w manifest_file;
  match missing_tbi_files w lines with
  | [] => mret tt
  | missing =>
      emit (Stderr "Error: The following TBI index files are missing:");;
      emit_all (List.map (fun missing_file => Stderr ("  " +:+ missing_file)) missing);;
      sys_exit 1
  end.

Definition count_files_in_manifest (w : world) (manifest_file : string) : prog Z :=
  lines ← open_read w manifest_file;
  mret (Z.of_nat (length (List.filter (fun line => Py.nonempty (Py.strip line)) lines))).

(** Lines 196-203: the existing counts when none are named.  The files
    matching the pattern are put in the order of their modification times,
    latest first, and the first one is taken. *)
Definition find_existing_counts (w : world) (given : option string)
    (out_file_base : string) : option string :=
  match given with
  | Some g => if Py.nonempty g then Some g else
      head (Py.sorted (getmtime w) Z.gtb (glob w (out_file_base +:+ "_*.tsf")))
  | None =>
      head (Py.sorted (getmtime w) Z.gtb (glob w (out_file_base +:+ "_*.tsf")))
  end.

(** Lines 178 and 205-207: the name of the file this run creates. *)
Definition source_version (w : world) : string := Py.strftime_Ymd (utcnow w).

Definition next_out_file (w : world) (out_file_base : string) : string :=
  let timestamp := now_timestamp w in
  out_file_base +:+ "_" +:+ source_version w +:+ "_" +:+ Py.str timestamp +:+ ".tsf".

(** The optional first stage (lines 237-240). *)
Definition filter_existing_section (existing_counts_samples_path skipped_files_path : string)
  : list string :=
  [ "- FilterFilesWithSamplesTask:";
    "    samplesFilePath: " +:+ Py.quoted existing_counts_samples_path;
    "    logFile: " +:+ Py.quoted skipped_files_path ].

(** Lines 242-251. *)
Definition filter_by_expr_section (info_filter format_filter : string) : list string :=
  if Py.nonempty info_filter || Py.nonempty format_filter then
    (["      - filterByExpr:"]
     ++ (if Py.nonempty info_filter
         then ["          expr: " +:+ CohortUtils.quote_if_needed info_filter] else [])
     ++ (if Py.nonempty format_filter
         then ["          sampleExpr: " +:+ CohortUtils.quote_if_needed format_filter] else []))%list
  else [].

(** The merge stage of the batch file (lines 287-292). *)
Definition merge_stage (reader_threads readers_per_flattener : Z) : list string :=
  [ "- mergeVariantsTransform:";
    "    onlyMergeMatchingRefAlts: true";
    "    mergeDifferentRecordTypes: false";
    "    inputBufferSize: 2000";
    "    readerWorkerThreads: " +:+ Py.str reader_threads;
    "    readersPerFlattener: " +:+ Py.str readers_per_flattener ].

(** The batch file, line by line (lines 265-327). *)
Definition gautil_batch_content
    (filter_existing filter_by_expr : list string)
    (reader_threads readers_per_flattener : Z)
    (existing_counts_path existing_counts_samples_path source_name : string)
    (sample_name_threshold : Z)
    (out_file coord_sys_id series_name source_version : string) : list string :=
  (filter_existing
   ++ [ "- forEach:";
        "    inputCount: 1";
        "    taskList:";
        "      - stableSourcePropTransform:";
        "          sourceProps:";
        "            - StringProp:";
        "                name: CombineGVCFSpanRecord";
        "                value: true";
        "      - alleleicPrimitives" ]
   ++ filter_by_expr
   ++ [ "      - keepFields:";
        "          keepSymbols:";
        "            - RefAlt";
        "            - REF";
        "            - ALT";
        "            - GT";
        "            - END";
        "            - Samples";
        "      - fullyFlattenedMultiAllelicSplit";
        "      - leftAlign";
        "      - trimCommonBases";
        "      - variantCollapsing";
        EmptyString ]
   ++ merge_stage reader_threads readers_per_flattener
   ++ [ EmptyString;
        "- additiveCountAlleles:";
        "    existingCountsSource: " +:+ Py.quoted existing_counts_path;
        "    existingCountsSampleSource: " +:+ Py.quoted existing_counts_samples_path;
        "    countNoCalls: true";
        "    sourceNamePrefix: " +:+ Py.quoted source_name;
        "    outputSampleNamesThreshold: " +:+ Py.str sample_name_threshold;
        EmptyString;
        "- runTaskLists:";
        "    taskLists:";
        "      - SourceTaskListTask:";
        "          taskList:";
        "            - createAnnotation";
        "            - TsfWriterTask:";
        "                filePath: " +:+ Py.quoted out_file;
        "                sourceMeta:";
        "                  coordSysId: " +:+ Py.quoted coord_sys_id;
        "                  seriesName: " +:+ Py.quoted series_name;
        "                  sourceVersion: " +:+ Py.quoted source_version;
        EmptyString;
        "      - SourceTaskListTask:";
        "          taskList:";
        "            - keepFields:";
        "                keepSymbols:";
        "                  - Samples";
        "            - subsetUsageSpace:";
        "                usageSpace: " +:+ Py.quoted "[]";
        EmptyString;
        "            - TsfWriterTask:";
        "                filePath: " +:+ Py.quoted out_file;
        "                newFile: false";
        "                sourceMeta:";
        "                  coordSysId: " +:+ Py.quoted coord_sys_id;
        "                  sourceVersion: " +:+ Py.quoted source_version ])%list.

(** Lines 344-363: the engine runs with both its output streams in pipes.
    The script reads the standard output to its end before it reads the
    standard error: a child that in the meantime writes more to its
    standard error than the pipe takes waits for room, the script waits for
    the end of the standard output, and the run stalls.  Otherwise what the
    child wrote to its standard error is passed on except for the benign
    warning, and a non-zero status ends the run with that status. *)
Definition run_gautil (w : world) (gautil_cmd : list string) : prog unit :=
  emit (Subprocess gautil_cmd);;
  (if child_fills_stderr w gautil_cmd then lift Stalls else mret tt);;
  emit_all (List.map Stderr
              (List.filter (fun line => negb (Py.contains benign_warning line))
                           (child_stderr w gautil_cmd)));;
  let return_code := child_status w gautil_cmd in
  if negb (return_code =? 0) then
    emit (Stderr ("Error: gautil failed with return code " +:+ Py.str return_code));;
    sys_exit return_code
  else mret tt.

(** The values [main] has computed when it calls [check_tbi_files]. *)
Record checked_state : Type := {
  workspace_dir : string;
  agent_cpu_cores : Z;
  task_dir : string;
  source_name : string;
  out_file_base : string;
  skipped_files_path : string;
  coord_sys_id : string;
  annotations_folder : string;
  found_counts : option string;
  new_out_file : string
}.

(** What [main] does before [check_tbi_files] (lines 167-207). *)
Definition before_check (w : world) (a : args) : prog checked_state :=
  workspace_dir ← CohortUtils.get_env_or_error (environ w) "WORKSPACE_DIR";
  gh_workspace_assembly ← CohortUtils.get_env_or_error (environ w) "GH_WORKSPACE_ASSEMBLY";
  agent_cpu_cores ←
    lift (match environ w "AGENT_CPU_CORES" with
          | Some v => Py.int v
          | None => Return (match os_cpu_count w with
                            | Some n => if n =? 0 then 8 else n
                            | None => 8
                            end)
          end);
  let task_dir := default (script_tasks_dir w) (environ w "TASK_DIR") in
  let source_name := cohort_name a +:+ " Variant Frequencies" in
  let out_file_base := Py.replace ".tsf" EmptyString (out_file a) in
  let skipped_files_path := out_file_base +:+ "_skipped_duplicates.txt" in
  let coord_sys_id :=
    if Py.startswith gh_workspace_assembly "GRCh_37"
    then "GRCh_37_g1k,Chromosome,Homo sapiens"
    else "GRCh_38,Chromosome,Homo sapiens" in
  let annotations_folder := Py.join workspace_dir "AppData/Common Data/Annotations" in
  let existing_counts := find_existing_counts w (existing_counts a) out_file_base in
  let out_file := next_out_file w out_file_base in
  mret {| workspace_dir := workspace_dir; agent_cpu_cores := agent_cpu_cores;
          task_dir := task_dir; source_name := source_name;
          out_file_base := out_file_base; skipped_files_path := skipped_files_path;
          coord_sys_id := coord_sys_id; annotations_folder := annotations_folder;
          found_counts := existing_counts; new_out_file := out_file |}.

(** What [main] does after [check_tbi_files] (lines 212-374). *)
Definition after_check (w : world) (a : args) (st : checked_state) : prog unit :=
  sections ←
    match found_counts st with
    | Some ec =>
        if Py.nonempty ec && Py.endswith ec ".tsf" && negb (skip_existing_counts a)
           && path_exists w ec
        then
          let existing_counts_path := ec in
          let existing_counts_samples_path := ec +:+ ":2" in
          emit (WriteFile "existing_schema.json"
                  (child_stdout w [gautil_path a; "schema"; existing_counts_path]));;
          run_checked w [gautil_path a; "schema"; existing_counts_path];;
          emit (WriteFile "existing_schema_samples.json"
                  (child_stdout w [gautil_path a; "schema"; existing_counts_samples_path]));;
          run_checked w [gautil_path a; "schema"; existing_counts_samples_path];;
          mret (filter_existing_section existing_counts_samples_path (skipped_files_path st),
                existing_counts_path, existing_counts_samples_path)
        else mret ([], EmptyString, EmptyString)
    | None => mret ([], EmptyString, EmptyString)
    end;
  let '(filter_existing, existing_counts_path, existing_counts_samples_path) := sections in
  let filter_by_expr := filter_by_expr_section (info_filter a) (format_filter a) in
  file_count ← count_files_in_manifest w (manifest_file a);
  threads ← calculate_thread_counts w (agent_cpu_cores st) file_count (task_dir st);
  let '(reader_threads, readers_per_flattener) := threads in
  let batch_file_path := "gautil_batch_file.yaml" in
  emit (WriteFile batch_file_path
          (gautil_batch_content filter_existing filter_by_expr
             reader_threads readers_per_flattener
             existing_counts_path existing_counts_samples_path (source_name st)
             (sample_name_threshold a) (new_out_file st) (coord_sys_id st) (series_name a)
             (source_version w)));;
  let gautil_cmd :=
    [gautil_path a; "run"; "--annotationFolder=" +:+ annotations_folder st;
     "--manifest"; manifest_file a; "-c"; batch_file_path] in
  run_gautil w gautil_cmd;;
  run_checked w [gautil_path a; "precompute"; new_out_file st];;
  if path_exists_after w (skipped_files_path st)
     && (getsize_after w (skipped_files_path st) =? 0)
  then remove w (skipped_files_path st)
  else mret tt.

Definition main (w : world) (a : args) : prog unit :=
  st ← before_check w a;
  check_tbi_files w (manifest_file a);;
  after_check w a st.

End CohortUpdate.

(** [config[key]] and [config.get(key, fallback)]. *)
Definition config_item (config : gmap string string) (key : string) : prog string :=
  match config !! key with
  | Some v => mret v
  | None => lift (Raise KeyError)
  end.

(** [int(os.environ.get(name))]: [int(None)] is a [TypeError]. *)
Definition int_environ (w : world) (name : string) : prog Z :=
  match environ w name with
  | Some v => lift (Py.int v)
  | None => lift (Raise TypeError)
  end.

(** The guard on the annotations folder in [cohort_merge.py] and
    [vcf_merge.py]: its message names a variable that does not exist. *)
Definition require_annotations_folder (w : world) (annotations_folder : string) : prog unit :=
  if negb (path_exists w annotations_folder) then lift (Raise NameError) else mret tt.

(** ** scripts/cohort_merge.py *)

Module CohortMerge.

Record args : Type := {
  config : string;
  manifest_parameter_file : string;
  existing_counts : option string;
  out_file : option string
}.

(** Truth value of an optional command line argument. *)
Definition given (o : option string) : bool :=
  match o with Some v => Py.nonempty v | None => false end.

(** Lines 52-65: the loop over the lines after the header. *)
Definition read_new_counts_files (manifest_parameter_file : string) (lines : list string)
  : list string :=
  foldl (fun new_counts_files line =>
           let line := Py.strip line in
           if negb (Py.nonempty line) || Py.startswith line "#" then new_counts_files
           else
             let output_file := Py.before "," line in
             let output_file := Py.replace ".manifest.txt" ".tsf" output_file in
             let output_file_path :=
               Py.join (Py.dirname manifest_parameter_file) output_file in
             (new_counts_files ++ [output_file_path])%list)
        [] (tail lines).

Definition source_version (w : world) : string := Py.strftime_YmdHM (utcnow w).

(** Lines 86-98: the name of the file this run creates; [chosen] is
    [args.out_file] when given and [config['out_file']] otherwise. *)
Definition next_out_file (arg_given : bool) (chosen source_version workspace_dir : string)
  : string :=
  let out_file := chosen in
  let out_file :=
    if Py.endswith out_file ".tsf" then Py.upto (String.length out_file - 4) out_file
    else out_file in
  let out_file :=
    if negb arg_given then out_file +:+ "_" +:+ source_version else out_file in
  let out_file :=
    if negb (Py.endswith out_file ".tsf") then out_file +:+ ".tsf" else out_file in
  Py.join workspace_dir out_file.

(** Lines 105-113: the most recent counts file among those the pattern
    finds, by the order of their base names. *)
Definition latest_by_name (found : list string) : option string :=
  match found with
  | [] => None
  | _ => last (Py.sorted Py.basename String.ltb found)
  end.

Definition find_existing_counts (w : world) (a : args) (out_file : string) : option string :=
  if given (existing_counts a) then existing_counts a
  else latest_by_name (glob w (out_file +:+ "_*.tsf")).

(** The merge stage of the batch file (lines 164-169). *)
Definition merge_stage (reader_threads readers_per_flattener : Z) : list string :=
  [ "        - mergeVariantsTransform:";
    "            onlyMergeMatchingRefAlts: true";
    "            mergeDifferentRecordTypes: false";
    "            inputBufferSize: 100";
    "            readerWorkerThreads: " +:+ Py.str reader_threads;
    "            readersPerFlattener: " +:+ Py.str readers_per_flattener ].

(** The batch file, line by line (lines 163-204). *)
Definition gautil_batch_content (reader_threads readers_per_flattener : Z)
    (existing_counts existing_counts_samples source_name : string)
    (sample_name_threshold : Z)
    (out_file coord_sys_id series_name source_version : string) : list string :=
  ([ EmptyString ]
   ++ merge_stage reader_threads readers_per_flattener
   ++ [ EmptyString;
        "        - additiveCountAlleles:";
        "            existingCountsSource: " +:+ Py.quoted existing_counts;
        "            existingCountsSampleSource: " +:+ Py.quoted existing_counts_samples;
        "            countNoCalls: true";
        "            sourceNamePrefix: " +:+ Py.quoted source_name;
        "            outputSampleNamesThreshold: " +:+ Py.str sample_name_threshold;
        EmptyString;
        "        - runTaskLists:";
        "            taskLists:";
        "              - SourceTaskListTask:";
        "                  taskList:";
        "                    - createAnnotation";
        "                    - TsfWriterTask:";
        "                        filePath: " +:+ Py.quoted out_file;
        "                        sourceMeta:";
        "                          coordSysId: " +:+ Py.quoted coord_sys_id;
        "                          seriesName: " +:+ Py.quoted series_name;
        "                          sourceVersion: " +:+ Py.quoted source_version;
        EmptyString;
        "              - SourceTaskListTask:";
        "                  taskList:";
        "                    - keepFields:";
        "                        keepSymbols:";
        "                          - Samples";
        "                    - subsetUsageSpace:";
        "                        usageSpace: " +:+ Py.quoted "[]";
        EmptyString;
        "                    - TsfWriterTask:";
        "                        filePath: " +:+ Py.quoted out_file;
        "                        newFile: false";
        "                        sourceMeta:";
        "                          coordSysId: " +:+ Py.quoted coord_sys_id;
        "                          sourceVersion: " +:+ Py.quoted source_version ])%list.

(** The thread counts [main] asks for (line 157) and the merge stage it
    writes with them. *)
Definition thread_counts (agent_cpu_cores : Z) (new_counts_files : list string)
  : outcome (Z * Z) :=
  CohortUtils.calculate_thread_counts agent_cpu_cores (Z.of_nat (length new_counts_files)).

Definition main (w : world) (a : args) : prog unit :=
  config ← lift (load_config_file w (config a));
  lines ← open_read w (manifest_parameter_file a);
  let new_counts_files := read_new_counts_files (manifest_parameter_file a) lines in
  if (length new_counts_files =? 0)%nat then sys_exit 1
  else
    cohort_name ← config_item config "cohort_name";
    series_name ← config_item config "series_name";
    let source_version := source_version w in
    workspace_dir ← CohortUtils.get_env_or_error (environ w) "WORKSPACE_DIR";
    gh_workspace_assembly ← CohortUtils.get_env_or_error (environ w) "GH_WORKSPACE_ASSEMBLY";
    agent_cpu_cores ← int_environ w "AGENT_CPU_CORES";
    agent_memory_gb ← int_environ w "AGENT_MEMORY_GB";
    chosen ← (if given (out_file a) then mret (default EmptyString (out_file a))
               else config_item config "out_file");
    let out_file := next_out_file (given (out_file a)) chosen source_version workspace_dir in
    let found := find_existing_counts w a out_file in
    let existing_counts := default EmptyString found in
    let existing_counts_samples :=
      match found with Some e => e +:+ ":2" | None => EmptyString end in
    sample_name_threshold ←
      lift (Py.int (default "20" (config !! "sample_name_threshold")));
    let gautil_path := default "/opt/apiserver/gautil" (environ w "GAUTIL_PATH") in
    let source_name := cohort_name +:+ " Variant Frequencies" in
    let coord_sys_id :=
      if Py.startswith gh_workspace_assembly "GRCh_37"
      then "GRCh_37_g1k,Chromosome,Homo sapiens"
      else "GRCh_38,Chromosome,Homo sapiens" in
    let annotations_folder := Py.join workspace_dir "AppData/Common Data/Annotations" in
    require_annotations_folder w annotations_folder;;
    threads ← lift (thread_counts agent_cpu_cores new_counts_files);
    let '(reader_threads, readers_per_flattener) := threads in
    let batch_file_path := "gautil_batch_cohort.yaml" in
    emit (WriteFile batch_file_path
            (gautil_batch_content reader_threads readers_per_flattener
               existing_counts existing_counts_samples source_name
               sample_name_threshold out_file coord_sys_id series_name source_version));;
    let manifest_file := "manifest_cohort_merge.txt" in
    emit (WriteFile manifest_file new_counts_files);;
    let gautil_cmd :=
      [gautil_path; "run"; "--annotationFolder=" +:+ annotations_folder;
       "--manifest"; manifest_file; "-c"; batch_file_path] in
    CohortUtils.run_process_with_filtered_output w gautil_cmd [benign_warning];;
    run_checked w [gautil_path; "precompute"; out_file].

End CohortMerge.

(** ** scripts/vcf_merge.py *)

Module VcfMerge.

Record args : Type := { config : string; manifest_file : string }.

(** The loop of [check_tbi_files]: the index files that are not there. *)
Definition missing_tbi_files (w : world) (lines : list string) : list string :=
  foldl (fun missing line =>
           let vcf_file := Py.strip line in
           if negb (Py.nonempty vcf_file) then missing
           else if Py.endswith vcf_file ".vcf.gz" then
             let tbi_file := vcf_file +:+ ".tbi" in
             if negb (path_exists w tbi_file) then (missing ++ [tbi_file])%list else missing
           else missing)
        [] lines.

Definition check_tbi_files (w : world) (manifest_file : string) : prog unit :=
  lines ← open_read w manifest_file;
  match missing_tbi_files w lines with
  | [] => mret tt
  | missing =>
      emit (Stderr "Error: The following TBI index files are missing:");;
      emit_all (List.map (fun missing_file => Stderr ("  " +:+ missing_file)) missing);;
      sys_exit 1
  end.

(** Lines 117-126. *)
Definition filter_by_expr_section (info_filter format_filter : option string) : list string :=
  if CohortMerge.given info_filter || CohortMerge.given format_filter then
    (["      - filterByExpr:"]
     ++ (if CohortMerge.given info_filter
         then ["          expr: " +:+ CohortUtils.quote_if_needed (default EmptyString info_filter)]
         else [])
     ++ (if CohortMerge.given format_filter
         then ["          sampleExpr: "
               +:+ CohortUtils.quote_if_needed (default EmptyString format_filter)]
         else []))%list
  else [].

(** The merge stage of the batch file (lines 172-177). *)
Definition merge_stage (reader_threads readers_per_flattener : Z) : list string :=
  [ "- mergeVariantsTransform:";
    "    onlyMergeMatchingRefAlts: true";
    "    mergeDifferentRecordTypes: false";
    "    inputBufferSize: 1000";
    "    readerWorkerThreads: " +:+ Py.str reader_threads;
    "    readersPerFlattener: " +:+ Py.str readers_per_flattener ].

(** The batch file, line by line (lines 150-185). *)
Definition gautil_batch_content (filter_by_expr : list string)
    (reader_threads readers_per_flattener : Z)
    (out_file coord_sys_id series_name source_version : string) : list string :=
  ([ "- forEach:";
     "    inputCount: 1";
     "    taskList:";
     "      - stableSourcePropTransform:";
     "          sourceProps:";
     "            - StringProp:";
     "                name: CombineGVCFSpanRecord";
     "                value: true";
     "      - alleleicPrimitives" ]
   ++ filter_by_expr
   ++ [ "      - keepFields:";
        "          keepSymbols:";
        "            - RefAlt";
        "            - REF";
        "            - ALT";
        "            - GT";
        "            - END";
        "            - Samples";
        "      - fullyFlattenedMultiAllelicSplit";
        "      - leftAlign";
        "      - trimCommonBases";
        "      - variantCollapsing";
        EmptyString ]
   ++ merge_stage reader_threads readers_per_flattener
   ++ [ EmptyString;
        "- TsfWriterTask:";
        "    filePath: " +:+ Py.quoted out_file;
        "    sourceMeta:";
        "      coordSysId: " +:+ Py.quoted coord_sys_id;
        "      seriesName: " +:+ Py.quoted series_name;
        "      sourceVersion: " +:+ Py.quoted source_version ])%list.

(** The values [main] has computed when it calls [check_tbi_files]. *)
Record checked_state : Type := {
  workspace_dir : string;
  agent_cpu_cores : Z;
  info_filter : option string;
  format_filter : option string;
  out_file : string;
  coord_sys_id : string;
  series_name : string;
  source_version : string;
  gautil_path : string
}.

(** What [main] does before [check_tbi_files] (lines 61-99). *)
Definition before_check (w : world) (a : args) : prog checked_state :=
  config ← lift (load_config_file w (config a));
  let out_file := Py.replace ".manifest.txt" ".tsf" (manifest_file a) in
  (if path_exists w out_file then remove w out_file else mret tt);;
  cohort_name ← config_item config "cohort_name";
  series_name ← config_item config "series_name";
  sample_name_threshold ← lift (Py.int (default "20" (config !! "sample_name_threshold")));
  let info_filter := config !! "info_filter" in
  let format_filter := config !! "format_filter" in
  let gautil_path := default "/opt/apiserver/gautil" (environ w "GAUTIL_PATH") in
  workspace_dir ← CohortUtils.get_env_or_error (environ w) "WORKSPACE_DIR";
  gh_workspace_assembly ← CohortUtils.get_env_or_error (environ w) "GH_WORKSPACE_ASSEMBLY";
  agent_cpu_cores ← int_environ w "AGENT_CPU_CORES";
  agent_memory_gb ← int_environ w "AGENT_MEMORY_GB";
  let source_version := Py.strftime_Ymd (utcnow w) in
  let coord_sys_id :=
    if Py.startswith gh_workspace_assembly "GRCh_37"
    then "GRCh_37_g1k,Chromosome,Homo sapiens"
    else "GRCh_38,Chromosome,Homo sapiens" in
  mret {| workspace_dir := workspace_dir; agent_cpu_cores := agent_cpu_cores;
          info_filter := info_filter; format_filter := format_filter;
          out_file := out_file; coord_sys_id := coord_sys_id;
          series_name := series_name; source_version := source_version;
          gautil_path := gautil_path |}.

(** What [main] does after [check_tbi_files] (lines 105-211). *)
Definition after_check (w : world) (a : args) (st : checked_state) : prog unit :=
  let annotations_folder := Py.join (workspace_dir st) "AppData/Common Data/Annotations" in
  require_annotations_folder w annotations_folder;;
  let filter_by_expr := filter_by_expr_section (info_filter st) (format_filter st) in
  lines ← open_read w (manifest_file a);
  let file_count :=
    length (List.filter (fun line => Py.nonempty (Py.strip line)) lines) in
  if (file_count =? 0)%nat then sys_exit 1
  else
    threads ← lift (CohortUtils.calculate_thread_counts (agent_cpu_cores st) 1);
    let '(reader_threads, readers_per_flattener) := threads in
    let batch_file_path := "gautil_batch_file.yaml" in
    emit (WriteFile batch_file_path
            (gautil_batch_content filter_by_expr reader_threads readers_per_flattener
               (out_file st) (coord_sys_id st) (series_name st) (source_version st)));;
    let gautil_cmd :=
      [gautil_path st; "run"; "--annotationFolder=" +:+ annotations_folder;
       "--manifest"; manifest_file a; "-c"; batch_file_path] in
    CohortUtils.run_process_with_filtered_output w gautil_cmd [benign_warning];;
    mret tt.

(** The surroundings when [check_tbi_files] is called: the previous output
    of the manifest, if there was one, is gone. *)
Definition at_check (w : world) (a : args) : world :=
  let out_file := Py.replace ".manifest.txt" ".tsf" (manifest_file a) in
  if path_exists w out_file then remove_file w out_file else w.

Definition main (w : world) (a : args) : prog unit :=
  st ← before_check w a;
  check_tbi_files (at_check w a) (manifest_file a);;
  after_check (at_check w a) a st.

End VcfMerge.


(** ** A small world to run the scripts in

    A workspace [/ws] on 15 March 2024, 10:30:05 UTC, with 8 CPUs.  Every
    path exists except the [.tbi] index files; the manifest
    [batch.manifest.txt] names two compressed variant files and the index
    [manifest_list.csv] names one manifest.  Child processes succeed
    silently. *)

Definition demo_environ (name : string) : option string :=
  if String.eqb name "WORKSPACE_DIR" then Some "/ws"
  else if String.eqb name "GH_WORKSPACE_ASSEMBLY" then Some "GRCh_38"
  else if String.eqb name "AGENT_CPU_CORES" then Some "8"
  else if String.eqb name "AGENT_MEMORY_GB" then Some "16"
  else None.

Definition demo_open_lines (path : string) : option (list string) :=
  if String.eqb path "batch.manifest.txt"
  then Some [ "/data/s1.vcf.gz" +:+ String "010" EmptyString;
              String "010" EmptyString;
              "/data/s2.vcf.gz" +:+ String "010" EmptyString;
              "/data/notes.txt" +:+ String "010" EmptyString ]
  else if String.eqb path "manifest_list.csv"
  then Some [ "manifest_file" +:+ String "010" EmptyString;
              "batch_001.manifest.txt" +:+ String "010" EmptyString ]
  else None.

Definition demo_config : gmap string string :=
  <[ "cohort_name" := "demo" ]> (<[ "series_name" := "s" ]> (<[ "out_file" := "out" ]> ∅)).

Definition demo_world : world := {|
  environ := demo_environ;
  os_cpu_count := Some 8;
  utcnow := {| Py.year := 2024; Py.month := 3; Py.day := 15;
               Py.hour := 10; Py.minute := 30; Py.second := 5 |};
  now_timestamp := 1710498605;
  script_tasks_dir := "/repo/tasks";
  glob := fun _ => [];
  getmtime := fun _ => 0;
  path_exists := fun p => negb (Py.endswith p ".tbi");
  open_lines := demo_open_lines;
  open_error := fun _ => FileNotFoundError;
  remove_error := fun _ => None;
  load_config_file := fun _ => Return demo_config;
  child_status := fun _ => 0;
  child_stdout := fun _ => [];
  child_stderr := fun _ => [];
  child_fills_stderr := fun _ => false;
  repr_float := fun _ => "16.0";
  path_exists_after := fun _ => false;
  getsize_after := fun _ => 0
|}.

(** The same world at another moment, and with other files for [glob] to
    find. *)
Definition at_time (w : world) (d : Py.datetime) (timestamp : Z) : world := {|
  environ := environ w; os_cpu_count := os_cpu_count w;
  utcnow := d; now_timestamp := timestamp;
  script_tasks_dir := script_tasks_dir w; glob := glob w; getmtime := getmtime w;
  path_exists := path_exists w; open_lines := open_lines w;
  open_error := open_error w; remove_error := remove_error w;
  load_config_file := load_config_file w; child_status := child_status w;
  child_stdout := child_stdout w; child_stderr := child_stderr w;
  child_fills_stderr := child_fills_stderr w;
  repr_float := repr_float w; path_exists_after := path_exists_after w;
  getsize_after := getsize_after w
|}.

Definition with_files (w : world) (found : list string) (mtime : string -> Z) : world := {|
  environ := environ w; os_cpu_count := os_cpu_count w;
  utcnow := utcnow w; now_timestamp := now_timestamp w;
  script_tasks_dir := script_tasks_dir w; glob := fun _ => found; getmtime := mtime;
  path_exists := path_exists w; open_lines := open_lines w;
  open_error := open_error w; remove_error := remove_error w;
  load_config_file := load_config_file w; child_status := child_status w;
  child_stdout := child_stdout w; child_stderr := child_stderr w;
  child_fills_stderr := child_fills_stderr w;
  repr_float := repr_float w; path_exists_after := path_exists_after w;
  getsize_after := getsize_after w
|}.

Definition demo_merge_args : CohortMerge.args := {|
  CohortMerge.config := "cohort.conf";
  CohortMerge.manifest_parameter_file := "manifest_list.csv";
  CohortMerge.existing_counts := None;
  CohortMerge.out_file := None
|}.

Definition demo_update_args : CohortUpdate.args := {|
  CohortUpdate.manifest_file := "batch.manifest.txt";
  CohortUpdate.existing_counts := None;
  CohortUpdate.out_file := "out.tsf";
  CohortUpdate.cohort_name := "demo";
  CohortUpdate.series_name := "s";
  CohortUpdate.sample_name_threshold := 20;
  CohortUpdate.info_filter := "QUAL > 10";
  CohortUpdate.format_filter := "DP > 2";
  CohortUpdate.skip_existing_counts := false;
  CohortUpdate.gautil_path := "/opt/apiserver/gautil"
|}.

Definition demo_vcf_args : VcfMerge.args := {|
  VcfMerge.config := "cohort.conf";
  VcfMerge.manifest_file := "batch.manifest.txt"
|}.

(** A directory [/data] for the selector: [a.vcf.gz] holds the samples S2
    and S3, [b.vcf.gz] holds S1 and S4, the extraction fails on
    [c.vcf.gz]; there are also a text file and a subdirectory. *)
Definition demo_query (file_path : string) : option (list string) :=
  if String.eqb file_path "/data/a.vcf.gz" then Some ["S2"; " S3 "; EmptyString]
  else if String.eqb file_path "/data/b.vcf.gz" then Some ["S1"; "S4"]
  else None.

Definition demo_listing : list CreateManifest.dir_entry :=
  [ {| CreateManifest.entry_name := "c.vcf.gz"; CreateManifest.entry_is_file := true |};
    {| CreateManifest.entry_name := "b.vcf.gz"; CreateManifest.entry_is_file := true |};
    {| CreateManifest.entry_name := "notes.txt"; CreateManifest.entry_is_file := true |};
    {| CreateManifest.entry_name := "a.vcf.gz"; CreateManifest.entry_is_file := true |};
    {| CreateManifest.entry_name := "old.vcf.gz"; CreateManifest.entry_is_file := false |} ].

(** Modification times under which the file with the earlier date in its
    name was written last. *)
Definition demo_mtime (path : string) : Z :=
  if String.eqb path "out_2024-01-01.tsf" then 200 else 100.

(** ** scripts/cohort_utils.py: the configuration file *)

Module LoadConfig.

(** ['=' in line]. *)
Fixpoint has_char (c : ascii) (s : string) : bool :=
  match s with
  | EmptyString => false
  | String a s' => Ascii.eqb a c || has_char c s'
  end.

(** [s.split(sep, 1)[1]] when the separator occurs in [s]. *)
Fixpoint after (sep : ascii) (s : string) : string :=
  match s with
  | EmptyString => EmptyString
  | String c s' => if Ascii.eqb c sep then s' else after sep s'
  end.

(** [value[1:-1]] for a non-empty [value]. *)
Definition inner (value : string) : string :=
  String.substring 1 (String.length value - 2) value.

(** The removal of one pair of surrounding quotes, double or single. *)
Definition unquote (value : string) : string :=
  if (Py.startswith value (String Py.dquote EmptyString)
      && Py.endswith value (String Py.dquote EmptyString))
     || (Py.startswith value "'" && Py.endswith value "'")
  then inner value else value.

(** The key and the value an assignment line gives, the line being
    stripped already. *)
Definition line_key (line : string) : string := Py.strip (Py.before "=" line).
Definition line_value (line : string) : string := unquote (Py.strip (after "=" line)).

(** The body of the loop over the numbered lines: the dictionary so far and
    the warnings printed so far. *)
Definition read_line (st : gmap string string * list event) (numbered : nat * string)
  : gmap string string * list event :=
  let '(config, warnings) := st in
  let '(line_num, raw) := numbered in
  let line := Py.strip raw in
  if negb (Py.nonempty line) || Py.startswith line "#" then st
  else if negb (has_char "=" line) then
    (config,
     (warnings ++ [Stderr ("Warning: Skipping invalid line " +:+ Py.digits line_num
                           +:+ ": " +:+ line)])%list)
  else (<[ line_key line := line_value line ]> config, warnings).

(** [enumerate(f, 1)]. *)
Definition enumerate (lines : list string) : list (nat * string) :=
  combine (seq 1 (length lines)) lines.

Definition read_lines (lines : list string) : gmap string string * list event :=
  foldl read_line (∅, []) (enumerate lines).

(** The check of the required parameters, in their order. *)
Fixpoint require (config : gmap string string) (params : list string) : prog unit :=
  match params with
  | [] => mret tt
  | param :: rest =>
      match config !! param with
      | None =>
          emit (Stderr ("Error: Required parameter '" +:+ param
                        +:+ "' not found in config file"));;
          sys_exit 1
      | Some _ => require config rest
      end
  end.

Definition load_config_file (w : world) (config_path : string) : prog (gmap string string) :=
  lines ← open_read w config_path;
  let '(config, warnings) := read_lines lines in
  emit_all warnings;;
  require config ["cohort_name"; "series_name"];;
  mret config.

End LoadConfig.

(** ** scripts/create_manifest_files.py: the whole script *)

Module CreateManifestMain.

Record args : Type := {
  samples_file : string;
  directory : string;       (* as [str(Path(directory))] *)
  output_prefix : string;
  files_per_manifest : Z
}.

(** [main]: [is_dir] and [listing] describe the directory, and
    [bcftools_query_l] the extractor, as for the selector. *)
Definition main (w : world) (bcftools_query_l : string -> option (list string))
    (is_dir : bool) (listing : list CreateManifest.dir_entry) (a : args)
    (disk : gmap string (list string)) : gmap string (list string) * outcome unit :=
  match open_lines w (samples_file a) with
  | None => (disk, Raise (open_error w (samples_file a)))
  | Some lines =>
      let existing_samples := CreateManifest.read_existing_samples lines in
      match CreateManifest.find_files_with_new_samples bcftools_query_l (directory a)
              is_dir listing existing_samples with
      | Return files_with_new_samples =>
          match files_with_new_samples with
          | [] => (disk, Return tt)
          | _ => CreateManifest.write_manifest_files files_with_new_samples
                   (output_prefix a) (files_per_manifest a) disk
          end
      | SysExit c => (disk, SysExit c)
      | Raise e => (disk, Raise e)
      | Stalls => (disk, Stalls)
      end
  end.

(** The files named by the manifests that an index lists, in the order of
    the index: the header line is passed over, a manifest that is not on
    disk gives nothing. *)
Definition listed_files (disk : gmap string (list string)) (index : list string)
  : list string :=
  concat (List.map (fun manifest => default [] (disk !! manifest)) (tail index)).

End CreateManifestMain.

Definition demo_config_lines : list string :=
  [ "# cohort settings" +:+ String "010" EmptyString;
    "cohort_name = demo" +:+ String "010" EmptyString;
    String "010" EmptyString;
    "no assignment here" +:+ String "010" EmptyString;
    "series_name='s'" +:+ String "010" EmptyString;
    "cohort_name = later" +:+ String "010" EmptyString ].

(** The small world with a configuration file [cohort.conf] to read. *)
Definition with_config (w : world) : world := {|
  environ := environ w; os_cpu_count := os_cpu_count w;
  utcnow := utcnow w; now_timestamp := now_timestamp w;
  script_tasks_dir := script_tasks_dir w; glob := glob w; getmtime := getmtime w;
  path_exists := path_exists w;
  open_lines := fun path => if String.eqb path "cohort.conf" then Some demo_config_lines
                            else open_lines w path;
  open_error := open_error w; remove_error := remove_error w;
  load_config_file := load_config_file w; child_status := child_status w;
  child_stdout := child_stdout w; child_stderr := child_stderr w;
  child_fills_stderr := child_fills_stderr w;
  repr_float := repr_float w; path_exists_after := path_exists_after w;
  getsize_after := getsize_after w
|}.

(** What [cohort_update.py] has computed in the small world when it calls
    [check_tbi_files]. *)
Definition demo_update_state : CohortUpdate.checked_state := {|
  CohortUpdate.workspace_dir := "/ws";
  CohortUpdate.agent_cpu_cores := 8;
  CohortUpdate.task_dir := "/repo/tasks";
  CohortUpdate.source_name := "demo Variant Frequencies";
  CohortUpdate.out_file_base := "out";
  CohortUpdate.skipped_files_path := "out_skipped_duplicates.txt";
  CohortUpdate.coord_sys_id := "GRCh_38,Chromosome,Homo sapiens";
  CohortUpdate.annotations_folder := "/ws/AppData/Common Data/Annotations";
  CohortUpdate.found_counts := None;
  CohortUpdate.new_out_file := "out_2024-03-15_1710498605.tsf"
|}.

(** A world in which one more file can be read. *)
Definition with_file (w : world) (path : string) (lines : list string) : world := {|
  environ := environ w; os_cpu_count := os_cpu_count w;
  utcnow := utcnow w; now_timestamp := now_timestamp w;
  script_tasks_dir := script_tasks_dir w; glob := glob w; getmtime := getmtime w;
  path_exists := path_exists w;
  open_lines := fun p => if String.eqb p path then Some lines else open_lines w p;
  open_error := open_error w; remove_error := remove_error w;
  load_config_file := load_config_file w; child_status := child_status w;
  child_stdout := child_stdout w; child_stderr := child_stderr w;
  child_fills_stderr := child_fills_stderr w;
  repr_float := repr_float w; path_exists_after := path_exists_after w;
  getsize_after := getsize_after w
|}.

(** A world in which the index files are there as well. *)
Definition with_indexes (w : world) : world := {|
  environ := environ w; os_cpu_count := os_cpu_count w;
  utcnow := utcnow w; now_timestamp := now_timestamp w;
  script_tasks_dir := script_tasks_dir w; glob := glob w; getmtime := getmtime w;
  path_exists := fun _ => true;
  open_lines := open_lines w;
  open_error := open_error w; remove_error := remove_error w;
  load_config_file := load_config_file w; child_status := child_status w;
  child_stdout := child_stdout w; child_stderr := child_stderr w;
  child_fills_stderr := child_fills_stderr w;
  repr_float := repr_float w; path_exists_after := path_exists_after w;
  getsize_after := getsize_after w
|}.

(** A world without [threadCount.py], and indeed without any file. *)
Definition no_script (w : world) : world := {|
  environ := environ w; os_cpu_count := os_cpu_count w;
  utcnow := utcnow w; now_timestamp := now_timestamp w;
  script_tasks_dir := script_tasks_dir w; glob := glob w; getmtime := getmtime w;
  path_exists := fun _ => false;
  open_lines := open_lines w;
  open_error := open_error w; remove_error := remove_error w;
  load_config_file := load_config_file w; child_status := child_status w;
  child_stdout := child_stdout w; child_stderr := child_stderr w;
  child_fills_stderr := child_fills_stderr w;
  repr_float := repr_float w; path_exists_after := path_exists_after w;
  getsize_after := getsize_after w
|}.


(** A world in which [path] is a directory: it exists, and reading it or
    removing it raises [IsADirectoryError]. *)
Definition with_directory (w : world) (path : string) : world := {|
  environ := environ w; os_cpu_count := os_cpu_count w;
  utcnow := utcnow w; now_timestamp := now_timestamp w;
  script_tasks_dir := script_tasks_dir w; glob := glob w; getmtime := getmtime w;
  path_exists := fun p => if String.eqb p path then true else path_exists w p;
  open_lines := fun p => if String.eqb p path then None else open_lines w p;
  open_error := fun p => if String.eqb p path then IsADirectoryError else open_error w p;
  remove_error := fun p => if String.eqb p path then Some IsADirectoryError
                           else remove_error w p;
  load_config_file := load_config_file w; child_status := child_status w;
  child_stdout := child_stdout w; child_stderr := child_stderr w;
  child_fills_stderr := child_fills_stderr w;
  repr_float := repr_float w; path_exists_after := path_exists_after w;
  getsize_after := getsize_after w
|}.

(** ** The engine and its two pipes (lines 344-360 of [cohort_update.py])

    [subprocess.Popen(..., stdout=PIPE, stderr=PIPE)] gives the child a
    pipe for each of its output streams.  A pipe holds a bounded number of
    bytes: a write waits while there is no room, a read waits while the
    pipe is empty and its writing end is open.  The child is taken by the
    [write] calls it makes, in order, and it leaves, closing both pipes,
    when it has made them all.  [capacity] is the most a pipe can hold;
    every transition moves any number of bytes that the room allows, so
    that a system that holds less, or moves bytes in other portions, can
    only do less. *)

Module EngineRun.

Inductive stream : Type := ToStdout | ToStderr.

(** Where the script is in lines 353-360. *)
Inductive reader : Type :=
  | ReadingStdout       (* for line in process.stdout: *)
  | ReadingStderr       (* for line in process.stderr: *)
  | Waiting             (* return_code = process.wait() *)
  | Finished.

Record state : Type := {
  writes : list (stream * list ascii);  (* what the child has still to write, call by call *)
  exited : bool;                        (* the child has left *)
  out_pipe : list ascii;                (* the bytes written and not yet read *)
  err_pipe : list ascii;
  parent : reader;
  out_seen : list ascii;                (* the bytes the script has read *)
  err_seen : list ascii
}.

Definition start (script : list (stream * list ascii)) : state := {|
  writes := script; exited := false; out_pipe := []; err_pipe := [];
  parent := ReadingStdout; out_seen := []; err_seen := []
|}.

Definition pipe (s : stream) (st : state) : list ascii :=
  match s with ToStdout => out_pipe st | ToStderr => err_pipe st end.

Section Capacity.
Variable capacity : nat.

(** The state once the child's [write] of [data] to [s] has passed on [k]
    bytes, once the child has got to [rest] of its writes, and once the
    script has read [k] bytes of a stream. *)
Definition wrote (s : stream) (k : nat) (data : list ascii)
    (rest : list (stream * list ascii)) (st : state) : state :=
  {| writes := (s, drop k data) :: rest; exited := exited st;
     out_pipe := match s with
                 | ToStdout => (out_pipe st ++ take k data)%list
                 | ToStderr => out_pipe st
                 end;
     err_pipe := match s with
                 | ToStdout => err_pipe st
                 | ToStderr => (err_pipe st ++ take k data)%list
                 end;
     parent := parent st; out_seen := out_seen st; err_seen := err_seen st |}.

Definition went_on (rest : list (stream * list ascii)) (gone : bool) (st : state) : state :=
  {| writes := rest; exited := gone;
     out_pipe := out_pipe st; err_pipe := err_pipe st;
     parent := parent st; out_seen := out_seen st; err_seen := err_seen st |}.

Definition read (s : stream) (k : nat) (st : state) : state :=
  {| writes := writes st; exited := exited st;
     out_pipe := match s with ToStdout => drop k (out_pipe st) | ToStderr => out_pipe st end;
     err_pipe := match s with ToStdout => err_pipe st | ToStderr => drop k (err_pipe st) end;
     parent := parent st;
     out_seen := match s with
                 | ToStdout => (out_seen st ++ take k (out_pipe st))%list
                 | ToStderr => out_seen st
                 end;
     err_seen := match s with
                 | ToStdout => err_seen st
                 | ToStderr => (err_seen st ++ take k (err_pipe st))%list
                 end |}.

Definition moves_on (st : state) (next : reader) : state :=
  {| writes := writes st; exited := exited st;
     out_pipe := out_pipe st; err_pipe := err_pipe st;
     parent := next; out_seen := out_seen st; err_seen := err_seen st |}.

(** The child's [write] passes on its next [k] bytes, when there is room
    for them. *)
Definition child_writes (k : nat) (st : state) : option state :=
  match writes st with
  | (s, data) :: rest =>
      if (0 <? k)%nat && (k <=? length data)%nat
         && (length (pipe s st) + k <=? capacity)%nat
      then Some (wrote s k data rest st)
      else None
  | [] => None
  end.

(** A [write] that has passed on all its bytes returns, and the child goes
    on to the next; after the last it leaves. *)
Definition child_goes_on (st : state) : option state :=
  match writes st with
  | (s, []) :: rest => Some (went_on rest (exited st) st)
  | _ :: _ => None
  | [] => if exited st then None else Some (went_on [] true st)
  end.

(** The script reads [k] bytes of a stream, or finds its end, which is
    there when the pipe is empty and the child has left. *)
Definition reads (s : stream) (k : nat) (next : reader) (st : state) : option state :=
  match pipe s st with
  | [] => if exited st then Some (moves_on st next) else None
  | _ :: _ =>
      if (0 <? k)%nat && (k <=? length (pipe s st))%nat then Some (read s k st) else None
  end.

(** The script: it reads the standard output to its end, only then the
    standard error to its end, and then waits for the child. *)
Definition script_steps (k : nat) (st : state) : option state :=
  match parent st with
  | ReadingStdout => reads ToStdout k ReadingStderr st
  | ReadingStderr => reads ToStderr k Waiting st
  | Waiting => if exited st then Some (moves_on st Finished) else None
  | Finished => None
  end.

(** One step of the child or of the script, whichever the scheduler
    takes. *)
Definition step (st st' : state) : Prop :=
  (exists k, child_writes k st = Some st') \/ child_goes_on st = Some st' \/
  (exists k, script_steps k st = Some st').

Definition stuck (st : state) : Prop := forall st', ~ step st st'.

(** A scheduler that lets the child go first and moves as many bytes as
    it can. *)
Definition advance (st : state) : option state :=
  match child_goes_on st with
  | Some st' => Some st'
  | None =>
      let k := match writes st with
               | (s, data) :: _ => Nat.min (length data) (capacity - length (pipe s st))
               | [] => 0%nat
               end in
      match child_writes k st with
      | Some st' => Some st'
      | None =>
          script_steps (match parent st with
                        | ReadingStdout => length (out_pipe st)
                        | _ => length (err_pipe st)
                        end) st
      end
  end.

Fixpoint run (fuel : nat) (st : state) : state :=
  match fuel with
  | O => st
  | S fuel' => match advance st with Some st' => run fuel' st' | None => st end
  end.

End Capacity.

(** The bytes a script writes to one stream. *)
Definition written (s : stream) (script : list (stream * list ascii)) : list ascii :=
  concat (List.map (fun w => match s, fst w with
                             | ToStdout, ToStdout | ToStderr, ToStderr => snd w
                             | _, _ => []
                             end) script).

Definition bytes_left (ws : list (stream * list ascii)) : nat :=
  (length (written ToStdout ws) + length (written ToStderr ws))%nat.

Definition rank (p : reader) : nat :=
  match p with ReadingStdout => 3 | ReadingStderr => 2 | Waiting => 1 | Finished => 0 end%nat.

(** Every step brings the run nearer to its end, be it the end of the
    script or a stall: this is how far it is at most. *)
Definition distance (st : state) : nat :=
  (2 * bytes_left (writes st) + length (out_pipe st) + length (err_pipe st)
   + length (writes st) + (if exited st then 0 else 1) + rank (parent st))%nat.

(** What holds all along a run: no byte is lost or made up, no pipe holds
    more than it can, a child that has left has nothing more to write, and
    the script reads the standard error only after the end of the standard
    output. *)
Definition sound (capacity : nat) (script : list (stream * list ascii)) (st : state) : Prop :=
  (out_seen st ++ out_pipe st ++ written ToStdout (writes st))%list
  = written ToStdout script /\
  (err_seen st ++ err_pipe st ++ written ToStderr (writes st))%list
  = written ToStderr script /\
  (length (out_pipe st) <= capacity)%nat /\
  (length (err_pipe st) <= capacity)%nat /\
  (exited st = true -> writes st = []) /\
  match parent st with
  | ReadingStdout => err_seen st = []
  | ReadingStderr => exited st = true /\ out_pipe st = []
  | Waiting | Finished => exited st = true /\ out_pipe st = [] /\ err_pipe st = []
  end.

End EngineRun.

(** A world whose engine writes more to its standard error than the pipe
    takes. *)
Definition with_full_stderr (w : world) : world := {|
  environ := environ w; os_cpu_count := os_cpu_count w;
  utcnow := utcnow w; now_timestamp := now_timestamp w;
  script_tasks_dir := script_tasks_dir w; glob := glob w; getmtime := getmtime w;
  path_exists := path_exists w; open_lines := open_lines w;
  open_error := open_error w; remove_error := remove_error w;
  load_config_file := load_config_file w; child_status := child_status w;
  child_stdout := child_stdout w; child_stderr := child_stderr w;
  child_fills_stderr := fun _ => true;
  repr_float := repr_float w; path_exists_after := path_exists_after w;
  getsize_after := getsize_after w
|}.

(** * Properties *)

(** ** Sanity checks of the Python helpers on small inputs *)

Example py_str_neg : Py.str (-12) = "-12". Proof. reflexivity. Qed.

Example py_strip_ex : Py.strip (" a b" +:+ String "010" EmptyString) = "a b". Proof. reflexivity. Qed.

Example py_base_ex : Py.basename "/x/y/out_1.tsf" = "out_1.tsf". Proof. reflexivity. Qed.

Example py_join_ex : Py.join "/ws" "out.tsf" = "/ws/out.tsf". Proof. reflexivity. Qed.

Example py_fmt_ex : Py.format_0d 3 7 = "007" /\ Py.format_0d 3 1234 = "1234". Proof. split; reflexivity. Qed.

Example py_sorted_ex : Py.sorted_str ["b"; "a"; "c"; "a"] = ["a"; "a"; "b"; "c"]. Proof. reflexivity. Qed.

Example py_ends_ex : Py.endswith "x.vcf.gz" ".vcf.gz" = true /\ Py.endswith "gz" ".vcf.gz" = false. Proof. split; reflexivity. Qed.

Example py_slice_ex : Py.slice ["a"; "b"; "c"] 2 4 = ["c"] /\ Py.slice ["a"] 0 (-5) = @nil string.
Proof. split; reflexivity. Qed.

Example py_replace_ex :
  Py.replace ".tsf" EmptyString "a.tsf.b.tsf" = "a.b" /\
  Py.replace ".manifest.txt" ".tsf" "m_001.manifest.txt" = "m_001.tsf".
Proof. split; reflexivity. Qed.

Example is_vcf_gz_ex :
  CreateManifest.is_vcf_gz "s1.vcf.gz" = true /\ CreateManifest.is_vcf_gz "s1.vcf" = false /\
  CreateManifest.is_vcf_gz "s1.gz" = false /\ CreateManifest.is_vcf_gz "a.b.vcf.gz" = true /\
  CreateManifest.is_vcf_gz "vcf.gz" = true.
Proof. repeat split; reflexivity. Qed.

Example groups_ex :
  CreateManifest.groups ["a"; "b"; "c"; "d"; "e"] 2 = [["a"; "b"]; ["c"; "d"]; ["e"]].
Proof. reflexivity. Qed.

Example py_int_ex : Py.int (" 42" +:+ String "010" EmptyString) = Return 42 /\ Py.int "x" = Raise ValueError.
Proof. split; reflexivity. Qed.

Example py_dirname_ex :
  Py.dirname "/a/b/c.csv" = "/a/b" /\ Py.dirname "c.csv" = EmptyString /\ Py.dirname "/c" = "/".
Proof. repeat split; reflexivity. Qed.

Example py_strftime_ex :
  Py.strftime_YmdHM {| Py.year := 2024; Py.month := 3; Py.day := 5; Py.hour := 9;
                       Py.minute := 7; Py.second := 59 |} = "2024-03-05-09-07".
Proof. reflexivity. Qed.

Example is_vcf_gz_edge :
  CreateManifest.is_vcf_gz ".vcf.gz" = true /\ CreateManifest.is_vcf_gz "..gz" = false /\
  CreateManifest.is_vcf_gz ".gz" = false /\ CreateManifest.is_vcf_gz "a.gz." = false /\
  CreateManifest.is_vcf_gz "x.vcf.gz.gz" = false.
Proof. repeat split; reflexivity. Qed.

Example path_str_ex :
  CreateManifest.path_str "." "a" = "a" /\ CreateManifest.path_str "/" "a" = "/a" /\
  CreateManifest.path_str "/d" "a" = "/d/a".
Proof. repeat split; reflexivity. Qed.

Example py_dirname_edge : Py.dirname "//c" = "//" /\ Py.dirname "a//b" = "a".
Proof. split; reflexivity. Qed.

Example py_join_edge :
  Py.join "/ws/" "out.tsf" = "/ws/out.tsf" /\ Py.join EmptyString "x" = "x" /\
  Py.join "/ws" "/abs" = "/abs".
Proof. repeat split; reflexivity. Qed.

Example py_replace_overlap : Py.replace "aa" "b" "aaa" = "ba".
Proof. reflexivity. Qed.

Example compute_ex :
  (exists c, ThreadCount.compute 3 5 = Return c /\ ThreadCount.flatten_threads c = 1 /\
             ThreadCount.reader_threads c = 2 /\ ThreadCount.readers_per_flattener c = 5) /\
  (exists c, ThreadCount.compute 16 40 = Return c /\ ThreadCount.flatten_threads c = 14 /\
             ThreadCount.reader_threads c = 1 /\ ThreadCount.readers_per_flattener c = 3) /\
  (exists c, ThreadCount.compute 1 1 = Return c /\ ThreadCount.flatten_threads c = -1 /\
             ThreadCount.reader_threads c = 1 /\ ThreadCount.readers_per_flattener c = -1).
Proof. repeat split; eexists; (split; [reflexivity |]); repeat split. Qed.

Example missing_tbi_ex :
  CohortUpdate.missing_tbi_files demo_world
    ["/data/s1.vcf.gz" +:+ String "010" EmptyString; "  " ; "/data/notes.txt"; "x.vcf.gz  "]
  = ["/data/s1.vcf.gz.tbi"; "x.vcf.gz.tbi"].
Proof. reflexivity. Qed.

Example update_name_ex :
  CohortUpdate.next_out_file demo_world "out" = "out_2024-03-15_1710498605.tsf".
Proof. reflexivity. Qed.

Example merge_name_ex :
  CohortMerge.next_out_file false "out.tsf" (CohortMerge.source_version demo_world) "/ws"
  = "/ws/out_2024-03-15-10-30.tsf" /\
  CohortMerge.next_out_file true "out.tsf" (CohortMerge.source_version demo_world) "/ws"
  = "/ws/out.tsf".
Proof. split; reflexivity. Qed.

Example new_counts_files_ex :
  CohortMerge.read_new_counts_files "/run/manifest_list.csv"
    [ "manifest_file" +:+ String "010" EmptyString;
      "batch_001.manifest.txt" +:+ String "010" EmptyString;
      "# note" +:+ String "010" EmptyString;
      "batch_002.manifest.txt,extra" +:+ String "010" EmptyString ]
  = ["/run/batch_001.tsf"; "/run/batch_002.tsf"].
Proof. reflexivity. Qed.

(** ** Outcomes and runs *)

Lemma events_bind {A B : Type} (m : prog A) (f : A -> prog B) (e : event) :
  In e (events (m ≫= f)) ->
  In e (events m) \/ exists a, result m = Return a /\ In e (events (f a)).
Proof.
  destruct m as [t [a | c | x |]]; cbn; auto.
  destruct (f a) as [t' o] eqn:Hf. cbn. rewrite in_app_iff.
  intros [H | H]; [now left | right]. exists a. rewrite Hf. now split.
Qed.

Lemma result_bind_return {A B : Type} (m : prog A) (f : A -> prog B) (b : B) :
  result (m ≫= f) = Return b ->
  exists a, result m = Return a /\ result (f a) = Return b.
Proof.
  destruct m as [t [a | c | x |]]; cbn; try discriminate.
  destruct (f a) as [t' o] eqn:Hf. cbn. intros ->. exists a. now rewrite Hf.
Qed.

Lemma bind_return {A B : Type} (t : list event) (a : A) (f : A -> prog B) :
  ((t, Return a) : prog A) ≫= f = ((t ++ events (f a))%list, result (f a)).
Proof. cbn. now destruct (f a). Qed.

Lemma bind_exit {A B : Type} (t : list event) (c : Z) (f : A -> prog B) :
  ((t, SysExit c) : prog A) ≫= f = (t, SysExit c).
Proof. reflexivity. Qed.

Lemma bind_raise {A B : Type} (t : list event) (x : exn) (f : A -> prog B) :
  ((t, Raise x) : prog A) ≫= f = (t, Raise x).
Proof. reflexivity. Qed.

(** ** The thread allocator, [tasks/threadCount.py] *)

Section ThreadAllocator.
Import ThreadCount.

Lemma min_spec (a b : Z) : min a b = Z.min a b.
Proof. unfold min. destruct (Z.ltb_spec a b); lia. Qed.

Lemma max_spec (a b : Z) : max a b = Z.max a b.
Proof. unfold max. rewrite Z.gtb_ltb. destruct (Z.ltb_spec b a); lia. Qed.

(** From three CPUs on the computation goes through and every count is at
    least one. *)
Lemma compute_from_three (cpu n : Z) :
  3 <= cpu -> 1 <= n ->
  exists c, compute cpu n = Return c /\
    flatten_threads c = Z.min (cpu - 2) n /\
    1 <= flatten_threads c <= cpu - 2 /\
    1 <= reader_threads c /\ 1 <= readers_per_flattener c.
Proof.
  intros Hcpu Hn. unfold compute. rewrite min_spec.
  set (f := Z.min (cpu - 2) n). assert (Hf : 1 <= f <= cpu - 2) by (subst f; lia).
  unfold floor_truediv, ceil_truediv.
  destruct (Z.eqb_spec f 0) as [? | _]; [lia |]. cbn.
  assert (Hr : 1 <= - (- n / f)).
  { assert (- n / f < 0) by (apply Z.div_lt_upper_bound; lia). lia. }
  unfold truediv. destruct (Z.eqb_spec (- (- n / f)) 0) as [? | _]; [lia |]. cbn.
  eexists. split; [reflexivity |]. cbn. rewrite max_spec. repeat split; lia.
Qed.

(** C1, as the specification states it: for 8 CPUs and 1 unit the
    allocator would give 1 flattener, 6 reader threads and 1 reader per
    flattener.  The script does not give these numbers. *)
Lemma C1_counterexample :
  ~ (exists c, main None (plain_args 8 1) = Return (PrintAll c) /\
       flatten_threads c = 1 /\ reader_threads c = 6 /\ readers_per_flattener c = 1).
Proof. intros (c & H & _ & Hr & _). cbv in H. injection H as <-. discriminate Hr. Qed.

(** C1, amended: for 8 CPUs and 1 unit the allocator gives 1 flattener,
    7 remaining threads, hence 7 reader threads, and 1 reader per
    flattener; the total computed back from them is 2 * 7 + 2 = 16. *)
Theorem C1_allocate_8_1 (os : option Z) :
  exists c, main os (plain_args 8 1) = Return (PrintAll c) /\
    flatten_threads c = 1 /\ remaining_threads c = 7 /\ reader_threads c = 7 /\
    readers_per_flattener c = 1 /\ (merge_threads c == 2)%Q /\ (total c == 16)%Q.
Proof. eexists. split; [reflexivity |]. repeat split. Qed.

(** C2: with 2 CPUs the number of flatten threads is 0, not 1, and the
    first division raises [ZeroDivisionError]; with 1 CPU it is -1.
    Nothing floors it at 1. *)
Theorem C2_two_cpus_divide_by_zero (os : option Z) :
  main os (plain_args 2 1) = Raise ZeroDivisionError /\
  ThreadCount.min (2 - 2) 1 = 0 /\
  exists c, main os (plain_args 1 1) = Return (PrintAll c) /\ flatten_threads c = -1.
Proof. split; [reflexivity |]. split; [reflexivity |]. eexists. split; reflexivity. Qed.

End ThreadAllocator.

(** ** Which events the small steps of a run leave *)

Lemma events_lift {A : Type} (o : outcome A) : events (lift o) = [].
Proof. reflexivity. Qed.

Lemma events_open_read (w : world) (p : string) : events (open_read w p) = [].
Proof. unfold open_read. now destruct (open_lines w p). Qed.

Lemma events_config_item (c : gmap string string) (k : string) : events (config_item c k) = [].
Proof. unfold config_item. now destruct (c !! k). Qed.

Lemma events_int_environ (w : world) (n : string) : events (int_environ w n) = [].
Proof. unfold int_environ. now destruct (environ w n). Qed.

Lemma events_require_annotations_folder (w : world) (p : string) :
  events (require_annotations_folder w p) = [].
Proof. unfold require_annotations_folder. now destruct (path_exists w p). Qed.

Lemma events_get_env_or_error (env : string -> option string) (n : string) (e : event) :
  In e (events (CohortUtils.get_env_or_error env n)) -> exists l, e = Stderr l.
Proof.
  unfold CohortUtils.get_env_or_error. destruct (env n); cbn; [tauto |].
  intros [<- | []]. eauto.
Qed.

Lemma events_run_checked (w : world) (cmd : list string) (e : event) :
  In e (events (run_checked w cmd)) -> e = Subprocess cmd.
Proof.
  unfold run_checked. cbn. destruct (_ =? _); cbn; intros [<- | []]; reflexivity.
Qed.

Lemma events_run_process (w : world) (cmd fw : list string) (e : event) :
  In e (events (CohortUtils.run_process_with_filtered_output w cmd fw)) ->
  e = Subprocess cmd \/ exists l, e = Stderr l.
Proof.
  unfold CohortUtils.run_process_with_filtered_output. cbn.
  destruct (negb _); cbn; rewrite ?app_nil_r, ?in_app_iff, in_map_iff; cbn;
    intros H; decompose [or ex and] H; subst; eauto; contradiction.
Qed.

Lemma calculate_thread_counts_fixed (cpu n : Z) :
  CohortUtils.calculate_thread_counts cpu n = Return (5, 1).
Proof. reflexivity. Qed.

(** One step through a bind whose first part leaves no event of interest. *)
Ltac skip_silent H :=
  apply events_bind in H as [H | (? & _ & H)];
  [ first
      [ rewrite ?events_lift, ?events_open_read, ?events_config_item,
          ?events_int_environ, ?events_require_annotations_folder in H; now destruct H
      | apply events_get_env_or_error in H as (? & H); discriminate H ]
  | ].

(** ** The merge stage of [cohort_merge.py] *)

Section MergeStage.

(** C3, as the specification states it: the thread counts that
    [cohort_merge.py] writes are those of the allocation formula.  For 8
    CPUs and one input file the formula gives 7 reader threads, the
    script writes 5. *)
Lemma C3_counterexample :
  ~ (forall c, ThreadCount.compute 8 1 = Return c ->
       CohortMerge.thread_counts 8 ["batch_001.tsf"]
       = Return (ThreadCount.reader_threads c, ThreadCount.readers_per_flattener c)).
Proof.
  intros H. specialize (H _ eq_refl). cbv in H. discriminate H.
Qed.

(** C3, amended: whatever the CPU budget and the input files,
    [cohort_merge.py] gets 5 reader threads and 1 reader per flattener
    from [cohort_utils.calculate_thread_counts], and the batch file it
    writes carries these two constants in its merge stage. *)
Theorem C3_merge_stage_constants (w : world) (a : CohortMerge.args) :
  (forall cpu files, CohortMerge.thread_counts cpu files = Return (5, 1)) /\
  (forall content,
      In (WriteFile "gautil_batch_cohort.yaml" content) (events (CohortMerge.main w a)) ->
      exists pre post,
        content = (pre ++ CohortMerge.merge_stage 5 1 ++ post)%list /\
        In "            readerWorkerThreads: 5" (CohortMerge.merge_stage 5 1) /\
        In "            readersPerFlattener: 1" (CohortMerge.merge_stage 5 1)).
Proof.
  split; [reflexivity |]. intros content H. unfold CohortMerge.main in H.
  do 2 skip_silent H.
  destruct (_ =? _)%nat; [now destruct H |].
  do 6 skip_silent H.
  apply events_bind in H as [H | (? & _ & H)].
  { destruct (CohortMerge.given _); [now destruct H |].
    rewrite events_config_item in H. now destruct H. }
  do 2 skip_silent H.
  apply events_bind in H as [H | (threads & Hthreads & H)]; [now destruct H |].
  cbn in Hthreads. injection Hthreads as <-.
  apply events_bind in H as [H | (_ & _ & H)].
  - destruct H as [H | []]. injection H as <-.
    unfold CohortMerge.gautil_batch_content.
    eexists _, _. split; [reflexivity |]. cbn. tauto.
  - apply events_bind in H as [H | (_ & _ & H)].
    + destruct H as [H | []]. discriminate H.
    + apply events_bind in H as [H | (_ & _ & H)].
      * apply events_run_process in H as [H | (? & H)]; discriminate H.
      * apply events_run_checked in H. discriminate H.
Qed.

Lemma C3_merge_stage_constants_witness :
  exists content,
    In (WriteFile "gautil_batch_cohort.yaml" content)
       (events (CohortMerge.main demo_world demo_merge_args)) /\
    exists pre post,
      content = (pre ++ CohortMerge.merge_stage 5 1 ++ post)%list /\
      In "            readerWorkerThreads: 5" (CohortMerge.merge_stage 5 1) /\
      In "            readersPerFlattener: 1" (CohortMerge.merge_stage 5 1).
Proof.
  eexists. split.
  - vm_compute. left. reflexivity.
  - apply (proj2 (C3_merge_stage_constants demo_world demo_merge_args)).
    vm_compute. left. reflexivity.
Defined.

End MergeStage.

(** ** [sorted]: a stable sort orders its input and only rearranges it *)

Section SortedFacts.
Context {A K : Type} (key : A -> K) (ltb : K -> K -> bool).
Hypothesis ltb_asym : forall a b, ltb a b = true -> ltb b a = false.
Hypothesis nlt_trans : forall a b c, ltb b a = false -> ltb c b = false -> ltb c a = false.

Lemma insert_sorted_Permutation (x : A) (l : list A) :
  Permutation (Py.insert_sorted key ltb x l) (x :: l).
Proof.
  induction l as [| y l IH]; cbn; [reflexivity |].
  destruct (ltb (key y) (key x)); [| reflexivity].
  rewrite IH. apply perm_swap.
Qed.

Lemma sorted_Permutation (l : list A) : Permutation (Py.sorted key ltb l) l.
Proof.
  induction l as [| x l IH]; cbn; [reflexivity |].
  unfold Py.sorted in IH. rewrite insert_sorted_Permutation. now rewrite IH.
Qed.

Lemma insert_sorted_StronglySorted (x : A) (l : list A) :
  StronglySorted (Py.may_precede key ltb) l ->
  StronglySorted (Py.may_precede key ltb) (Py.insert_sorted key ltb x l).
Proof.
  induction 1 as [| y l Hl IH Hy]; cbn.
  - constructor; constructor.
  - destruct (ltb (key y) (key x)) eqn:Hyx.
    + constructor; [exact IH |].
      rewrite insert_sorted_Permutation. constructor; [| exact Hy].
      unfold Py.may_precede. now apply ltb_asym.
    + constructor; [now constructor |].
      constructor; [exact Hyx |].
      eapply Forall_impl; [exact Hy |]. intros z Hz. unfold Py.may_precede in *.
      eapply nlt_trans; eassumption.
Qed.

Lemma sorted_StronglySorted (l : list A) :
  StronglySorted (Py.may_precede key ltb) (Py.sorted key ltb l).
Proof.
  induction l as [| x l IH]; cbn; [constructor |].
  apply insert_sorted_StronglySorted, IH.
Qed.

Lemma ltb_irrefl (a : K) : ltb a a = false.
Proof. destruct (ltb a a) eqn:H; [pose proof (ltb_asym _ _ H); congruence | reflexivity]. Qed.

(** The last element of the sorted list is below no element of the input. *)
Lemma sorted_last (l : list A) (f : A) :
  last (Py.sorted key ltb l) = Some f ->
  In f l /\ forall g, In g l -> ltb (key f) (key g) = false.
Proof.
  intros Hlast. apply last_Some in Hlast as [pre Hpre].
  pose proof (sorted_Permutation l) as Hperm.
  pose proof (sorted_StronglySorted l) as Hsorted.
  rewrite Hpre in Hperm, Hsorted. split.
  - eapply Permutation_in; [exact Hperm |]. apply in_or_app. right. now left.
  - intros g Hg. apply (Permutation_in _ (Permutation_sym Hperm)) in Hg.
    apply in_app_or in Hg as [Hg | [<- | []]]; [| apply ltb_irrefl].
    apply (StronglySorted_app_1_elem_of (Py.may_precede key ltb) pre [f] g f Hsorted).
    + now apply list_elem_of_In.
    + apply list_elem_of_In. now left.
Qed.

(** The first element of the sorted list has no element of the input below
    it. *)
Lemma sorted_head (l : list A) (f : A) :
  head (Py.sorted key ltb l) = Some f ->
  In f l /\ forall g, In g l -> ltb (key g) (key f) = false.
Proof.
  intros Hhead.
  pose proof (sorted_Permutation l) as Hperm.
  pose proof (sorted_StronglySorted l) as Hsorted.
  destruct (Py.sorted key ltb l) as [| f' rest]; [discriminate |].
  injection Hhead as ->. split.
  - eapply Permutation_in; [exact Hperm |]. now left.
  - intros g Hg. apply (Permutation_in _ (Permutation_sym Hperm)) in Hg.
    destruct Hg as [<- | Hg]; [apply ltb_irrefl |].
    apply StronglySorted_inv in Hsorted as [_ Hall].
    rewrite Forall_forall in Hall. apply Hall. now apply list_elem_of_In.
Qed.

Lemma sorted_nonempty (l : list A) : l <> [] -> Py.sorted key ltb l <> [].
Proof.
  intros Hl Hs. pose proof (sorted_Permutation l) as Hperm. rewrite Hs in Hperm.
  apply Permutation_nil in Hperm. contradiction.
Qed.

(** When distinct elements have comparable, distinct keys, the sorted list
    does not depend on the order of the input. *)
Lemma sorted_order_independent (l l' : list A) :
  (forall x y, In x l -> In y l -> ltb (key x) (key y) = false ->
               ltb (key y) (key x) = false -> x = y) ->
  Permutation l l' ->
  Py.sorted key ltb l = Py.sorted key ltb l'.
Proof.
  intros Hdistinct Hperm.
  apply (StronglySorted_unique_strong (Py.may_precede key ltb)).
  - intros x y Hx Hy Hxy Hyx. apply list_elem_of_In in Hx, Hy.
    apply (Permutation_in _ (sorted_Permutation l)) in Hx.
    apply (Permutation_in _ (sorted_Permutation l')) in Hy.
    apply (Permutation_in _ (Permutation_sym Hperm)) in Hy.
    apply Hdistinct; assumption.
  - apply sorted_StronglySorted.
  - apply sorted_StronglySorted.
  - rewrite !sorted_Permutation. exact Hperm.
Qed.

End SortedFacts.

Section StableEnds.
Context {A K : Type} (key : A -> K) (ltb : K -> K -> bool).
Hypothesis ltb_asym : forall a b, ltb a b = true -> ltb b a = false.
Hypothesis nlt_trans : forall a b c, ltb b a = false -> ltb c b = false -> ltb c a = false.

(** A stable sort puts first the first of the elements that none
    precedes: what stands before it in the input is strictly behind it in
    the order. *)
Lemma sorted_head_first (l : list A) (f : A) :
  head (Py.sorted key ltb l) = Some f ->
  exists pre post, l = (pre ++ f :: post)%list /\
    (forall g, In g pre -> ltb (key f) (key g) = true) /\
    (forall g, In g post -> ltb (key g) (key f) = false).
Proof.
  revert f. induction l as [| x l IH]; intros f; [discriminate |].
  change (Py.sorted key ltb (x :: l)) with (Py.insert_sorted key ltb x (Py.sorted key ltb l)).
  destruct (Py.sorted key ltb l) as [| y rest] eqn:Hs.
  - intros [= <-]. pose proof (sorted_Permutation key ltb l) as Hperm. rewrite Hs in Hperm.
    apply Permutation_nil in Hperm. subst l. exists [], []. split; [reflexivity |].
    split; intros g [].
  - cbn [Py.insert_sorted]. destruct (ltb (key y) (key x)) eqn:Hyx.
    + intros [= <-]. destruct (IH y eq_refl) as (pre & post & -> & Hpre & Hpost).
      exists (x :: pre), post. split; [reflexivity |]. split; [| exact Hpost].
      intros g [<- | Hg]; [exact Hyx | now apply Hpre].
    + intros [= <-]. exists [], l. split; [reflexivity |]. split; [intros g [] |].
      intros g Hg.
      assert (Hhead : head (Py.sorted key ltb l) = Some y) by now rewrite Hs.
      apply (sorted_head key ltb ltb_asym nlt_trans) in Hhead as [_ Hmax].
      eapply nlt_trans; [exact Hyx | now apply Hmax].
Qed.

Lemma last_insert_sorted (x : A) (s : list A) :
  StronglySorted (Py.may_precede key ltb) s ->
  last (Py.insert_sorted key ltb x s)
  = match last s with
    | None => Some x
    | Some m => if ltb (key m) (key x) then Some x else Some m
    end.
Proof.
  induction 1 as [| y s Hs IH Hy]; [reflexivity |].
  cbn [Py.insert_sorted]. destruct (ltb (key y) (key x)) eqn:Hyx.
  - rewrite !last_cons, IH. destruct (last s) as [m |]; [| now rewrite Hyx].
    now destruct (ltb (key m) (key x)).
  - rewrite (last_cons x). destruct (last (y :: s)) as [m |] eqn:Hm.
    + assert (Hmx : ltb (key m) (key x) = false).
      { rewrite last_cons in Hm. destruct (last s) as [m' |] eqn:Hm'.
        - injection Hm as ->. apply last_Some in Hm' as [pre ->].
          rewrite Forall_forall in Hy.
          eapply nlt_trans; [exact Hyx |]. apply Hy. apply list_elem_of_In.
          apply in_or_app. right. now left.
        - injection Hm as <-. exact Hyx. }
      now rewrite Hmx.
    + now rewrite last_cons in Hm; destruct (last s).
Qed.

(** And it puts last the last of the elements that precede none. *)
Lemma sorted_last_last (l : list A) (f : A) :
  last (Py.sorted key ltb l) = Some f ->
  exists pre post, l = (pre ++ f :: post)%list /\
    (forall g, In g pre -> ltb (key f) (key g) = false) /\
    (forall g, In g post -> ltb (key g) (key f) = true).
Proof.
  revert f. induction l as [| x l IH]; intros f; [discriminate |].
  change (Py.sorted key ltb (x :: l)) with (Py.insert_sorted key ltb x (Py.sorted key ltb l)).
  rewrite last_insert_sorted by apply (sorted_StronglySorted key ltb ltb_asym nlt_trans).
  destruct (last (Py.sorted key ltb l)) as [m |] eqn:Hm.
  - destruct (ltb (key m) (key x)) eqn:Hmx.
    + intros [= <-]. exists [], l. split; [reflexivity |]. split; [intros g [] |].
      intros g Hg. apply (sorted_last key ltb ltb_asym nlt_trans) in Hm as [_ Hmax].
      destruct (ltb (key g) (key x)) eqn:Hgx; [reflexivity |].
      pose proof (nlt_trans _ _ _ Hgx (Hmax g Hg)). congruence.
    + intros [= <-]. destruct (IH m eq_refl) as (pre & post & -> & Hpre & Hpost).
      exists (x :: pre), post. split; [reflexivity |]. split; [| exact Hpost].
      intros g [<- | Hg]; [exact Hmx | now apply Hpre].
  - intros [= <-]. apply last_None in Hm.
    pose proof (sorted_Permutation key ltb l) as Hperm. rewrite Hm in Hperm.
    apply Permutation_nil in Hperm. subst l. exists [], []. split; [reflexivity |].
    split; intros g [].
Qed.

End StableEnds.

Lemma StronglySorted_weaken {A : Type} (R R' : A -> A -> Prop) (l : list A) :
  (forall x y, R x y -> R' x y) -> StronglySorted R l -> StronglySorted R' l.
Proof.
  intros HR. induction 1 as [| x rest Hrest IH Hx]; constructor; [exact IH |].
  eapply Forall_impl; [exact Hx |]. auto.
Qed.

(** ** Strings: order, concatenation and numerals *)

Lemma string_ltb_asym (a b : string) : String.ltb a b = true -> String.ltb b a = false.
Proof.
  unfold String.ltb. rewrite (String.compare_antisym a b).
  destruct (String.compare b a); cbn; congruence.
Qed.

Lemma string_compare_trans_lt (a b c : string) :
  String.compare a b = Lt -> String.compare b c = Lt -> String.compare a c = Lt.
Proof.
  intros Hab Hbc.
  pose proof (@StrictOrder_Transitive _ _ OrdersEx.String_as_OT.lt_strorder) as Ht.
  exact (Ht a b c Hab Hbc).
Qed.

Lemma string_nlt_trans (a b c : string) :
  String.ltb b a = false -> String.ltb c b = false -> String.ltb c a = false.
Proof.
  unfold String.ltb. intros Hba Hcb.
  destruct (String.compare c a) eqn:Hca; try reflexivity. exfalso.
  destruct (String.compare b a) eqn:Hba'; try discriminate.
  - apply String.compare_eq_iff in Hba'. subst b. now rewrite Hca in Hcb.
  - assert (Hab : String.compare a b = Lt)
      by (rewrite String.compare_antisym, Hba'; reflexivity).
    rewrite (string_compare_trans_lt c a b Hca Hab) in Hcb. discriminate.
Qed.

Lemma string_ltb_total (a b : string) :
  String.ltb a b = false -> String.ltb b a = false -> a = b.
Proof.
  unfold String.ltb. intros Hab Hba. apply String.compare_eq_iff.
  destruct (String.compare a b) eqn:H; try reflexivity; try discriminate.
  rewrite String.compare_antisym, H in Hba. discriminate.
Qed.

Lemma string_app_cons (c : ascii) (s t : string) : String c s +:+ t = String c (s +:+ t).
Proof. reflexivity. Qed.

Lemma string_app_nil (t : string) : EmptyString +:+ t = t.
Proof. reflexivity. Qed.

Lemma string_chars_app (s t : string) :
  list_ascii_of_string (s +:+ t) = (list_ascii_of_string s ++ list_ascii_of_string t)%list.
Proof.
  induction s as [| c s IH]; [reflexivity |].
  rewrite string_app_cons. cbn. f_equal. exact IH.
Qed.

Lemma string_chars_inj (s t : string) :
  list_ascii_of_string s = list_ascii_of_string t -> s = t.
Proof.
  intros H. rewrite <- (string_of_list_ascii_of_string s), H.
  apply string_of_list_ascii_of_string.
Qed.

Lemma string_app_inv_head (s t u : string) : s +:+ t = s +:+ u -> t = u.
Proof.
  induction s as [| c s IH]; [auto |].
  rewrite !string_app_cons. intros [= H]. auto.
Qed.

Lemma string_app_inv_tail (s t u : string) : s +:+ u = t +:+ u -> s = t.
Proof.
  intros H. apply string_chars_inj. apply (f_equal list_ascii_of_string) in H.
  rewrite !string_chars_app in H. now apply app_inv_tail in H.
Qed.

Lemma string_app_assoc (s t u : string) : (s +:+ t) +:+ u = s +:+ (t +:+ u).
Proof.
  induction s as [| c s IH]; [reflexivity |].
  rewrite !string_app_cons. f_equal. exact IH.
Qed.

(** Two texts that agree up to and including the first separator, which
    occurs in neither front part, have the same front and the same rest. *)
Lemma string_split_unique (c : ascii) (a b r1 r2 : string) :
  ~ In c (list_ascii_of_string a) -> ~ In c (list_ascii_of_string b) ->
  a +:+ String c r1 = b +:+ String c r2 -> a = b /\ r1 = r2.
Proof.
  revert b. induction a as [| x a IH]; intros [| y b] Ha Hb H;
    rewrite ?string_app_cons, ?string_app_nil in H; cbn in Ha, Hb.
  - injection H as ->. auto.
  - injection H as <- _. tauto.
  - injection H as -> _. tauto.
  - injection H as -> H. apply IH in H as [-> ->]; tauto.
Qed.

Lemma string_of_uint_digits (d : Decimal.uint) (c : ascii) :
  In c (list_ascii_of_string (NilEmpty.string_of_uint d)) -> Py.is_digit c.
Proof.
  unfold Py.is_digit. induction d; cbn; intros H; try contradiction;
    (destruct H as [<- | H]; [cbn; tauto | exact (IHd H)]).
Qed.

Lemma uint_of_string_zeros (k : nat) (s : string) (d : Decimal.uint) :
  NilEmpty.uint_of_string s = Some d ->
  exists d', NilEmpty.uint_of_string (Py.zeros k +:+ s) = Some d' /\
             Nat.of_uint d' = Nat.of_uint d.
Proof.
  intros Hs. induction k as [| k (d' & Hd' & Heq)]; [cbn; eauto |].
  cbn [Py.zeros]. rewrite string_app_cons. cbn [NilEmpty.uint_of_string].
  rewrite Hd'. cbn. exists (Decimal.D0 d'). split; [reflexivity |].
  rewrite <- Heq. reflexivity.
Qed.

Lemma nat_to_uint_nonnil (n : nat) : Nat.to_uint n <> Decimal.Nil.
Proof.
  rewrite <- (DecimalNat.Unsigned.of_to n) at 1.
  rewrite DecimalNat.Unsigned.to_of. apply DecimalFacts.unorm_nonnil.
Qed.

Lemma digits_parse (n : nat) :
  NilEmpty.uint_of_string (Py.digits n) = Some (Nat.to_uint n).
Proof.
  unfold Py.digits. pose proof (nat_to_uint_nonnil n) as Hn.
  pose proof (NilZero.usu _ Hn) as H.
  destruct (Nat.to_uint n) eqn:E; try contradiction; exact H.
Qed.

(** A zero-padded numeral reads back as the number it was made from. *)
Lemma format_0d_parse (w n : nat) :
  exists d, NilEmpty.uint_of_string (Py.format_0d w n) = Some d /\ Nat.of_uint d = n.
Proof.
  unfold Py.format_0d, Py.zfill.
  destruct (uint_of_string_zeros (w - String.length (Py.digits n)) _ _ (digits_parse n))
    as (d & Hd & Heq).
  exists d. split; [exact Hd |]. rewrite Heq. apply DecimalNat.Unsigned.of_to.
Qed.

Lemma format_0d_inj (w n m : nat) : Py.format_0d w n = Py.format_0d w m -> n = m.
Proof.
  intros H. destruct (format_0d_parse w n) as (d & Hd & <-).
  destruct (format_0d_parse w m) as (d' & Hd' & <-).
  rewrite H in Hd. congruence.
Qed.

Lemma format_0d_digits (w n : nat) (c : ascii) :
  In c (list_ascii_of_string (Py.format_0d w n)) -> Py.is_digit c.
Proof.
  destruct (format_0d_parse w n) as (d & Hd & _).
  apply NilEmpty.sus in Hd. rewrite <- Hd. apply string_of_uint_digits.
Qed.

(** ** The manifest chunker, [write_manifest_files] *)

Section Chunker.
Import CreateManifest.

Lemma sorted_str_Permutation (l : list string) : Permutation (Py.sorted_str l) l.
Proof. apply sorted_Permutation. Qed.

Lemma string_leb_not_ltb (a b : string) : String.leb a b = true <-> String.ltb b a = false.
Proof.
  unfold String.leb, String.ltb. rewrite (String.compare_antisym b a).
  destruct (String.compare a b); cbn; intuition congruence.
Qed.

Lemma sorted_str_sorted (l : list string) :
  StronglySorted (fun a b => String.leb a b = true) (Py.sorted_str l).
Proof.
  eapply StronglySorted_weaken;
    [| exact (sorted_StronglySorted id String.ltb string_ltb_asym string_nlt_trans l)].
  intros x y Hxy. apply string_leb_not_ltb. exact Hxy.
Qed.

(** With a positive capacity the slice of iteration [i] is the next
    [capacity] files after the first [i * capacity]. *)
Lemma manifest_slice_take_drop (files : list string) (capacity : Z) (i : nat) :
  0 < capacity ->
  manifest_slice files capacity i
  = take (Z.to_nat capacity) (drop (i * Z.to_nat capacity) files).
Proof.
  intros Hcap. unfold manifest_slice, Py.slice, Py.slice_index.
  set (s := Z.of_nat i * capacity).
  assert (Hs : Z.to_nat s = (i * Z.to_nat capacity)%nat)
    by (subst s; rewrite Z2Nat.inj_mul, Nat2Z.id by lia; reflexivity).
  assert (Hs0 : 0 <= s) by (subst s; nia).
  rewrite <- Hs. clearbody s. clear Hs.
  set (L := Z.of_nat (length files)).
  assert (HL : L = Z.of_nat (length files)) by reflexivity. clearbody L.
  destruct (Z.ltb_spec s 0) as [? | _]; [lia |].
  destruct (Z.ltb_spec (Z.min (s + capacity) L) 0) as [? | _]; [lia |].
  destruct (Z.le_gt_cases s L) as [Hle | Hgt].
  - rewrite (Z.min_l s L) by lia.
    destruct (Z.le_gt_cases (s + capacity) L) as [Hfull | Hpart].
    + f_equal. lia.
    + rewrite (take_ge _ (Z.to_nat capacity)) by (rewrite length_drop; lia).
      rewrite take_ge by (rewrite length_drop; lia). reflexivity.
  - rewrite (Z.min_r s L) by lia.
    replace (Z.to_nat (Z.min (Z.min (s + capacity) L) L - L)) with 0%nat by lia.
    rewrite (drop_ge files (Z.to_nat s)) by lia. now rewrite take_nil.
Qed.

Lemma chunks_concat (c n : nat) (l : list string) :
  (length l <= n * c)%nat ->
  concat (List.map (fun i => take c (drop (i * c) l)) (seq 0 n)) = l.
Proof.
  revert l. induction n as [| n IH]; intros l Hlen.
  - destruct l; [reflexivity | cbn in Hlen; lia].
  - cbn [seq List.map concat]. rewrite <- seq_shift, List.map_map.
    rewrite (List.map_ext _ (fun i => take c (drop (i * c) (drop c l)))).
    + rewrite IH by (rewrite length_drop; lia). cbn. apply take_drop.
    + intros i. rewrite drop_drop. do 2 f_equal; lia.
Qed.

(** The number of manifests covers the files, and every manifest but
    possibly the last is full. *)
Lemma num_manifests_bounds (len capacity : Z) :
  0 < capacity -> 0 < len ->
  let n := (len + capacity - 1) / capacity in
  0 < n /\ (n - 1) * capacity < len <= n * capacity.
Proof.
  intros Hcap Hlen n.
  pose proof (Z.mul_div_le (len + capacity - 1) capacity Hcap) as Hlo.
  pose proof (Z.mul_succ_div_gt (len + capacity - 1) capacity Hcap) as Hhi.
  fold n in Hlo, Hhi. nia.
Qed.

Lemma groups_spec (files : list string) (capacity : Z) :
  0 < capacity -> files <> [] ->
  groups files capacity
  = List.map (fun i => take (Z.to_nat capacity) (drop (i * Z.to_nat capacity) files))
             (seq 0 (Z.to_nat ((Z.of_nat (length files) + capacity - 1) / capacity))).
Proof.
  intros Hcap _. unfold groups. apply List.map_ext. intros i.
  now apply manifest_slice_take_drop.
Qed.

Lemma groups_concat (files : list string) (capacity : Z) :
  0 < capacity -> files <> [] -> concat (groups files capacity) = files.
Proof.
  intros Hcap Hne. rewrite groups_spec by assumption. apply chunks_concat.
  assert (0 < Z.of_nat (length files)) by (destruct files; [contradiction | cbn; lia]).
  pose proof (num_manifests_bounds _ _ Hcap H) as [Hn Hb]. cbn zeta in Hb. nia.
Qed.

Lemma groups_sizes (files : list string) (capacity : Z) :
  0 < capacity -> files <> [] ->
  Forall (fun g => (1 <= length g <= Z.to_nat capacity)%nat) (groups files capacity).
Proof.
  intros Hcap Hne. rewrite groups_spec by assumption.
  assert (0 < Z.of_nat (length files)) by (destruct files; [contradiction | cbn; lia]).
  pose proof (num_manifests_bounds _ _ Hcap H) as [Hn Hb]. cbn zeta in Hb.
  apply Forall_forall. intros g Hg. apply list_elem_of_In, in_map_iff in Hg as (i & <- & Hi).
  apply in_seq in Hi. rewrite length_take, length_drop. nia.
Qed.

Lemma groups_length (files : list string) (capacity : Z) :
  length (groups files capacity)
  = Z.to_nat ((Z.of_nat (length files) + capacity - 1) / capacity).
Proof. unfold groups. now rewrite length_map, length_seq. Qed.

Lemma manifest_filename_inj (output_prefix : string) (i j : nat) :
  manifest_filename output_prefix i = manifest_filename output_prefix j -> i = j.
Proof.
  unfold manifest_filename. intros H.
  apply string_app_inv_head in H. apply (string_app_inv_head "_") in H.
  apply string_app_inv_tail in H. apply format_0d_inj in H. lia.
Qed.

Lemma manifest_filename_not_index (output_prefix : string) (i : nat) :
  manifest_filename output_prefix i <> "manifest_list.csv".
Proof.
  unfold manifest_filename. intros H. apply (f_equal list_ascii_of_string) in H.
  rewrite !string_chars_app in H. apply (f_equal (@rev ascii)) in H.
  rewrite !rev_app_distr in H. cbn in H. discriminate H.
Qed.

(** The loop writes one manifest per iteration and appends its name to the
    index; a path no iteration names keeps its content. *)
Lemma write_loop_index (files : list string) (output_prefix : string) (capacity : Z)
    (idx : list nat) (disk : gmap string (list string)) (p : list string) :
  snd (foldl (write_one files output_prefix capacity) (disk, p) idx)
  = (p ++ List.map (manifest_filename output_prefix) idx)%list.
Proof.
  revert disk p. induction idx as [| i idx IH]; intros disk p; cbn.
  - now rewrite app_nil_r.
  - rewrite IH, <- app_assoc. reflexivity.
Qed.

Lemma write_loop_other (files : list string) (output_prefix : string) (capacity : Z)
    (idx : list nat) (disk : gmap string (list string)) (p : list string) (k : string) :
  (forall i, In i idx -> manifest_filename output_prefix i <> k) ->
  fst (foldl (write_one files output_prefix capacity) (disk, p) idx) !! k = disk !! k.
Proof.
  revert disk p. induction idx as [| i idx IH]; intros disk p Hk; cbn; [reflexivity |].
  rewrite IH by (intros j Hj; apply Hk; now right).
  apply lookup_insert_ne. apply Hk. now left.
Qed.

Lemma write_loop_manifest (files : list string) (output_prefix : string) (capacity : Z)
    (idx : list nat) (disk : gmap string (list string)) (p : list string) (i : nat) :
  NoDup idx -> In i idx ->
  fst (foldl (write_one files output_prefix capacity) (disk, p) idx)
    !! manifest_filename output_prefix i
  = Some (Py.sorted_str (manifest_slice files capacity i)).
Proof.
  revert disk p. induction idx as [| j idx IH]; intros disk p Hnd Hi; [destruct Hi |].
  apply NoDup_cons in Hnd as [Hj Hnd]. cbn.
  destruct (in_dec Nat.eq_dec i idx) as [Hin | Hout].
  - now apply IH.
  - destruct Hi as [-> | Hi]; [| contradiction].
    rewrite write_loop_other; [apply lookup_insert_eq |].
    intros k Hk Heq. apply manifest_filename_inj in Heq. subst k. contradiction.
Qed.

(** C7: for a non-empty sequence of accepted files and a positive capacity
    the chunker returns normally; the groups it cuts are, in order,
    consecutive pieces of the sequence (their concatenation is the
    sequence) of at least one and at most [capacity] files; the manifest of
    group [i] holds the group sorted lexically; and the index holds its
    header and the manifest names in creation order.  In particular
    ["a"; "b"; "c"; "d"; "e"] with capacity 2 gives three manifests of
    sizes 2, 2 and 1. *)
Theorem C7_chunker (files : list string) (output_prefix : string) (capacity : Z)
    (disk : gmap string (list string)) :
  files <> [] -> 0 < capacity ->
  let gs := groups files capacity in
  let after := write_manifest_files files output_prefix capacity disk in
  snd after = Return tt /\
  concat gs = files /\
  Forall (fun g => (1 <= length g <= Z.to_nat capacity)%nat) gs /\
  (forall i g, gs !! i = Some g ->
     exists m, fst after !! manifest_filename output_prefix i = Some m /\
               m = Py.sorted_str g /\ Permutation m g /\
               StronglySorted (fun a b => String.leb a b = true) m) /\
  fst after !! "manifest_list.csv"
  = Some ("manifest_file" :: List.map (manifest_filename output_prefix) (seq 0 (length gs))) /\
  List.map (@length string) (groups ["a"; "b"; "c"; "d"; "e"] 2) = [2; 2; 1]%nat.
Proof.
  intros Hne Hcap gs after.
  assert (Hafter : after =
    (<[ "manifest_list.csv" :=
          "manifest_file" :: List.map (manifest_filename output_prefix) (seq 0 (length gs)) ]>
       (fst (foldl (write_one files output_prefix capacity) (disk, ["manifest_file"])
                   (seq 0 (length gs)))),
     Return tt)).
  { subst after gs. unfold write_manifest_files. rewrite groups_length.
    destruct files as [| f files']; [contradiction |].
    destruct (Z.eqb_spec capacity 0) as [? | _]; [lia |].
    set (st := foldl _ _ _).
    pose proof (write_loop_index (f :: files') output_prefix capacity
                  (seq 0 (Z.to_nat ((Z.of_nat (length (f :: files')) + capacity - 1) / capacity)))
                  disk ["manifest_file"]) as Hidx.
    fold st in Hidx. destruct st as [disk' p']. cbn in Hidx. subst p'. reflexivity. }
  rewrite Hafter. cbn [fst snd].
  split; [reflexivity |].
  split; [now apply groups_concat |].
  split; [now apply groups_sizes |].
  split; [| split; [apply lookup_insert_eq | reflexivity]].
  intros i g Hg.
  assert (Hi : (i < length gs)%nat) by (eapply lookup_lt_Some; exact Hg).
  assert (Hslice : g = manifest_slice files capacity i).
  { subst gs. unfold groups in Hg. rewrite list_lookup_fmap in Hg.
    rewrite lookup_seq_lt in Hg by (rewrite groups_length in Hi; exact Hi).
    cbn in Hg. congruence. }
  exists (Py.sorted_str g). split; [| split; [reflexivity | split]].
  - rewrite lookup_insert_ne by (intros H; symmetry in H; revert H; apply manifest_filename_not_index).
    rewrite Hslice. apply write_loop_manifest; [apply NoDup_seq | apply in_seq; lia].
  - apply sorted_str_Permutation.
  - apply sorted_str_sorted.
Qed.

Lemma C7_chunker_witness :
  let files := ["a"; "b"; "c"; "d"; "e"] in
  let after := write_manifest_files files "manifest" 2 ∅ in
  snd after = Return tt /\
  concat (groups files 2) = files /\
  fst after !! "manifest_003.manifest.txt" = Some ["e"] /\
  fst after !! "manifest_list.csv"
  = Some ["manifest_file"; "manifest_001.manifest.txt"; "manifest_002.manifest.txt";
          "manifest_003.manifest.txt"].
Proof.
  intros files after.
  assert (Hne : files <> []) by discriminate.
  assert (Hcap : 0 < 2) by lia.
  destruct (C7_chunker files "manifest" 2 ∅ Hne Hcap) as (Hr & Hc & _ & Hm & Hi & _).
  split; [exact Hr |]. split; [exact Hc |]. split; [| exact Hi].
  destruct (Hm 2%nat ["e"] eq_refl) as (m & Hlook & -> & _). exact Hlook.
Defined.

(** C8, as the specification states it: on an empty sequence the chunker
    would end with an error.  It returns normally. *)
Lemma C8_counterexample : ~ fails (snd (write_manifest_files [] "manifest" 128 ∅)).
Proof. cbn. tauto. Qed.

(** C8, amended: on an empty sequence of accepted files the chunker
    returns normally and leaves the disk as it was: it writes no index and
    no manifest (it only prints that there is nothing to write). *)
Theorem C8_empty_input_returns (output_prefix : string) (files_per_manifest : Z)
    (disk : gmap string (list string)) :
  write_manifest_files [] output_prefix files_per_manifest disk = (disk, Return tt).
Proof. reflexivity. Qed.

End Chunker.

(** ** The new-file selector, [find_files_with_new_samples] *)

Section SelectorFacts.
Import CreateManifest.
Variable bcftools_query_l : string -> option (list string).
Variable dir : string.
Variable listing : list dir_entry.
Variable existing_samples : gset string.


(** The loop appends, in the order of its input, the paths of the entries
    it does not pass over. *)
Lemma select_loop (l : list dir_entry) (acc : list string) :
  foldl (fun files_with_new_samples e =>
           match visit bcftools_query_l dir existing_samples e with
           | Some p => (files_with_new_samples ++ [p])%list
           | None => files_with_new_samples
           end) acc l
  = (acc ++ omap (visit bcftools_query_l dir existing_samples) l)%list.
Proof.
  revert acc. induction l as [| e l IH]; intros acc; cbn.
  - now rewrite app_nil_r.
  - rewrite IH. destruct (visit _ _ _ e); [now rewrite <- app_assoc | reflexivity].
Qed.

Lemma compare_app_head (p a b : string) :
  String.compare (p +:+ a) (p +:+ b) = String.compare a b.
Proof.
  induction p as [| c p IH]; [reflexivity |].
  rewrite !string_app_cons. cbn [String.compare].
  assert (Hc : Ascii.compare c c = Eq) by (unfold Ascii.compare; apply N.compare_refl).
  now rewrite Hc.
Qed.

Lemma path_str_leb (n m : string) :
  String.leb n m = true -> String.leb (path_str dir n) (path_str dir m) = true.
Proof.
  unfold path_str, String.leb. destruct (String.eqb dir "."); [auto |].
  destruct (Py.endswith dir "/"); rewrite ?compare_app_head; auto.
Qed.

Lemma StronglySorted_omap {A B : Type} (R : A -> A -> Prop) (R' : B -> B -> Prop)
    (f : A -> option B) (l : list A) :
  (forall x y a b, R x y -> f x = Some a -> f y = Some b -> R' a b) ->
  StronglySorted R l -> StronglySorted R' (omap f l).
Proof.
  intros HR. induction 1 as [| x rest Hrest IH Hx]; cbn; [constructor |].
  destruct (f x) as [a |] eqn:Hfx; [| exact IH].
  constructor; [exact IH |]. apply Forall_forall. intros b Hb.
  apply list_elem_of_omap in Hb as (y & Hy & Hfy).
  rewrite Forall_forall in Hx. eapply HR; eauto.
Qed.

(** When an entry is a file with a fitting name, it is kept exactly when the
    extraction succeeds with at least one sample and none of them is known. *)
Lemma visit_spec (e : dir_entry) (p : string) :
  visit bcftools_query_l dir existing_samples e = Some p <->
  p = path_str dir (entry_name e) /\ entry_is_file e = true /\
  is_vcf_gz (entry_name e) = true /\
  exists sample_names,
    get_sample_names_from_file bcftools_query_l p = Return sample_names /\
    sample_names <> [] /\ forall s, In s sample_names -> s ∉ existing_samples.
Proof.
  unfold visit. destruct (entry_is_file e); [| intuition congruence].
  destruct (is_vcf_gz (entry_name e)); cbn [negb]; [| intuition congruence].
  destruct (get_sample_names_from_file _ (path_str dir (entry_name e)))
    as [names | c | x |] eqn:Hget.
  - destruct names as [| s0 names]; cbn [length Nat.eqb].
    + split; [discriminate |]. intros (-> & _ & _ & names' & Hn & Hne & _).
      rewrite Hget in Hn. injection Hn as <-. contradiction.
    + destruct (existsb _ (s0 :: names)) eqn:Hex.
      * split; [discriminate |]. intros (-> & _ & _ & names' & Hn & _ & Hnew).
        rewrite Hget in Hn. injection Hn as <-.
        apply existsb_exists in Hex as (s & Hs & Hk). apply bool_decide_eq_true in Hk.
        now apply Hnew in Hs.
      * split.
        -- intros [= <-]. repeat split. exists (s0 :: names).
           split; [exact Hget |]. split; [discriminate |]. intros s Hs Hk.
           assert (existsb (fun sample => bool_decide (sample ∈ existing_samples))
                     (s0 :: names) = true); [| congruence].
           apply existsb_exists. exists s. split; [exact Hs |].
           now apply bool_decide_eq_true.
        -- intros (-> & _). reflexivity.
  - split; [discriminate |]. intros (-> & _ & _ & names' & Hn & _).
    rewrite Hget in Hn. discriminate.
  - split; [discriminate |]. intros (-> & _ & _ & names' & Hn & _).
    rewrite Hget in Hn. discriminate.
  - split; [discriminate |]. intros (-> & _ & _ & names' & Hn & _).
    rewrite Hget in Hn. discriminate.
Qed.

(** C6: the selector returns the accepted paths; they are what the loop
    keeps of the directory listing put in the lexical order of the names, in
    that order, so that they are in lexical order themselves; and a candidate that is a file with a fitting name is among
    them exactly when its extracted samples are at least one and none of
    them is in the known set, so that one known sample rejects the file. *)
Theorem C6_selector :
  let in_order := Py.sorted entry_name String.ltb listing in
  exists accepted,
    find_files_with_new_samples bcftools_query_l dir true listing existing_samples
    = Return accepted /\
    accepted = omap (visit bcftools_query_l dir existing_samples) in_order /\
    Permutation in_order listing /\
    StronglySorted (fun e1 e2 => String.leb (entry_name e1) (entry_name e2) = true) in_order /\
    StronglySorted (fun p1 p2 => String.leb p1 p2 = true) accepted /\
    (forall e, In e listing -> entry_is_file e = true -> is_vcf_gz (entry_name e) = true ->
       (In (path_str dir (entry_name e)) accepted <->
        exists sample_names,
          get_sample_names_from_file bcftools_query_l (path_str dir (entry_name e))
          = Return sample_names /\
          sample_names <> [] /\ forall s, In s sample_names -> s ∉ existing_samples)) /\
    (forall e sample_names s,
       get_sample_names_from_file bcftools_query_l (path_str dir (entry_name e))
       = Return sample_names ->
       In s sample_names -> s ∈ existing_samples ->
       ~ In (path_str dir (entry_name e)) accepted).
Proof.
  intros in_order.
  pose proof (sorted_Permutation entry_name String.ltb listing) as Hperm. fold in_order in Hperm.
  assert (Hmem : forall p,
    In p (omap (visit bcftools_query_l dir existing_samples) in_order) <->
    exists e, In e listing /\ visit bcftools_query_l dir existing_samples e = Some p).
  { intros p. rewrite <- list_elem_of_In, list_elem_of_omap. split.
    - intros (e & He & Hv). exists e. split; [| exact Hv].
      apply list_elem_of_In in He. eapply Permutation_in; eassumption.
    - intros (e & He & Hv). exists e. split; [| exact Hv].
      apply list_elem_of_In. eapply Permutation_in; [symmetry |]; eassumption. }
  assert (Hsorted : StronglySorted
            (fun e1 e2 => String.leb (entry_name e1) (entry_name e2) = true) in_order).
  { eapply StronglySorted_weaken;
      [| exact (sorted_StronglySorted entry_name String.ltb
                  string_ltb_asym string_nlt_trans listing)].
    intros x y Hxy. apply string_leb_not_ltb. exact Hxy. }
  eexists. split; [| split; [reflexivity | split; [exact Hperm | split;
                    [exact Hsorted | split; [| split]]]]].
  - unfold find_files_with_new_samples. cbn [negb]. fold in_order.
    rewrite select_loop. reflexivity.
  - eapply StronglySorted_omap; [| exact Hsorted].
    intros x y a b Hxy Hx Hy. apply visit_spec in Hx as (-> & _), Hy as (-> & _).
    now apply path_str_leb.
  - intros e He Hfile Hname. rewrite Hmem. split.
    + intros (e' & _ & Hv). apply visit_spec in Hv as (_ & _ & _ & Hv). exact Hv.
    + intros Hv. exists e. split; [exact He |]. apply visit_spec. auto.
  - intros e names s Hget Hs Hknown Hin. apply Hmem in Hin as (e' & _ & Hv).
    apply visit_spec in Hv as (_ & _ & _ & names' & Hget' & _ & Hnew).
    rewrite Hget in Hget'. injection Hget' as <-. exact (Hnew s Hs Hknown).
Qed.

End SelectorFacts.

Lemma C6_selector_witness :
  exists accepted,
    CreateManifest.find_files_with_new_samples demo_query "/data" true demo_listing {[ "S1" ]}
    = Return accepted /\
    In "/data/a.vcf.gz" accepted /\ ~ In "/data/b.vcf.gz" accepted.
Proof.
  destruct (C6_selector demo_query "/data" demo_listing {[ "S1" ]})
    as (accepted & Hret & _ & _ & _ & _ & Hiff & Hrej).
  exists accepted. split; [exact Hret |]. split.
  - apply (Hiff {| CreateManifest.entry_name := "a.vcf.gz";
                   CreateManifest.entry_is_file := true |}).
    + cbn. tauto.
    + reflexivity.
    + reflexivity.
    + exists ["S2"; "S3"]. split; [reflexivity |]. split; [discriminate |].
      intros s [<- | [<- | []]]; rewrite elem_of_singleton; discriminate.
  - apply (Hrej {| CreateManifest.entry_name := "b.vcf.gz";
                   CreateManifest.entry_is_file := true |} ["S1"; "S4"] "S1").
    + reflexivity.
    + now left.
    + now apply elem_of_singleton.
Defined.

(** ** The version resolver: which existing counts a run extends *)

Section VersionResolver.

Lemma Z_gtb_asym (a b : Z) : (a >? b) = true -> (b >? a) = false.
Proof. rewrite !Z.gtb_ltb. intros H. apply Z.ltb_lt in H. apply Z.ltb_ge. lia. Qed.

Lemma Z_ngt_trans (a b c : Z) : (b >? a) = false -> (c >? b) = false -> (c >? a) = false.
Proof. rewrite !Z.gtb_ltb, !Z.ltb_ge. lia. Qed.

Lemma NoDup_map_inj {A B : Type} (f : A -> B) (l : list A) (x y : A) :
  NoDup (List.map f l) -> In x l -> In y l -> f x = f y -> x = y.
Proof.
  induction l as [| z l IH]; cbn; [tauto |].
  intros Hnd Hx Hy Hf. apply NoDup_cons in Hnd as [Hz Hnd]. rewrite list_elem_of_In in Hz.
  destruct Hx as [-> | Hx], Hy as [-> | Hy]; auto.
  - exfalso. apply Hz. rewrite Hf. now apply in_map.
  - exfalso. apply Hz. rewrite <- Hf. now apply in_map.
Qed.

(** [cohort_merge.py] takes the file whose base name is greatest. *)
Lemma latest_by_name_greatest (found : list string) :
  found <> [] ->
  exists f, CohortMerge.latest_by_name found = Some f /\ In f found /\
    forall g, In g found -> String.leb (Py.basename g) (Py.basename f) = true.
Proof.
  intros Hne. unfold CohortMerge.latest_by_name.
  destruct found as [| f0 rest]; [contradiction |]. set (found := f0 :: rest) in *.
  destruct (last (Py.sorted Py.basename String.ltb found)) as [f |] eqn:Hlast.
  - exists f. split; [reflexivity |].
    apply (sorted_last Py.basename String.ltb string_ltb_asym string_nlt_trans) in Hlast
      as [Hin Hmax].
    split; [exact Hin |]. intros g Hg. apply string_leb_not_ltb. now apply Hmax.
  - apply last_None in Hlast. now apply sorted_nonempty in Hlast.
Qed.

Lemma latest_by_name_order_independent (found found' : list string) :
  NoDup (List.map Py.basename found) -> Permutation found found' ->
  CohortMerge.latest_by_name found' = CohortMerge.latest_by_name found.
Proof.
  intros Hnd Hperm. unfold CohortMerge.latest_by_name.
  rewrite <- (sorted_order_independent Py.basename String.ltb
               string_ltb_asym string_nlt_trans found found').
  - destruct found, found'; try reflexivity.
    symmetry in Hperm. now apply Permutation_nil_cons in Hperm.
  - intros x y Hx Hy Hxy Hyx. apply (NoDup_map_inj Py.basename found); try assumption.
    now apply string_ltb_total.
  - exact Hperm.
Qed.

(** [cohort_update.py] takes the file that was modified last. *)
Lemma latest_by_mtime (w : world) (out_file_base : string) :
  glob w (out_file_base +:+ "_*.tsf") <> [] ->
  exists f, CohortUpdate.find_existing_counts w None out_file_base = Some f /\
    In f (glob w (out_file_base +:+ "_*.tsf")) /\
    forall g, In g (glob w (out_file_base +:+ "_*.tsf")) -> getmtime w g <= getmtime w f.
Proof.
  intros Hne. unfold CohortUpdate.find_existing_counts.
  set (found := glob w _) in *.
  destruct (head (Py.sorted (getmtime w) Z.gtb found)) as [f |] eqn:Hhead.
  - exists f. split; [reflexivity |].
    apply (sorted_head (getmtime w) Z.gtb Z_gtb_asym Z_ngt_trans) in Hhead as [Hin Hmax].
    split; [exact Hin |]. intros g Hg. specialize (Hmax g Hg).
    rewrite Z.gtb_ltb, Z.ltb_ge in Hmax. exact Hmax.
  - apply head_None in Hhead. now apply sorted_nonempty in Hhead.
Qed.

Lemma string_length_app (s t : string) :
  String.length (s +:+ t) = (String.length s + String.length t)%nat.
Proof.
  induction s as [| c s IH]; [reflexivity |].
  rewrite string_app_cons. cbn. now rewrite IH.
Qed.

Lemma substring_all (s : string) : String.substring 0 (String.length s) s = s.
Proof. induction s as [| c s IH]; cbn; [reflexivity | now rewrite IH]. Qed.

Lemma substring_skip (pre s : string) :
  String.substring (String.length pre) (String.length s) (pre +:+ s) = s.
Proof.
  induction pre as [| c pre IH]; [apply substring_all |].
  rewrite string_app_cons. cbn. exact IH.
Qed.

Lemma endswith_app (pre suffix : string) : Py.endswith (pre +:+ suffix) suffix = true.
Proof.
  unfold Py.endswith. rewrite string_length_app. apply andb_true_iff. split.
  - apply Nat.leb_le. lia.
  - replace (String.length pre + String.length suffix - String.length suffix)%nat
      with (String.length pre) by lia.
    rewrite substring_skip. apply String.eqb_refl.
Qed.

Lemma substring_split (s : string) (m : nat) :
  (m <= String.length s)%nat ->
  s = String.substring 0 m s +:+ String.substring m (String.length s - m) s.
Proof.
  revert m. induction s as [| c s IH]; intros [| m] Hm; cbn in *; try lia.
  - reflexivity.
  - now rewrite substring_all.
  - rewrite string_app_cons. f_equal. apply IH. lia.
Qed.

Lemma endswith_split (s suffix : string) :
  Py.endswith s suffix = true -> exists pre, s = pre +:+ suffix.
Proof.
  unfold Py.endswith. intros H. apply andb_true_iff in H as [Hlen Heq].
  apply Nat.leb_le in Hlen. apply String.eqb_eq in Heq.
  set (m := (String.length s - String.length suffix)%nat) in *.
  assert (Hm : (m <= String.length s)%nat) by lia.
  assert (Hk : String.length suffix = (String.length s - m)%nat) by lia.
  clearbody m. rewrite Hk in Heq.
  exists (String.substring 0 m s). rewrite <- Heq. now apply substring_split.
Qed.

(** The name [cohort_merge.py] gives its output ends in [.tsf], and it is
    this whole name that the pattern for the existing counts extends. *)
Lemma merge_out_file_ends_tsf (arg_given : bool) (chosen source_version workspace_dir : string) :
  Py.endswith (CohortMerge.next_out_file arg_given chosen source_version workspace_dir) ".tsf"
  = true.
Proof.
  unfold CohortMerge.next_out_file.
  set (o1 := if Py.endswith chosen ".tsf" then _ else _).
  set (o2 := if negb arg_given then _ else _).
  assert (H3 : exists pre, (if negb (Py.endswith o2 ".tsf") then o2 +:+ ".tsf" else o2)
                           = pre +:+ ".tsf").
  { destruct (Py.endswith o2 ".tsf") eqn:H; cbn [negb]; [now apply endswith_split | eauto]. }
  destruct H3 as [pre ->]. unfold Py.join.
  destruct (Py.startswith _ _); [apply endswith_app |].
  destruct (negb _ || _); rewrite <- ?string_app_assoc; apply endswith_app.
Qed.

(** In [cohort_merge.py] the output name ends in [.tsf] by the time the
    earlier counts are looked for, so that, when none is given, the search
    pattern is that full name followed by [_*.tsf]. *)
Lemma merge_pattern_extends_full_name (w : world) (a : CohortMerge.args)
    (arg_given : bool) (chosen source_version workspace_dir : string) :
  CohortMerge.given (CohortMerge.existing_counts a) = false ->
  exists stem,
    CohortMerge.find_existing_counts w a
      (CohortMerge.next_out_file arg_given chosen source_version workspace_dir)
    = CohortMerge.latest_by_name (glob w (stem +:+ ".tsf" +:+ "_*.tsf")).
Proof.
  intros Hgiven. unfold CohortMerge.find_existing_counts. rewrite Hgiven.
  destruct (endswith_split _ _ (merge_out_file_ends_tsf arg_given chosen source_version
                                  workspace_dir)) as [stem ->].
  exists stem. now rewrite string_app_assoc.
Qed.

(** C4, as the specification states it: the file with the lexically
    greatest name is taken whatever the modification times.  In
    [cohort_update.py], when [out_2024-01-01.tsf] was modified after
    [out_2024-03-15.tsf], it is [out_2024-01-01.tsf] that is taken. *)
Lemma C4_counterexample :
  let w := with_files demo_world ["out_2024-01-01.tsf"; "out_2024-03-15.tsf"] demo_mtime in
  glob w ("out" +:+ "_*.tsf") = ["out_2024-01-01.tsf"; "out_2024-03-15.tsf"] /\
  CohortUpdate.find_existing_counts w None "out" = Some "out_2024-01-01.tsf" /\
  CohortUpdate.find_existing_counts w None "out" <> Some "out_2024-03-15.tsf".
Proof. cbn. repeat split. discriminate. Qed.

Lemma insert_sorted_ext {A K : Type} (key key' : A -> K) (ltb : K -> K -> bool)
    (x : A) (l : list A) :
  (forall y, key' y = key y) ->
  Py.insert_sorted key' ltb x l = Py.insert_sorted key ltb x l.
Proof.
  intros Hkey. induction l as [| y l IH]; cbn; [reflexivity |].
  now rewrite !Hkey, IH.
Qed.

Lemma sorted_ext {A K : Type} (key key' : A -> K) (ltb : K -> K -> bool) (l : list A) :
  (forall y, key' y = key y) -> Py.sorted key' ltb l = Py.sorted key ltb l.
Proof.
  intros Hkey. induction l as [| x l IH]; cbn; [reflexivity |].
  unfold Py.sorted in IH. rewrite IH. now apply insert_sorted_ext.
Qed.

(** [cohort_update.py] takes the first enumerated of the files that were
    modified last. *)
Lemma first_latest_by_mtime (w : world) (out_file_base : string) :
  glob w (out_file_base +:+ "_*.tsf") <> [] ->
  exists f earlier later,
    CohortUpdate.find_existing_counts w None out_file_base = Some f /\
    glob w (out_file_base +:+ "_*.tsf") = (earlier ++ f :: later)%list /\
    (forall g, In g earlier -> getmtime w g < getmtime w f) /\
    (forall g, In g later -> getmtime w g <= getmtime w f).
Proof.
  intros Hne. unfold CohortUpdate.find_existing_counts.
  set (found := glob w _) in *.
  destruct (head (Py.sorted (getmtime w) Z.gtb found)) as [f |] eqn:Hhead.
  - apply (sorted_head_first (getmtime w) Z.gtb Z_gtb_asym Z_ngt_trans) in Hhead
      as (earlier & later & Hsplit & Hearlier & Hlater).
    exists f, earlier, later. repeat split; try assumption.
    + intros g Hg. specialize (Hearlier g Hg). rewrite Z.gtb_ltb in Hearlier.
      now apply Z.ltb_lt in Hearlier.
    + intros g Hg. specialize (Hlater g Hg). rewrite Z.gtb_ltb, Z.ltb_ge in Hlater.
      exact Hlater.
  - apply head_None in Hhead. now apply sorted_nonempty in Hhead.
Qed.

Lemma latest_by_mtime_order_independent (w w' : world) (base base' : string) :
  NoDup (List.map (getmtime w) (glob w (base +:+ "_*.tsf"))) ->
  (forall p, getmtime w' p = getmtime w p) ->
  Permutation (glob w (base +:+ "_*.tsf")) (glob w' (base' +:+ "_*.tsf")) ->
  CohortUpdate.find_existing_counts w' None base'
  = CohortUpdate.find_existing_counts w None base.
Proof.
  intros Hnd Hmtime Hperm. unfold CohortUpdate.find_existing_counts.
  rewrite (sorted_ext (getmtime w) (getmtime w') Z.gtb _ Hmtime).
  assert (Hdistinct : forall x y, In x (glob w (base +:+ "_*.tsf")) ->
            In y (glob w (base +:+ "_*.tsf")) ->
            (getmtime w x >? getmtime w y) = false ->
            (getmtime w y >? getmtime w x) = false -> x = y).
  { intros x y Hx Hy Hxy Hyx. apply (NoDup_map_inj (getmtime w) _ x y Hnd Hx Hy).
    rewrite !Z.gtb_ltb, !Z.ltb_ge in *. lia. }
  now rewrite (sorted_order_independent (getmtime w) Z.gtb Z_gtb_asym Z_ngt_trans
                 _ _ Hdistinct Hperm).
Qed.

(** [cohort_merge.py] takes the last enumerated of the files whose base
    name is greatest. *)
Lemma last_latest_by_name (found : list string) :
  found <> [] ->
  exists f earlier later,
    CohortMerge.latest_by_name found = Some f /\
    found = (earlier ++ f :: later)%list /\
    (forall g, In g earlier -> String.leb (Py.basename g) (Py.basename f) = true) /\
    (forall g, In g later -> String.ltb (Py.basename g) (Py.basename f) = true).
Proof.
  intros Hne. unfold CohortMerge.latest_by_name.
  destruct found as [| f0 rest]; [contradiction |]. set (found := f0 :: rest) in *.
  destruct (last (Py.sorted Py.basename String.ltb found)) as [f |] eqn:Hlast.
  - apply (sorted_last_last Py.basename String.ltb string_ltb_asym string_nlt_trans) in Hlast
      as (earlier & later & Hsplit & Hearlier & Hlater).
    exists f, earlier, later. repeat split; try assumption.
    intros g Hg. apply string_leb_not_ltb. now apply Hearlier.
  - apply last_None in Hlast. now apply sorted_nonempty in Hlast.
Qed.

(** C4, amended: of a non-empty list of files that its search returns,
    [cohort_update.py] selects the file whose modification time is latest,
    the first enumerated among equals, whatever the names, and so
    whatever the order of enumeration when the times are distinct;
    [cohort_merge.py] selects the file whose base name is lexically
    greatest, the last enumerated among equals, whatever the world, so
    whatever the modification times, and whatever the order of enumeration
    when the base names are distinct.  Given [out_2024-01-01.tsf] and
    [out_2024-03-15.tsf] in either order, [cohort_update.py] returns the
    latter when it was modified after the former. *)
Theorem C4_latest_existing_counts (w : world) (found : list string) :
  found <> [] ->
  (forall out_file_base,
     glob w (out_file_base +:+ "_*.tsf") = found ->
     exists f earlier later,
       CohortUpdate.find_existing_counts w None out_file_base = Some f /\
       found = (earlier ++ f :: later)%list /\
       (forall g, In g earlier -> getmtime w g < getmtime w f) /\
       (forall g, In g later -> getmtime w g <= getmtime w f) /\
       (NoDup (List.map (getmtime w) found) ->
        forall w' out_file_base',
          (forall p, getmtime w' p = getmtime w p) ->
          Permutation found (glob w' (out_file_base' +:+ "_*.tsf")) ->
          CohortUpdate.find_existing_counts w' None out_file_base' = Some f)) /\
  (exists f earlier later,
     CohortMerge.latest_by_name found = Some f /\
     found = (earlier ++ f :: later)%list /\
     (forall g, In g earlier -> String.leb (Py.basename g) (Py.basename f) = true) /\
     (forall g, In g later -> String.ltb (Py.basename g) (Py.basename f) = true) /\
     (forall a out_file,
        CohortMerge.given (CohortMerge.existing_counts a) = false ->
        glob w (out_file +:+ "_*.tsf") = found ->
        CohortMerge.find_existing_counts w a out_file = Some f) /\
     (NoDup (List.map Py.basename found) ->
      forall found', Permutation found found' ->
        CohortMerge.latest_by_name found' = Some f)) /\
  (forall out_file_base,
     glob w (out_file_base +:+ "_*.tsf") = found ->
     Permutation found ["out_2024-01-01.tsf"; "out_2024-03-15.tsf"] ->
     getmtime w "out_2024-01-01.tsf" < getmtime w "out_2024-03-15.tsf" ->
     CohortUpdate.find_existing_counts w None out_file_base = Some "out_2024-03-15.tsf").
Proof.
  intros Hne. split; [| split].
  - intros base Hglob. rewrite <- Hglob in Hne |- *.
    destruct (first_latest_by_mtime w base Hne)
      as (f & earlier & later & Hf & Hsplit & Hearlier & Hlater).
    exists f, earlier, later. repeat split; try assumption.
    intros Hnd w' base' Hmtime Hperm. rewrite <- Hf.
    now apply latest_by_mtime_order_independent.
  - destruct (last_latest_by_name found Hne)
      as (f & earlier & later & Hf & Hsplit & Hearlier & Hlater).
    exists f, earlier, later. repeat split; try assumption.
    + intros a out_file Hgiven Hglob. unfold CohortMerge.find_existing_counts.
      now rewrite Hgiven, Hglob.
    + intros Hnd found' Hperm. rewrite <- Hf.
      now apply latest_by_name_order_independent.
  - intros base Hglob Hperm Hnewer. rewrite <- Hglob in Hne, Hperm.
    destruct (latest_by_mtime w base Hne) as (f & -> & Hin & Hmax). f_equal.
    apply (Permutation_in _ Hperm) in Hin.
    destruct Hin as [<- | [<- | []]]; [| reflexivity].
    assert (Hother : In "out_2024-03-15.tsf" (glob w (base +:+ "_*.tsf")))
      by (apply (Permutation_in _ (Permutation_sym Hperm)); right; now left).
    specialize (Hmax _ Hother). lia.
Qed.

Lemma C4_latest_existing_counts_witness :
  let found := ["out_2024-03-15.tsf"; "out_2024-01-01.tsf"] in
  let w := with_files demo_world found demo_mtime in
  found <> [] /\
  getmtime w "out_2024-03-15.tsf" < getmtime w "out_2024-01-01.tsf" /\
  CohortUpdate.find_existing_counts w None "out" = Some "out_2024-01-01.tsf" /\
  CohortMerge.latest_by_name found = Some "out_2024-03-15.tsf".
Proof.
  intros found w.
  assert (Hne : found <> []) by discriminate.
  destruct (C4_latest_existing_counts w found Hne)
    as (Hupdate & (f & earlier & later & Hf & _) & _).
  destruct (Hupdate "out" eq_refl) as (g & ? & ? & Hg & _).
  split; [exact Hne |]. split; [reflexivity |]. split.
  - rewrite Hg. cbv in Hg. congruence.
  - rewrite Hf. cbv in Hf. congruence.
Defined.

End VersionResolver.

(** ** The name of the next version *)

Section NextVersion.

Lemma to_int_not_nil (z : Z) :
  Z.to_int z <> Decimal.Pos Decimal.Nil /\ Z.to_int z <> Decimal.Neg Decimal.Nil.
Proof.
  destruct z as [| p | p]; cbn; split; try discriminate;
    intros [= H]; exact (DecimalPos.Unsigned.to_uint_nonnil p H).
Qed.

Lemma str_inj (z1 z2 : Z) : Py.str z1 = Py.str z2 -> z1 = z2.
Proof.
  unfold Py.str. intros H. apply DecimalZ.to_int_inj.
  destruct (to_int_not_nil z1) as [Ha Hb], (to_int_not_nil z2) as [Hc Hd].
  pose proof (NilZero.isi _ Ha Hb) as H1. pose proof (NilZero.isi _ Hc Hd) as H2.
  rewrite H in H1. congruence.
Qed.

Lemma not_digit_dash : ~ Py.is_digit "-".
Proof. unfold Py.is_digit. cbn. intuition discriminate. Qed.

Lemma not_digit_underscore : ~ Py.is_digit "_".
Proof. unfold Py.is_digit. cbn. intuition discriminate. Qed.

Lemma format_0d_no_dash (w n : nat) : ~ In "-"%char (list_ascii_of_string (Py.format_0d w n)).
Proof. intros H. apply format_0d_digits in H. exact (not_digit_dash H). Qed.

(** A date text consists of digits and dashes. *)
Lemma strftime_Ymd_chars (d : Py.datetime) (c : ascii) :
  In c (list_ascii_of_string (Py.strftime_Ymd d)) -> Py.is_digit c \/ c = "-"%char.
Proof.
  unfold Py.strftime_Ymd. rewrite !string_chars_app, !in_app_iff. cbn.
  intros H. decompose [or] H; subst; auto; try contradiction;
    left; eapply format_0d_digits; eassumption.
Qed.

Lemma strftime_Ymd_inj (d1 d2 : Py.datetime) :
  Py.strftime_Ymd d1 = Py.strftime_Ymd d2 <-> Py.day_of d1 = Py.day_of d2.
Proof.
  unfold Py.strftime_Ymd, Py.day_of. split.
  - intros H.
    apply string_split_unique in H as [Hy H]; try apply format_0d_no_dash.
    apply string_split_unique in H as [Hm Hd]; try apply format_0d_no_dash.
    apply format_0d_inj in Hy, Hm, Hd. congruence.
  - intros [= -> -> ->]. reflexivity.
Qed.

Lemma strftime_Ymd_no_dash_split (d1 d2 : Py.datetime) (r1 r2 : string) :
  Py.strftime_Ymd d1 +:+ String "-" r1 = Py.strftime_Ymd d2 +:+ String "-" r2 ->
  Py.strftime_Ymd d1 = Py.strftime_Ymd d2 /\ r1 = r2.
Proof.
  unfold Py.strftime_Ymd. rewrite !string_app_assoc.
  intros H.
  apply string_split_unique in H as [Hy H]; try apply format_0d_no_dash.
  apply string_split_unique in H as [Hm H]; try apply format_0d_no_dash.
  apply string_split_unique in H as [Hd H]; try apply format_0d_no_dash.
  rewrite Hy, Hm, Hd. auto.
Qed.

Lemma strftime_YmdHM_inj (d1 d2 : Py.datetime) :
  Py.strftime_YmdHM d1 = Py.strftime_YmdHM d2 <-> Py.minute_of d1 = Py.minute_of d2.
Proof.
  unfold Py.strftime_YmdHM, Py.minute_of. split.
  - intros H. apply strftime_Ymd_no_dash_split in H as [Hd H].
    apply strftime_Ymd_inj in Hd. unfold Py.day_of in Hd.
    apply string_split_unique in H as [Hh Hm]; try apply format_0d_no_dash.
    apply format_0d_inj in Hh, Hm. congruence.
  - intros [= Hy Hm Hd -> ->]. unfold Py.strftime_Ymd. now rewrite Hy, Hm, Hd.
Qed.

Lemma digits_nonempty (n : nat) : Py.digits n <> EmptyString.
Proof.
  unfold Py.digits. pose proof (nat_to_uint_nonnil n) as Hn.
  destruct (Nat.to_uint n); try contradiction; discriminate.
Qed.

Lemma format_0d_last (w n : nat) :
  exists c, last (list_ascii_of_string (Py.format_0d w n)) = Some c /\ Py.is_digit c.
Proof.
  assert (Hne : list_ascii_of_string (Py.format_0d w n) <> []).
  { unfold Py.format_0d, Py.zfill. rewrite string_chars_app. intros H.
    apply app_eq_nil in H as [_ H]. apply (digits_nonempty n).
    apply string_chars_inj. exact H. }
  apply last_is_Some in Hne as [c Hc]. exists c. split; [exact Hc |].
  apply (format_0d_digits w n). apply list_elem_of_In. eapply last_Some_elem_of. exact Hc.
Qed.

(** A text that ends in a minute stamp does not end in [.tsf]. *)
Lemma minute_stamp_not_tsf (x : string) (d : Py.datetime) :
  Py.endswith (x +:+ "_" +:+ Py.strftime_YmdHM d) ".tsf" = false.
Proof.
  destruct (Py.endswith _ _) eqn:H; [| reflexivity]. exfalso.
  apply endswith_split in H as [pre H]. apply (f_equal list_ascii_of_string) in H.
  unfold Py.strftime_YmdHM in H. rewrite !string_chars_app in H.
  apply (f_equal last) in H. rewrite !app_assoc in H.
  destruct (format_0d_last 2 (Py.minute d)) as (c & Hc & Hdigit).
  rewrite last_app, Hc in H. rewrite last_app in H. cbn in H. injection H as ->.
  unfold Py.is_digit in Hdigit. cbn in Hdigit. intuition discriminate.
Qed.

Lemma join_inj (ws x r1 r2 : string) :
  Py.join ws (x +:+ String "_" r1) = Py.join ws (x +:+ String "_" r2) -> r1 = r2.
Proof.
  unfold Py.join, Py.startswith. intros H.
  assert (Hhead : String.prefix "/" (x +:+ String "_" r1)
                  = String.prefix "/" (x +:+ String "_" r2)).
  { destruct x as [| c x]; [reflexivity |]. rewrite !string_app_cons.
    cbn [String.prefix]. destruct (ascii_dec "/" c); [| reflexivity].
    now destruct (x +:+ String "_" r1), (x +:+ String "_" r2). }
  rewrite <- Hhead in H.
  destruct (String.prefix "/" (x +:+ String "_" r1)).
  - apply string_app_inv_head in H. congruence.
  - destruct (negb (Py.nonempty ws) || Py.endswith ws "/").
    + do 2 apply string_app_inv_head in H. congruence.
    + apply string_app_inv_head in H. apply (string_app_inv_head "/") in H.
      apply string_app_inv_head in H. congruence.
Qed.

(** C5, as the specification states it: two runs that start at different
    moments, even within one minute, derive different names.  Two runs of
    [cohort_merge.py] that start 45 seconds apart within 10:30 derive the
    same name. *)
Lemma C5_counterexample :
  let later := {| Py.year := 2024; Py.month := 3; Py.day := 15;
                  Py.hour := 10; Py.minute := 30; Py.second := 50 |} in
  let w1 := demo_world in
  let w2 := at_time demo_world later 1710498650 in
  utcnow w1 <> utcnow w2 /\ now_timestamp w1 <> now_timestamp w2 /\
  CohortMerge.next_out_file false "out" (CohortMerge.source_version w1) "/ws"
  = CohortMerge.next_out_file false "out" (CohortMerge.source_version w2) "/ws".
Proof. cbn. repeat split; discriminate. Qed.

(** C5, amended: the version token has no part finer than a second.  The
    names [cohort_update.py] derives for two runs on one base are equal
    exactly when the runs start on the same UTC day and in the same epoch
    second, so runs whose start seconds differ get different names.  The
    names [cohort_merge.py] derives from its configuration are equal
    exactly when the runs start in the same UTC minute, and with an
    [--out-file] argument the name carries no version token at all. *)
Theorem C5_next_version_names (w1 w2 : world) :
  (forall out_file_base,
     CohortUpdate.next_out_file w1 out_file_base = CohortUpdate.next_out_file w2 out_file_base
     <-> Py.day_of (utcnow w1) = Py.day_of (utcnow w2) /\
         now_timestamp w1 = now_timestamp w2) /\
  (forall chosen workspace_dir,
     CohortMerge.next_out_file false chosen (CohortMerge.source_version w1) workspace_dir
     = CohortMerge.next_out_file false chosen (CohortMerge.source_version w2) workspace_dir
     <-> Py.minute_of (utcnow w1) = Py.minute_of (utcnow w2)) /\
  (forall chosen workspace_dir,
     CohortMerge.next_out_file true chosen (CohortMerge.source_version w1) workspace_dir
     = CohortMerge.next_out_file true chosen (CohortMerge.source_version w2) workspace_dir).
Proof.
  split; [| split].
  - intros base. unfold CohortUpdate.next_out_file, CohortUpdate.source_version. split.
    + intros H. apply string_app_inv_head in H. apply (string_app_inv_head "_") in H.
      apply string_split_unique in H as [Hday H].
      * apply string_app_inv_tail in H. apply str_inj in H.
        apply strftime_Ymd_inj in Hday. auto.
      * intros Hc. apply strftime_Ymd_chars in Hc as [Hc | Hc];
          [exact (not_digit_underscore Hc) | discriminate Hc].
      * intros Hc. apply strftime_Ymd_chars in Hc as [Hc | Hc];
          [exact (not_digit_underscore Hc) | discriminate Hc].
    + intros [Hday ->]. apply strftime_Ymd_inj in Hday. now rewrite Hday.
  - intros chosen ws. unfold CohortMerge.next_out_file, CohortMerge.source_version.
    cbn [negb]. rewrite !minute_stamp_not_tsf. cbn [negb]. split.
    + intros H. rewrite !string_app_assoc in H. apply join_inj in H.
      apply string_app_inv_tail in H. now apply strftime_YmdHM_inj.
    + intros H. apply strftime_YmdHM_inj in H. now rewrite H.
  - intros chosen ws. reflexivity.
Qed.

End NextVersion.

(** ** The index check before the engine runs, [check_tbi_files] *)


Lemma events_remove (w : world) (path : string) (e : event) :
  In e (events (remove w path)) -> e = RemoveFile path /\ remove_error w path = None.
Proof.
  unfold remove. destruct (remove_error w path); [intros [] |].
  intros [<- | []]. auto.
Qed.


Section IndexCheck.
Variable w : world.

Lemma endswith_nonempty (s suffix : string) :
  suffix <> EmptyString -> Py.endswith s suffix = true -> Py.nonempty s = true.
Proof.
  intros Hsuf H. apply endswith_split in H as [pre ->].
  destruct pre; [destruct suffix; [contradiction | reflexivity] | reflexivity].
Qed.

(** The loop collects, in the order of the manifest, the index of every
    path that ends in [.vcf.gz] and has no index file next to it. *)
Lemma missing_loop (lines acc : list string) :
  foldl (fun missing line =>
           let vcf_file := Py.strip line in
           if negb (Py.nonempty vcf_file) then missing
           else if Py.endswith vcf_file ".vcf.gz" then
             let tbi_file := vcf_file +:+ ".tbi" in
             if negb (path_exists w tbi_file) then (missing ++ [tbi_file])%list else missing
           else missing) acc lines
  = (acc ++ omap (fun line =>
                    if Py.endswith (Py.strip line) ".vcf.gz"
                       && negb (path_exists w (Py.strip line +:+ ".tbi"))
                    then Some (Py.strip line +:+ ".tbi") else None) lines)%list.
Proof.
  revert acc. induction lines as [| line lines IH]; intros acc; cbn [foldl omap list_omap].
  - now rewrite app_nil_r.
  - rewrite IH. cbn zeta.
    destruct (Py.endswith (Py.strip line) ".vcf.gz") eqn:Hend.
    + assert (Hne : Py.nonempty (Py.strip line) = true)
        by (eapply endswith_nonempty; [| exact Hend]; discriminate).
      rewrite Hne. cbn [negb andb].
      destruct (path_exists w _); cbn [negb]; [reflexivity | now rewrite <- app_assoc].
    + cbn [andb]. now destruct (Py.nonempty (Py.strip line)).
Qed.

Lemma missing_tbi_files_spec (lines : list string) (p : string) :
  In p (CohortUpdate.missing_tbi_files w lines) <->
  exists line, In line lines /\
    Py.endswith (Py.strip line) ".vcf.gz" = true /\
    path_exists w (Py.strip line +:+ ".tbi") = false /\
    p = Py.strip line +:+ ".tbi".
Proof.
  unfold CohortUpdate.missing_tbi_files. rewrite missing_loop. cbn [app].
  rewrite <- list_elem_of_In, list_elem_of_omap. split.
  - intros (line & Hline & H). exists line. apply list_elem_of_In in Hline.
    destruct (Py.endswith _ _); [| discriminate].
    destruct (path_exists w _); [discriminate |]. cbn in H. injection H as <-. auto.
  - intros (line & Hline & Hend & Hex & ->). exists line.
    split; [now apply list_elem_of_In |]. now rewrite Hend, Hex.
Qed.







End IndexCheck.


(** ** [cohort_update.py] reads its thread counts from [threadCount.py] *)

Section UpdateThreadCounts.

Lemma digit_not_space (c : ascii) : Py.is_digit c \/ c = "-"%char -> Py.isspace c = false.
Proof.
  unfold Py.is_digit. cbn. intros H. decompose [or] H; subst; try reflexivity; contradiction.
Qed.

Lemma lstrip_keeps (c : ascii) (s : string) :
  Py.isspace c = false -> Py.lstrip (String c s) = String c s.
Proof. intros H. cbn. now rewrite H. Qed.

Lemma rstrip_keeps (s : string) :
  (forall c, In c (list_ascii_of_string s) -> Py.isspace c = false) -> Py.rstrip s = s.
Proof.
  induction s as [| c s IH]; intros H; [reflexivity |]. cbn.
  rewrite IH by (intros c' Hc'; apply H; now right).
  destruct s; [| reflexivity]. rewrite (H c) by now left. reflexivity.
Qed.

Lemma rstrip_newline (s : string) :
  Py.rstrip (s +:+ String "010" EmptyString) = Py.rstrip s.
Proof.
  induction s as [| c s IH]; [reflexivity |].
  rewrite string_app_cons. cbn [Py.rstrip]. now rewrite IH.
Qed.

(** The numeral of an integer: not empty, and without white space. *)
Lemma str_chars (z : Z) (c : ascii) :
  In c (list_ascii_of_string (Py.str z)) -> Py.is_digit c \/ c = "-"%char.
Proof.
  unfold Py.str, NilZero.string_of_int.
  destruct (Z.to_int z) as [d | d]; cbn [list_ascii_of_string In].
  - destruct d; cbn [NilZero.string_of_uint]; intros H;
      solve [ left; eapply string_of_uint_digits; exact H
            | destruct H as [<- | []]; left; unfold Py.is_digit; cbn; tauto ].
  - intros [<- | H]; [now right |].
    destruct d; cbn [NilZero.string_of_uint] in H;
      solve [ left; eapply string_of_uint_digits; exact H
            | destruct H as [<- | []]; left; unfold Py.is_digit; cbn; tauto ].
Qed.

Lemma str_nonempty (z : Z) : exists c s, Py.str z = String c s.
Proof.
  unfold Py.str, NilZero.string_of_int.
  destruct (Z.to_int z) as [d | d]; [| eauto].
  destruct d; cbn; eauto.
Qed.

Lemma strip_printed_number (z : Z) :
  Py.strip (Py.str z +:+ String "010" EmptyString) = Py.str z.
Proof.
  unfold Py.strip. destruct (str_nonempty z) as (c & s & Hs).
  assert (Hc : Py.isspace c = false).
  { apply digit_not_space, (str_chars z). rewrite Hs. now left. }
  rewrite Hs, string_app_cons, (lstrip_keeps _ _ Hc), <- string_app_cons, <- Hs.
  rewrite rstrip_newline. apply rstrip_keeps.
  intros c' Hc'. now apply digit_not_space, (str_chars z).
Qed.

Lemma strip_number (z : Z) : Py.strip (Py.str z) = Py.str z.
Proof.
  unfold Py.strip. destruct (str_nonempty z) as (c & s & Hs).
  assert (Hc : Py.isspace c = false).
  { apply digit_not_space, (str_chars z). rewrite Hs. now left. }
  rewrite Hs, (lstrip_keeps _ _ Hc), <- Hs. apply rstrip_keeps.
  intros c' Hc'. now apply digit_not_space, (str_chars z).
Qed.

(** Reading back a printed integer gives the integer. *)
Lemma int_of_printed_number (z : Z) :
  Py.int (Py.strip (unlines [Py.str z])) = Return z.
Proof.
  unfold unlines. cbn [List.map String.concat].
  rewrite strip_printed_number. unfold Py.int. rewrite strip_number.
  unfold Py.str. destruct (to_int_not_nil z) as [Ha Hb].
  rewrite (NilZero.isi _ Ha Hb). now rewrite DecimalZ.of_to.
Qed.

(** When [threadCount.py] is there and its computation goes through,
    [calculate_thread_counts] of [cohort_update.py] returns the reader
    threads and the readers per flattener that it computes. *)
Lemma update_thread_counts_follow_script (w : world) (cpu n : Z) (task_dir : string)
    (c : ThreadCount.counts) :
  path_exists w (CreateManifest.path_str task_dir "threadCount.py") = true ->
  0 < cpu -> 0 < n ->
  ThreadCount.compute cpu n = Return c ->
  result (CohortUpdate.calculate_thread_counts w cpu n task_dir)
  = Return (ThreadCount.reader_threads c, ThreadCount.readers_per_flattener c).
Proof.
  intros Hscript Hcpu Hn Hc. unfold CohortUpdate.calculate_thread_counts.
  rewrite Hscript. cbn [negb].
  unfold CohortUpdate.check_output_thread_count, ThreadCount.main.
  cbn [ThreadCount.count ThreadCount.cpu_count_arg ThreadCount.reader_threads_flag
       ThreadCount.readers_per_flattener_flag].
  destruct (Z.leb_spec n 0) as [? | _]; [lia |].
  destruct (Z.leb_spec cpu 0) as [? | _]; [lia |].
  cbn [mbind mret outcome_mbind outcome_mret outcome_bind]. rewrite Hc.
  cbn [mbind mret outcome_mbind outcome_mret outcome_bind prog_mbind prog_mret prog_bind
       emit lift thread_count_stdout result snd].
  rewrite !int_of_printed_number. reflexivity.
Qed.

End UpdateThreadCounts.

(** ** The engine and its two pipes *)

Section EngineRunFacts.
Import EngineRun.
Variable capacity : nat.

Lemma child_writes_inv (k : nat) (st st' : state) :
  child_writes capacity k st = Some st' ->
  exists s data rest,
    writes st = (s, data) :: rest /\ (0 < k <= length data)%nat /\
    (length (pipe s st) + k <= capacity)%nat /\ st' = wrote s k data rest st.
Proof.
  unfold child_writes. destruct (writes st) as [| [s data] rest]; [discriminate |].
  destruct (_ && _) eqn:Hroom; [| discriminate].
  apply andb_true_iff in Hroom as [Hroom Hfits].
  apply andb_true_iff in Hroom as [Hpos Hlen].
  apply Nat.ltb_lt in Hpos. apply Nat.leb_le in Hlen. apply Nat.leb_le in Hfits.
  intros [= <-]. exists s, data, rest. auto.
Qed.

Lemma child_goes_on_inv (st st' : state) :
  child_goes_on st = Some st' ->
  (exists s rest, writes st = (s, []) :: rest /\ st' = went_on rest (exited st) st) \/
  (writes st = [] /\ exited st = false /\ st' = went_on [] true st).
Proof.
  unfold child_goes_on. destruct (writes st) as [| [s [| c data]] rest].
  - destruct (exited st); [discriminate |]. intros [= <-]. auto.
  - intros [= <-]. eauto.
  - discriminate.
Qed.

Lemma reads_inv (s : stream) (k : nat) (next : reader) (st st' : state) :
  reads s k next st = Some st' ->
  (pipe s st = [] /\ exited st = true /\ st' = moves_on st next) \/
  ((0 < k <= length (pipe s st))%nat /\ st' = read s k st).
Proof.
  unfold reads. destruct (pipe s st) as [| c p] eqn:Hpipe.
  - destruct (exited st); [| discriminate]. intros [= <-]. auto.
  - destruct (_ && _) eqn:Hk; [| discriminate].
    apply andb_true_iff in Hk as [Hpos Hlen].
    apply Nat.ltb_lt in Hpos. apply Nat.leb_le in Hlen. intros [= <-]. auto.
Qed.

(** The steps, one by one. *)
Lemma step_inv (st st' : state) :
  step capacity st st' ->
  (exists k s data rest,
     writes st = (s, data) :: rest /\ (0 < k <= length data)%nat /\
     (length (pipe s st) + k <= capacity)%nat /\ st' = wrote s k data rest st) \/
  (exists s rest, writes st = (s, []) :: rest /\ st' = went_on rest (exited st) st) \/
  (writes st = [] /\ exited st = false /\ st' = went_on [] true st) \/
  (exists s next,
     (parent st = ReadingStdout /\ s = ToStdout /\ next = ReadingStderr \/
      parent st = ReadingStderr /\ s = ToStderr /\ next = Waiting) /\
     (pipe s st = [] /\ exited st = true /\ st' = moves_on st next \/
      exists k, (0 < k <= length (pipe s st))%nat /\ st' = read s k st)) \/
  (parent st = Waiting /\ exited st = true /\ st' = moves_on st Finished).
Proof.
  intros [[k H] | [H | [k H]]].
  - apply child_writes_inv in H as (s & data & rest & H). left. eauto.
  - apply child_goes_on_inv in H as [H | H]; auto.
  - unfold script_steps in H. destruct (parent st) eqn:Hparent.
    + apply reads_inv in H. do 3 right. left. exists ToStdout, ReadingStderr.
      split; [auto |]. destruct H as [H | [Hk H]]; eauto.
    + apply reads_inv in H. do 3 right. left. exists ToStderr, Waiting.
      split; [auto |]. destruct H as [H | [Hk H]]; eauto.
    + destruct (exited st) eqn:Hexited; [| discriminate]. injection H as <-.
      do 4 right. auto.
    + discriminate.
Qed.

Lemma written_cons (s s' : stream) (data : list ascii) (rest : list (stream * list ascii)) :
  written s ((s', data) :: rest)
  = ((match s, s' with
      | ToStdout, ToStdout | ToStderr, ToStderr => data
      | _, _ => []
      end) ++ written s rest)%list.
Proof. reflexivity. Qed.

Lemma step_distance (st st' : state) : step capacity st st' -> (distance st' < distance st)%nat.
Proof.
  intros H. apply step_inv in H.
  destruct H as [(k & s & data & rest & Hw & Hk & Hroom & ->)
                | [(s & rest & Hw & ->)
                | [(Hw & Hex & ->)
                | [(s & next & Hphase & [(Hpipe & Hex & ->) | (k & Hk & ->)])
                | (Hparent & Hex & ->)]]]];
    unfold distance, bytes_left.
  - rewrite Hw. destruct s; cbn [wrote writes out_pipe err_pipe exited parent pipe] in *;
      rewrite !written_cons, ?length_app, !length_drop, ?length_take; cbn [length]; lia.
  - rewrite Hw. cbn [went_on writes out_pipe err_pipe exited parent].
    rewrite !written_cons. destruct s; cbn [length app]; lia.
  - rewrite Hw, Hex. cbn. lia.
  - cbn [moves_on writes out_pipe err_pipe exited parent].
    destruct Hphase as [(-> & _ & ->) | (-> & _ & ->)]; cbn; lia.
  - destruct Hphase as [(Hp & -> & _) | (Hp & -> & _)];
      cbn [read writes out_pipe err_pipe exited parent pipe] in *;
      rewrite length_drop; lia.
  - cbn [moves_on writes out_pipe err_pipe exited parent]. rewrite Hparent. cbn [rank]. lia.
Qed.

Lemma advance_step (st st' : state) : advance capacity st = Some st' -> step capacity st st'.
Proof.
  unfold advance, step. destruct (child_goes_on st) as [st1 |] eqn:Hgo.
  - intros [= <-]. auto.
  - destruct (child_writes capacity _ st) as [st1 |] eqn:Hwrite.
    + intros [= <-]. eauto.
    + intros H. eauto.
Qed.

Lemma advance_stuck (st : state) : advance capacity st = None -> stuck capacity st.
Proof.
  unfold advance. intros Hadv st' [[k H] | [H | [k H]]].
  - destruct (child_goes_on st) eqn:Hgo; [discriminate |].
    apply child_writes_inv in H as (s & data & rest & Hw & Hk & Hroom & _).
    rewrite Hw in Hadv. unfold child_writes in Hadv. rewrite Hw in Hadv.
    set (k0 := Nat.min (length data) (capacity - length (pipe s st))) in *.
    assert (Hk0 : ((0 <? k0) && (k0 <=? length data)
                   && (length (pipe s st) + k0 <=? capacity))%nat = true).
    { rewrite !andb_true_iff, Nat.ltb_lt, !Nat.leb_le. subst k0. lia. }
    rewrite Hk0 in Hadv. discriminate.
  - now rewrite H in Hadv.
  - destruct (child_goes_on st); [discriminate |].
    destruct (child_writes capacity _ st); [discriminate |].
    unfold script_steps, reads in *. destruct (parent st); cbn [pipe] in *.
    + destruct (out_pipe st) as [| c p]; [congruence |].
      rewrite Nat.leb_refl in Hadv. cbn in Hadv. discriminate.
    + destruct (err_pipe st) as [| c p]; [congruence |].
      rewrite Nat.leb_refl in Hadv. cbn in Hadv. discriminate.
    + congruence.
    + discriminate.
Qed.

(** Every run comes to a state from which nothing moves. *)
Lemma reaches_stuck (st : state) :
  exists st', rtc (step capacity) st st' /\ stuck capacity st'.
Proof.
  remember (distance st) as n eqn:Hn. revert st Hn.
  induction (lt_wf n) as [n _ IH]. intros st ->.
  destruct (advance capacity st) as [st1 |] eqn:Hadv.
  - apply advance_step in Hadv.
    destruct (IH _ (step_distance _ _ Hadv) st1 eq_refl) as (st' & Hrun & Hstuck).
    exists st'. split; [eapply rtc_l; eassumption | exact Hstuck].
  - exists st. split; [reflexivity | now apply advance_stuck].
Qed.


Variable script : list (stream * list ascii).

Lemma sound_start : sound capacity script (start script).
Proof. unfold sound. cbn. repeat split; try lia; discriminate. Qed.

Lemma sound_step (st st' : state) :
  sound capacity script st -> step capacity st st' -> sound capacity script st'.
Proof.
  intros (Hout & Herr & Hocap & Hecap & Hgone & Hphase) H. apply step_inv in H.
  destruct H as [(k & s & data & rest & Hw & Hk & Hroom & ->)
                | [(s & rest & Hw & ->)
                | [(Hw & Hex & ->)
                | [(s & next & Hnext & [(Hpipe & Hex & ->) | (k & Hk & ->)])
                | (Hparent & Hex & ->)]]]];
    unfold sound.
  - assert (Hrunning : exited st = false)
      by (destruct (exited st); [specialize (Hgone eq_refl); congruence | reflexivity]).
    rewrite Hw in Hout, Herr. rewrite written_cons in Hout, Herr.
    destruct s; cbn [wrote writes out_pipe err_pipe exited parent out_seen err_seen pipe] in *;
      rewrite !written_cons, ?length_app, ?length_take;
      (split; [| split; [| split; [lia | split; [lia | split; [congruence |]]]]]).
    + rewrite <- Hout, <- !app_assoc. do 2 f_equal.
      now rewrite (app_assoc (take k data)), take_drop.
    + exact Herr.
    + destruct (parent st); [exact Hphase | | |]; destruct Hphase; congruence.
    + exact Hout.
    + rewrite <- Herr, <- !app_assoc. do 2 f_equal.
      now rewrite (app_assoc (take k data)), take_drop.
    + destruct (parent st); [exact Hphase | | |]; destruct Hphase; congruence.
  - assert (Hrunning : exited st = false)
      by (destruct (exited st); [specialize (Hgone eq_refl); congruence | reflexivity]).
    rewrite Hw in Hout, Herr. rewrite written_cons in Hout, Herr.
    cbn [went_on writes out_pipe err_pipe exited parent out_seen err_seen].
    rewrite Hrunning in *.
    split; [| split; [| split; [lia | split; [lia | split; [discriminate |]]]]].
    + now destruct s.
    + now destruct s.
    + destruct (parent st); [exact Hphase | | |]; destruct Hphase; congruence.
  - rewrite Hw in Hout, Herr.
    cbn [went_on writes out_pipe err_pipe exited parent out_seen err_seen].
    split; [exact Hout |]. split; [exact Herr |]. split; [lia |]. split; [lia |].
    split; [reflexivity |].
    destruct (parent st); [exact Hphase | | |]; destruct Hphase; congruence.
  - cbn [moves_on writes out_pipe err_pipe exited parent out_seen err_seen].
    split; [exact Hout |]. split; [exact Herr |]. split; [lia |]. split; [lia |].
    split; [exact Hgone |].
    destruct Hnext as [(Hparent & -> & ->) | (Hparent & -> & ->)];
      rewrite Hparent in Hphase; cbn [pipe] in Hpipe; [auto |].
    destruct Hphase. auto.
  - destruct Hnext as [(Hparent & -> & ->) | (Hparent & -> & ->)];
      rewrite Hparent in Hphase;
      cbn [read writes out_pipe err_pipe exited parent out_seen err_seen pipe] in *;
      rewrite Hparent, ?length_drop;
      (split; [| split; [| split; [lia | split; [lia | split; [exact Hgone |]]]]]).
    + rewrite <- Hout, <- !app_assoc. f_equal.
      now rewrite (app_assoc (take k (out_pipe st))), take_drop.
    + exact Herr.
    + exact Hphase.
    + exact Hout.
    + rewrite <- Herr, <- !app_assoc. f_equal.
      now rewrite (app_assoc (take k (err_pipe st))), take_drop.
    + exact Hphase.
  - cbn [moves_on writes out_pipe err_pipe exited parent out_seen err_seen].
    rewrite Hparent in Hphase.
    split; [exact Hout |]. split; [exact Herr |]. split; [lia |]. split; [lia |].
    split; [exact Hgone | exact Hphase].
Qed.

Lemma sound_run (st : state) :
  rtc (step capacity) (start script) st -> sound capacity script st.
Proof.
  revert st. apply rtc_ind_r.
  - apply sound_start.
  - intros st st' _ Hstep IH. eapply sound_step; eassumption.
Qed.

(** When the child writes more to its standard error than a pipe can hold,
    the script never gets beyond its first loop and the child never
    leaves. *)
Lemma update_never_past_stdout (st : state) :
  (capacity < length (written ToStderr script))%nat ->
  rtc (step capacity) (start script) st ->
  parent st = ReadingStdout /\ exited st = false.
Proof.
  intros Hover. revert st. apply rtc_ind_r; [auto |].
  intros st st' Hrun Hstep [Hparent Hrunning].
  pose proof (sound_run st Hrun) as (_ & Herr & _ & Hecap & _ & Hphase).
  rewrite Hparent in Hphase. apply step_inv in Hstep.
  destruct Hstep as [(k & s & data & rest & Hw & Hk & Hroom & ->)
                      | [(s & rest & Hw & ->)
                      | [(Hw & Hex & ->)
                      | [(s & next & Hnext & [(Hpipe & Hex & ->) | (k & Hk & ->)])
                      | (Hwaiting & Hex & ->)]]]]; try congruence; try (split; assumption).
  rewrite Hw, Hphase in Herr. cbn in Herr. rewrite app_nil_r in Herr.
  rewrite <- Herr in Hover. lia.
Qed.

(** When it fits, the run can go on until the script has the child's
    status, and then the script has read all that the child wrote. *)
Lemma update_goes_on (st : state) :
  (length (written ToStderr script) <= capacity)%nat -> (0 < capacity)%nat ->
  rtc (step capacity) (start script) st ->
  (parent st = Finished /\ out_seen st = written ToStdout script /\
   err_seen st = written ToStderr script) \/
  exists st', step capacity st st'.
Proof.
  intros Hfits Hcap Hrun.
  pose proof (sound_run st Hrun) as (Hout & Herr & _ & _ & Hgone & Hphase).
  destruct (parent st) eqn:Hparent.
  - right. destruct (out_pipe st) as [| c p] eqn:Hpipe.
    + destruct (exited st) eqn:Hex.
      * eexists. right. right. exists 0%nat. unfold script_steps, reads.
        rewrite Hparent. cbn [pipe]. rewrite Hpipe, Hex. reflexivity.
      * destruct (writes st) as [| [s [| b data]] rest] eqn:Hw.
        -- eexists. right. left. unfold child_goes_on. rewrite Hw, Hex. reflexivity.
        -- eexists. right. left. unfold child_goes_on. rewrite Hw. reflexivity.
        -- eexists. left. exists 1%nat. unfold child_writes. rewrite Hw.
           assert (Hroom : (length (pipe s st) + 1 <= capacity)%nat).
           { destruct s; cbn [pipe]; [rewrite Hpipe; cbn; lia |].
             rewrite Hphase, written_cons in Herr. cbn [app] in Herr.
             rewrite <- Herr, !length_app in Hfits. cbn [length] in Hfits. lia. }
           apply Nat.leb_le in Hroom. rewrite Hroom. reflexivity.
    + eexists. right. right. exists 1%nat. unfold script_steps, reads.
      rewrite Hparent. cbn [pipe]. rewrite Hpipe. reflexivity.
  - right. destruct Hphase as [Hex Hempty]. destruct (err_pipe st) as [| c p] eqn:Hpipe.
    + eexists. right. right. exists 0%nat. unfold script_steps, reads.
      rewrite Hparent. cbn [pipe]. rewrite Hpipe, Hex. reflexivity.
    + eexists. right. right. exists 1%nat. unfold script_steps, reads.
      rewrite Hparent. cbn [pipe]. rewrite Hpipe. reflexivity.
  - right. destruct Hphase as [Hex _]. eexists. right. right. exists 0%nat.
    unfold script_steps. rewrite Hparent, Hex. reflexivity.
  - left. destruct Hphase as (Hex & Hopipe & Hepipe).
    rewrite (Hgone Hex), Hopipe in Hout. rewrite (Hgone Hex), Hepipe in Herr.
    cbn in Hout, Herr. rewrite app_nil_r in Hout, Herr. auto.
Qed.

End EngineRunFacts.

Section EngineRunStall.
Import EngineRun.

Lemma run_steps (capacity fuel : nat) (st : state) :
  rtc (step capacity) st (run capacity fuel st).
Proof.
  revert st. induction fuel as [| fuel IH]; intros st; cbn; [reflexivity |].
  destruct (advance capacity st) as [st' |] eqn:Hadv; [| reflexivity].
  eapply rtc_l; [apply advance_step; exact Hadv | apply IH].
Qed.

(** Where the standard error fits in the pipe, every run ends with the
    script holding the child's status and all that the child wrote. *)
Lemma update_finishes (capacity : nat) (script : list (stream * list ascii)) :
  (length (written ToStderr script) <= capacity)%nat -> (0 < capacity)%nat ->
  (forall st, rtc (step capacity) (start script) st -> stuck capacity st ->
     parent st = Finished /\ out_seen st = written ToStdout script /\
     err_seen st = written ToStderr script) /\
  (exists st, rtc (step capacity) (start script) st /\ parent st = Finished).
Proof.
  intros Hfits Hcap.
  assert (Hend : forall st, rtc (step capacity) (start script) st -> stuck capacity st ->
            parent st = Finished /\ out_seen st = written ToStdout script /\
            err_seen st = written ToStderr script).
  { intros st Hrun Hstuck.
    destruct (update_goes_on capacity script st Hfits Hcap Hrun) as [H | [st' H]];
      [exact H | now apply Hstuck in H]. }
  split; [exact Hend |].
  destruct (reaches_stuck capacity (start script)) as (st & Hrun & Hstuck).
  exists st. split; [exact Hrun |]. now apply Hend.
Qed.

Example engine_run_ex :
  let text := list_ascii_of_string in
  parent (run 4 50 (start [(ToStdout, text "ab"); (ToStderr, text "cdef"); (ToStdout, text "g")]))
  = Finished /\
  parent (run 4 50 (start [(ToStdout, text "ab"); (ToStderr, text "cdefh"); (ToStdout, text "g")]))
  = ReadingStdout.
Proof. split; reflexivity. Qed.

(** C9: [cohort_update.py] does not drain the two streams together.  It
    reads the standard output of the engine to its end before it reads
    the standard error, so that, whenever the engine writes more to its
    standard error than the pipe can hold, in whatever portions and in
    whatever order with its other output, the script never leaves its
    first loop and the engine never leaves: every run comes to a state
    where the engine waits for room in the pipe and the script for the
    end of the standard output, and nothing moves any more. *)
Theorem C9_update_stalls (capacity : nat) (script : list (stream * list ascii)) :
  (capacity < length (written ToStderr script))%nat ->
  (forall st, rtc (step capacity) (start script) st ->
     parent st = ReadingStdout /\ exited st = false) /\
  (exists st, rtc (step capacity) (start script) st /\ stuck capacity st /\
     parent st = ReadingStdout /\ exited st = false) /\
  (forall fuel, parent (run capacity fuel (start script)) = ReadingStdout).
Proof.
  intros Hover. split; [| split].
  - intros st. now apply update_never_past_stdout.
  - destruct (reaches_stuck capacity (start script)) as (st & Hrun & Hstuck).
    exists st. split; [exact Hrun |]. split; [exact Hstuck |].
    now apply (update_never_past_stdout capacity script).
  - intros fuel.
    apply (update_never_past_stdout capacity script _ Hover), run_steps.
Qed.

End EngineRunStall.

Lemma C9_update_stalls_witness :
  let script := [(EngineRun.ToStderr, repeat "x"%char (Z.to_nat 294000))] in
  ((Z.to_nat 65536) < length (EngineRun.written EngineRun.ToStderr script))%nat /\
  exists st, rtc (EngineRun.step (Z.to_nat 65536)) (EngineRun.start script) st /\
             EngineRun.stuck (Z.to_nat 65536) st /\ EngineRun.parent st = EngineRun.ReadingStdout.
Proof.
  intros script.
  assert (Hover : ((Z.to_nat 65536) < length (EngineRun.written EngineRun.ToStderr script))%nat).
  { unfold script, EngineRun.written. cbn [List.map concat fst snd].
    rewrite app_nil_r, repeat_length. apply Nat.ltb_lt. vm_compute. reflexivity. }
  split; [exact Hover |].
  destruct (C9_update_stalls (Z.to_nat 65536) script Hover) as (_ & (st & Hrun & Hstuck & Hparent & _) & _).
  exists st. auto.
Defined.

(** In a run of [cohort_update.py] whose engine does so, the engine is
    started and the script never gets to its status; [vcf_merge.py], which
    runs the engine through [run_process_with_filtered_output], returns. *)
Example update_run_stalls :
  let w := with_full_stderr (with_indexes demo_world) in
  result (CohortUpdate.main w demo_update_args) = Stalls /\
  last (events (CohortUpdate.main w demo_update_args))
  = Some (Subprocess ["/opt/apiserver/gautil"; "run";
                      "--annotationFolder=/ws/AppData/Common Data/Annotations";
                      "--manifest"; "batch.manifest.txt"; "-c"; "gautil_batch_file.yaml"]) /\
  result (VcfMerge.main w demo_vcf_args) = Return tt.
Proof. vm_compute. auto. Qed.

(** * Further properties of the scripts *)

(** ** The thread allocator on the inputs it accepts *)

Section AllocatorRange.
Import ThreadCount.

(** From three CPUs on, with both counts below [2^53], where the binary64
    quotients of the script have the floor and the ceiling of the exact
    ones: the flatten threads are the smaller of [cpu - 2] and the file
    count; the readers per flattener times the flatten threads cover the
    files with less than one flattener to spare; and when there are at
    least as many remaining threads as flatten threads, the flatten threads
    and their readers fit in the CPUs. *)
Theorem allocator_bounds (cpu n : Z) :
  3 <= cpu < 2 ^ 53 -> 1 <= n < 2 ^ 53 ->
  exists c, compute cpu n = Return c /\
    flatten_threads c = Z.min (cpu - 2) n /\
    1 <= flatten_threads c <= cpu - 2 /\
    remaining_threads c = cpu - flatten_threads c /\
    reader_threads c = Z.max 1 (remaining_threads c / flatten_threads c) /\
    n <= flatten_threads c * readers_per_flattener c < n + flatten_threads c /\
    (flatten_threads c <= remaining_threads c ->
     flatten_threads c + flatten_threads c * reader_threads c <= cpu) /\
    (readers_per_flattener c = 1 <-> n <= cpu - 2).
Proof.
  intros Hcpu Hn. unfold compute. rewrite min_spec.
  set (f := Z.min (cpu - 2) n). assert (Hf : 1 <= f <= cpu - 2) by (subst f; lia).
  unfold floor_truediv, ceil_truediv.
  destruct (Z.eqb_spec f 0) as [? | _]; [lia |]. cbn.
  set (r := - (- n / f)).
  assert (Hr : n <= f * r < n + f).
  { subst r. pose proof (Z.mul_div_le (- n) f ltac:(lia)).
    pose proof (Z.mul_succ_div_gt (- n) f ltac:(lia)). lia. }
  assert (Hr1 : 1 <= r) by nia.
  unfold truediv. destruct (Z.eqb_spec r 0) as [? | _]; [lia |]. cbn.
  eexists. split; [reflexivity |]. cbn. rewrite max_spec.
  repeat split; try lia.
  - intros Hfit. pose proof (Z.mul_div_le (cpu - f) f ltac:(lia)).
    assert (1 <= (cpu - f) / f) by (apply Z.div_le_lower_bound; lia).
    rewrite Z.max_r by lia. lia.
  - intros Hle. subst f. rewrite Z.min_r in Hr by lia. nia.
Qed.

Lemma allocator_bounds_witness :
  exists c, compute 16 40 = Return c /\
    flatten_threads c = 14 /\ readers_per_flattener c = 3 /\ reader_threads c = 1.
Proof.
  destruct (allocator_bounds 16 40 ltac:(lia) ltac:(lia)) as (c & Hc & _).
  exists c. split; [exact Hc |]. cbv in Hc. injection Hc as <-. repeat split.
Defined.

(** With [--cpu-count] given and both counts below [2^53] (beyond, the
    binary64 quotients of the script round, or overflow), the script prints
    its result exactly when the file count and the CPU count are positive
    and the CPU count is not 2; a count that is not positive ends it with
    status 1, and 2 CPUs end it with [ZeroDivisionError]. *)
Theorem main_returns_iff (os : option Z) (a : args) (cpu : Z) :
  cpu_count_arg a = Some cpu -> cpu < 2 ^ 53 -> count a < 2 ^ 53 ->
  (returns (main os a) <-> 0 < count a /\ 0 < cpu /\ cpu <> 2) /\
  (count a <= 0 \/ cpu <= 0 -> main os a = SysExit 1) /\
  (0 < count a -> cpu = 2 -> main os a = Raise ZeroDivisionError).
Proof.
  intros Hcpu _ _. unfold main. rewrite Hcpu.
  destruct (Z.leb_spec (count a) 0) as [Hc | Hc].
  { split; [| split]; [| reflexivity | lia].
    split; [intros [p Hp]; discriminate | lia]. }
  destruct (Z.leb_spec cpu 0) as [Hz | Hz]; cbn.
  { split; [| split]; [| reflexivity | lia].
    split; [intros [p Hp]; discriminate | lia]. }
  assert (Hcases : cpu = 1 \/ cpu = 2 \/ 3 <= cpu) by lia.
  destruct Hcases as [-> | [-> | H3]].
  - assert (Hcomp : exists c, compute 1 (count a) = Return c).
    { unfold compute. rewrite min_spec.
      replace (Z.min (1 - 2) (count a)) with (-1) by lia.
      unfold floor_truediv, ceil_truediv. cbn [Z.eqb].
      assert (Hq : - count a / -1 = count a)
        by (symmetry; apply (Z.div_unique _ _ _ 0); lia).
      rewrite Hq. cbn [mbind outcome_mbind outcome_bind].
      unfold truediv. destruct (Z.eqb_spec (- count a) 0) as [? | _]; [lia |].
      cbn. eauto. }
    destruct Hcomp as [c ->]. cbn.
    split; [| split; [lia | discriminate]].
    split; [lia |]. intros _.
    destruct (reader_threads_flag a), (readers_per_flattener_flag a); eexists; reflexivity.
  - assert (Hcomp : compute 2 (count a) = Raise ZeroDivisionError).
    { unfold compute. rewrite min_spec.
      replace (Z.min (2 - 2) (count a)) with 0 by lia. reflexivity. }
    rewrite Hcomp. cbn. split; [| split; [lia | reflexivity]].
    split; [intros [p Hp]; discriminate | lia].
  - destruct (compute_from_three cpu (count a) H3 ltac:(lia)) as (c & -> & _). cbn.
    split; [| split; [lia | lia]].
    split; [lia |]. intros _.
    destruct (reader_threads_flag a), (readers_per_flattener_flag a); eexists; reflexivity.
Qed.

Lemma main_returns_iff_witness :
  returns (main None (plain_args 4 10)) /\ main None (plain_args 2 10) = Raise ZeroDivisionError.
Proof.
  destruct (main_returns_iff None (plain_args 4 10) 4 eq_refl ltac:(lia) ltac:(cbn; lia))
    as (Hiff & _).
  destruct (main_returns_iff None (plain_args 2 10) 2 eq_refl ltac:(lia) ltac:(cbn; lia))
    as (_ & _ & Hzero).
  split; [apply Hiff; cbn; lia | apply Hzero; cbn; lia].
Defined.

End AllocatorRange.

Example load_config_ex :
  LoadConfig.read_lines demo_config_lines
  = (<[ "cohort_name" := "later" ]> (<[ "series_name" := "s" ]> ∅),
     [Stderr "Warning: Skipping invalid line 4: no assignment here"]).
Proof. vm_compute. reflexivity. Qed.

(** ** The configuration file, [load_config_file] *)

Section ConfigFile.
Import LoadConfig.

Lemma require_present (config : gmap string string) (params : list string) :
  Forall (fun p => is_Some (config !! p)) params -> require config params = ([], Return tt).
Proof.
  induction 1 as [| p rest [v Hv] _ IH]; cbn; [reflexivity |]. now rewrite Hv.
Qed.

Lemma require_returns (config : gmap string string) (params : list string) (u : unit) :
  result (require config params) = Return u ->
  Forall (fun p => is_Some (config !! p)) params.
Proof.
  induction params as [| p rest IH]; cbn; [constructor |].
  destruct (config !! p) as [v |] eqn:Hp; [| discriminate].
  intros H. constructor; [eauto | auto].
Qed.

(** The file is read, the warnings are printed, and then: when both required
    parameters are there the dictionary is returned; when one is missing the
    first missing one is named on standard error and the run ends with
    status 1. *)
Theorem load_config_file_outcome (w : world) (config_path : string) (lines : list string) :
  open_lines w config_path = Some lines ->
  let config := fst (read_lines lines) in
  let warnings := snd (read_lines lines) in
  (is_Some (config !! "cohort_name") -> is_Some (config !! "series_name") ->
   load_config_file w config_path = (warnings, Return config)) /\
  (config !! "cohort_name" = None ->
   load_config_file w config_path
   = ((warnings ++ [Stderr "Error: Required parameter 'cohort_name' not found in config file"])%list,
      SysExit 1)) /\
  (is_Some (config !! "cohort_name") -> config !! "series_name" = None ->
   load_config_file w config_path
   = ((warnings ++ [Stderr "Error: Required parameter 'series_name' not found in config file"])%list,
      SysExit 1)).
Proof.
  intros Hopen config warnings. unfold load_config_file, open_read. rewrite Hopen.
  cbn [mbind mret prog_mbind prog_mret prog_bind].
  subst config warnings. destruct (read_lines lines) as [config warnings]. cbn [fst snd].
  split; [| split].
  - intros [c Hc] [s Hs]. cbn. rewrite Hc, Hs. cbn. now rewrite !app_nil_r.
  - intros Hc. cbn. rewrite Hc. cbn. reflexivity.
  - intros [c Hc] Hs. cbn. rewrite Hc, Hs. cbn. reflexivity.
Qed.

Lemma load_config_file_outcome_witness :
  open_lines (with_config demo_world) "cohort.conf" = Some demo_config_lines /\
  load_config_file (with_config demo_world) "cohort.conf"
  = ([Stderr "Warning: Skipping invalid line 4: no assignment here"],
     Return (<[ "cohort_name" := "later" ]> (<[ "series_name" := "s" ]> ∅))).
Proof.
  split; [reflexivity |].
  destruct (load_config_file_outcome (with_config demo_world) "cohort.conf"
              demo_config_lines eq_refl) as (Hok & _).
  rewrite Hok; [vm_compute; reflexivity | vm_compute; eauto | vm_compute; eauto].
Defined.

(** A dictionary that [load_config_file] returns has both required
    parameters, so that looking them up afterwards cannot fail. *)
Theorem load_config_file_required (w : world) (config_path : string)
    (config : gmap string string) :
  result (load_config_file w config_path) = Return config ->
  (exists lines, open_lines w config_path = Some lines /\ config = fst (read_lines lines)) /\
  (exists v, config_item config "cohort_name" = ([], Return v)) /\
  (exists v, config_item config "series_name" = ([], Return v)).
Proof.
  unfold load_config_file, open_read.
  destruct (open_lines w config_path) as [lines |]; [| discriminate].
  cbn [mbind mret prog_mbind prog_mret prog_bind].
  destruct (read_lines lines) as [parsed warnings] eqn:Hread. cbn [fst].
  destruct (require parsed ["cohort_name"; "series_name"]) as [t [u | c | x |]] eqn:Hreq;
    cbn; try discriminate.
  intros Heq. injection Heq as Heq. subst parsed.
  assert (Hres : result (require config ["cohort_name"; "series_name"]) = Return u)
    by now rewrite Hreq.
  apply require_returns in Hres.
  apply Forall_cons in Hres as [[c Hc] Hres]. apply Forall_cons in Hres as [[s Hs] _].
  split; [exists lines; split; [reflexivity | now rewrite Hread] |].
  unfold config_item. rewrite Hc, Hs. split; eexists; reflexivity.
Qed.

Lemma load_config_file_required_witness :
  exists v, config_item (<[ "cohort_name" := "later" ]> (<[ "series_name" := "s" ]> ∅))
              "cohort_name" = ([], Return v).
Proof.
  destruct (load_config_file_required (with_config demo_world) "cohort.conf"
              (<[ "cohort_name" := "later" ]> (<[ "series_name" := "s" ]> ∅)))
    as (_ & Hc & _); [vm_compute; reflexivity | exact Hc].
Defined.

Lemma combine_seq_app (n : nat) (l1 l2 : list string) :
  combine (seq n (length (l1 ++ l2))) (l1 ++ l2)
  = (combine (seq n (length l1)) l1 ++ combine (seq (n + length l1) (length l2)) l2)%list.
Proof.
  revert n. induction l1 as [| x l1 IH]; intros n; cbn.
  - now rewrite Nat.add_0_r.
  - rewrite IH. replace (n + S (length l1))%nat with (S n + length l1)%nat by lia.
    reflexivity.
Qed.

(** The lines are read in order: a last line that is an assignment sets its
    key, whatever was assigned to it before, and changes no other key; a
    last line that is blank, a comment or without [=] changes nothing. *)
Theorem config_last_line (lines : list string) (raw : string) :
  let line := Py.strip raw in
  let before := fst (read_lines lines) in
  let config := fst (read_lines (lines ++ [raw])) in
  (Py.nonempty line = true -> Py.startswith line "#" = false ->
   has_char "=" line = true ->
   config !! line_key line = Some (line_value line) /\
   forall k, k <> line_key line -> config !! k = before !! k) /\
  (Py.nonempty line = false \/ Py.startswith line "#" = true \/ has_char "=" line = false ->
   config = before).
Proof.
  intros line before config. subst config before.
  unfold read_lines, enumerate. rewrite combine_seq_app, foldl_app.
  destruct (foldl read_line (∅, []) (combine (seq 1 (length lines)) lines))
    as [config0 warnings0].
  cbn [length seq combine foldl read_line fst]. fold line.
  split.
  - intros Hne Hcomment Heq. rewrite Hne, Hcomment, Heq. cbn [negb orb fst].
    split; [apply lookup_insert_eq |]. intros k Hk. now apply lookup_insert_ne.
  - intros [H | [H | H]].
    + now rewrite H.
    + rewrite H. now rewrite orb_true_r.
    + rewrite H. now destruct (negb (Py.nonempty line) || Py.startswith line "#").
Qed.

Lemma config_last_line_witness :
  fst (read_lines (demo_config_lines ++ ["series_name = t"])) !! "series_name" = Some "t" /\
  fst (read_lines (demo_config_lines ++ ["series_name = t"])) !! "cohort_name"
  = fst (read_lines demo_config_lines) !! "cohort_name".
Proof.
  destruct (config_last_line demo_config_lines "series_name = t") as (Hset & _).
  destruct Hset as (Hkey & Hother); [reflexivity | reflexivity | reflexivity |].
  split; [exact Hkey |]. apply Hother. discriminate.
Defined.

Lemma substring_front (s t : string) : String.substring 0 (String.length s) (s +:+ t) = s.
Proof.
  induction s as [| c s IH]; [now destruct t |].
  rewrite string_app_cons. cbn. now rewrite IH.
Qed.

Lemma prefix_one (c : ascii) (s : string) :
  String.prefix (String c EmptyString) (String c s) = true.
Proof. cbn. destruct (ascii_dec c c); [now destruct s | contradiction]. Qed.

(** A value written between double quotes in the file is stored without
    them, whatever it is. *)
Lemma unquote_quoted (v : string) : unquote (Py.quoted v) = v.
Proof.
  unfold unquote, Py.quoted, Py.startswith.
  rewrite prefix_one.
  change (String Py.dquote (v +:+ String Py.dquote EmptyString))
    with (String Py.dquote v +:+ String Py.dquote EmptyString).
  rewrite endswith_app. cbn [andb orb]. unfold inner.
  rewrite string_length_app. cbn [String.length].
  replace (S (String.length v) + 1 - 2)%nat with (String.length v) by lia.
  rewrite string_app_cons. cbn [String.substring]. apply substring_front.
Qed.

End ConfigFile.

(** ** Quoting of filter expressions, [quote_if_needed] *)

Section Quoting.

Lemma index_quote_head (s : string) :
  String.index 0 (String Py.dquote EmptyString) (String Py.dquote s) = Some 0%nat.
Proof. cbn [String.index]. now rewrite prefix_one. Qed.

(** [quote_if_needed] leaves a text with a double quote in it as it is and
    puts any other text between double quotes; applied a second time it
    changes nothing. *)
Theorem quote_if_needed_idempotent (value : string) :
  CohortUtils.quote_if_needed (CohortUtils.quote_if_needed value)
  = CohortUtils.quote_if_needed value /\
  (String.index 0 (String Py.dquote EmptyString) value = None ->
   CohortUtils.quote_if_needed value = Py.quoted value) /\
  (String.index 0 (String Py.dquote EmptyString) value <> None ->
   CohortUtils.quote_if_needed value = value).
Proof.
  unfold CohortUtils.quote_if_needed.
  destruct (String.index 0 (String Py.dquote EmptyString) value) as [i |] eqn:Hi.
  - rewrite Hi. split; [reflexivity | split; [discriminate | reflexivity]].
  - rewrite index_quote_head. split; [reflexivity | split; [reflexivity | congruence]].
Qed.

Lemma quote_if_needed_idempotent_witness :
  CohortUtils.quote_if_needed "DP > 2" = Py.quoted "DP > 2" /\
  CohortUtils.quote_if_needed (Py.quoted "DP > 2") = Py.quoted "DP > 2".
Proof.
  destruct (quote_if_needed_idempotent "DP > 2") as (_ & Hplain & _).
  destruct (quote_if_needed_idempotent (Py.quoted "DP > 2")) as (_ & _ & Hquoted).
  split; [exact (Hplain eq_refl) | apply Hquoted; discriminate].
Defined.

(** A filter expression without double quotes that the configuration file
    gives between double quotes reaches the batch file between double
    quotes again. *)
Theorem quoted_filter_round_trip (v : string) :
  String.index 0 (String Py.dquote EmptyString) v = None ->
  CohortUtils.quote_if_needed (LoadConfig.unquote (Py.quoted v)) = Py.quoted v.
Proof.
  intros Hv. rewrite unquote_quoted. unfold CohortUtils.quote_if_needed. now rewrite Hv.
Qed.

Lemma quoted_filter_round_trip_witness :
  CohortUtils.quote_if_needed (LoadConfig.unquote (Py.quoted "DP > 2")) = Py.quoted "DP > 2".
Proof. apply quoted_filter_round_trip. reflexivity. Defined.

End Quoting.

(** ** Sample names: [read_existing_samples] and [get_sample_names_from_file] *)

Section SampleNames.
Import CreateManifest.

Lemma rstrip_cons (c : ascii) (s : string) :
  Py.rstrip (String c s)
  = match Py.rstrip s with
    | EmptyString => if Py.isspace c then EmptyString else String c EmptyString
    | r => String c r
    end.
Proof. reflexivity. Qed.

Lemma rstrip_idempotent (s : string) : Py.rstrip (Py.rstrip s) = Py.rstrip s.
Proof.
  induction s as [| c s IH]; [reflexivity |]. rewrite rstrip_cons.
  destruct (Py.rstrip s) as [| d r] eqn:Hr.
  - destruct (Py.isspace c) eqn:Hc; [reflexivity |]. cbn. now rewrite Hc.
  - rewrite rstrip_cons, IH. reflexivity.
Qed.

Lemma lstrip_head (s : string) :
  Py.lstrip s = EmptyString \/ exists c t, Py.lstrip s = String c t /\ Py.isspace c = false.
Proof.
  induction s as [| c s IH]; [now left |]. cbn.
  destruct (Py.isspace c) eqn:Hc; [exact IH | right; eauto].
Qed.

Lemma rstrip_head (c : ascii) (t : string) :
  Py.isspace c = false -> exists r, Py.rstrip (String c t) = String c r.
Proof.
  intros Hc. cbn. destruct (Py.rstrip t); [rewrite Hc |]; eauto.
Qed.

Lemma strip_idempotent (s : string) : Py.strip (Py.strip s) = Py.strip s.
Proof.
  unfold Py.strip. destruct (lstrip_head s) as [-> | (c & t & -> & Hc)]; [reflexivity |].
  destruct (rstrip_head c t Hc) as [r Hr]. rewrite Hr.
  rewrite (lstrip_keeps c r Hc), <- Hr. apply rstrip_idempotent.
Qed.

(** The names the extractor gives are stripped and none is empty. *)
Theorem sample_names_clean (bcftools_query_l : string -> option (list string))
    (file_path : string) (sample_names : list string) :
  get_sample_names_from_file bcftools_query_l file_path = Return sample_names ->
  forall name, In name sample_names ->
    name <> EmptyString /\ Py.strip name = name /\
    exists lines line, bcftools_query_l file_path = Some lines /\ In line lines /\
                       name = Py.strip line.
Proof.
  unfold get_sample_names_from_file.
  destruct (bcftools_query_l file_path) as [lines |]; [| discriminate].
  intros [= <-] name Hname. apply in_map_iff in Hname as (line & <- & Hline).
  apply filter_In in Hline as [Hline Hne].
  split; [| split; [apply strip_idempotent | eauto]].
  intros H. rewrite H in Hne. discriminate.
Qed.

Lemma sample_names_clean_witness :
  get_sample_names_from_file demo_query "/data/a.vcf.gz" = Return ["S2"; "S3"] /\
  Py.strip "S3" = "S3".
Proof.
  split; [reflexivity |].
  apply (sample_names_clean demo_query "/data/a.vcf.gz" ["S2"; "S3"] eq_refl "S3").
  right. now left.
Defined.

Lemma existing_loop (lines : list string) (acc : gset string) (s : string) :
  s ∈ foldl (fun existing_samples line =>
               let sample := Py.strip line in
               if Py.nonempty sample then existing_samples ∪ {[ sample ]}
               else existing_samples) acc lines
  <-> s ∈ acc \/ (s <> EmptyString /\ exists line, In line lines /\ Py.strip line = s).
Proof.
  revert acc. induction lines as [| line lines IH]; intros acc; cbn [foldl].
  - split; [auto | intros [H | (_ & l & [] & _)]; exact H].
  - rewrite IH. cbn zeta. destruct (Py.nonempty (Py.strip line)) eqn:Hne.
    + rewrite elem_of_union, elem_of_singleton. split.
      * intros [[H | ->] | (Hs & l & Hl & Hstrip)].
        -- now left.
        -- right. split; [intros H; rewrite H in Hne; discriminate |].
           exists line. split; [now left | reflexivity].
        -- right. split; [exact Hs |]. exists l. split; [now right | exact Hstrip].
      * intros [H | (Hs & l & [<- | Hl] & Hstrip)]; [auto | auto |].
        right. split; [exact Hs |]. eauto.
    + split.
      * intros [H | (Hs & l & Hl & Hstrip)]; [now left |].
        right. split; [exact Hs |]. exists l. split; [now right | exact Hstrip].
      * intros [H | (Hs & l & [<- | Hl] & Hstrip)]; [now left | |].
        -- subst s. destruct (Py.strip line); [contradiction | discriminate].
        -- right. split; [exact Hs |]. eauto.
Qed.

(** The known samples are the stripped, non-empty lines of the samples
    file: order, repetition and surrounding white space do not matter. *)
Theorem read_existing_samples_spec (lines : list string) (s : string) :
  s ∈ read_existing_samples lines <->
  s <> EmptyString /\ exists line, In line lines /\ Py.strip line = s.
Proof.
  unfold read_existing_samples. rewrite existing_loop. split; [| auto].
  intros [H | H]; [| exact H]. now apply not_elem_of_empty in H.
Qed.

End SampleNames.

(** ** More on the new-file selector *)

Section SelectorMore.
Import CreateManifest.
Variable bcftools_query_l : string -> option (list string).
Variable dir : string.

Lemma find_files_eq (listing : list dir_entry) (existing_samples : gset string) :
  find_files_with_new_samples bcftools_query_l dir true listing existing_samples
  = Return (omap (visit bcftools_query_l dir existing_samples)
                 (Py.sorted entry_name String.ltb listing)).
Proof. unfold find_files_with_new_samples. cbn [negb]. now rewrite select_loop. Qed.


Lemma omap_sublist {A B : Type} (f g : A -> option B) (l : list A) :
  (forall x b, g x = Some b -> f x = Some b) -> sublist (omap g l) (omap f l).
Proof.
  intros Hgf. induction l as [| x l IH]; cbn; [constructor |].
  destruct (g x) as [b |] eqn:Hg.
  - rewrite (Hgf x b Hg). now constructor.
  - destruct (f x); [now constructor | exact IH].
Qed.


(** The larger the set of known samples, the fewer files are accepted: the
    files accepted against a larger set are, in the same order, among those
    accepted against a smaller one. *)
Theorem selector_monotone (listing : list dir_entry) (known known' : gset string)
    (accepted accepted' : list string) :
  known ⊆ known' ->
  find_files_with_new_samples bcftools_query_l dir true listing known = Return accepted ->
  find_files_with_new_samples bcftools_query_l dir true listing known' = Return accepted' ->
  sublist accepted' accepted.
Proof.
  intros Hsub. rewrite !find_files_eq. intros [= <-] [= <-].
  apply omap_sublist. intros e p Hv. apply visit_spec in Hv as (? & ? & ? & names & ? & ? & Hnew).
  apply visit_spec. repeat split; try assumption.
  exists names. repeat split; try assumption. intros s Hs Hk. apply (Hnew s Hs). now apply Hsub.
Qed.

(** Once the samples of the accepted files are known, a second selection
    accepts none of these files again. *)
Theorem selector_rerun (listing : list dir_entry) (known known' : gset string)
    (accepted accepted' : list string) :
  find_files_with_new_samples bcftools_query_l dir true listing known = Return accepted ->
  find_files_with_new_samples bcftools_query_l dir true listing known' = Return accepted' ->
  (forall p sample_names s,
     In p accepted -> get_sample_names_from_file bcftools_query_l p = Return sample_names ->
     In s sample_names -> s ∈ known') ->
  forall p, In p accepted -> ~ In p accepted'.
Proof.
  rewrite !find_files_eq. intros [= <-] [= <-] Hmerged p Hp Hp'.
  apply list_elem_of_In, list_elem_of_omap in Hp' as (e & _ & Hv).
  apply visit_spec in Hv as (_ & _ & _ & names & Hget & Hne & Hnew).
  destruct names as [| s names]; [contradiction |].
  apply (Hnew s); [now left |]. apply (Hmerged p (s :: names) s Hp Hget). now left.
Qed.

(** The order in which the directory is enumerated does not matter when its
    names are distinct. *)
Theorem selector_order_independent (listing listing' : list dir_entry)
    (existing_samples : gset string) :
  NoDup (List.map entry_name listing) -> Permutation listing listing' ->
  find_files_with_new_samples bcftools_query_l dir true listing' existing_samples
  = find_files_with_new_samples bcftools_query_l dir true listing existing_samples.
Proof.
  intros Hnames Hperm. rewrite !find_files_eq. do 2 f_equal. symmetry.
  apply (sorted_order_independent entry_name String.ltb string_ltb_asym string_nlt_trans);
    [| exact Hperm].
  intros x y Hx Hy Hxy Hyx. apply (NoDup_map_inj entry_name listing); try assumption.
  now apply string_ltb_total.
Qed.

End SelectorMore.


Lemma selector_monotone_witness :
  exists accepted accepted',
    CreateManifest.find_files_with_new_samples demo_query "/data" true demo_listing ∅ = Return accepted /\
    CreateManifest.find_files_with_new_samples demo_query "/data" true demo_listing {[ "S1" ]}
    = Return accepted' /\
    sublist accepted' accepted.
Proof.
  eexists _, _. split; [reflexivity |]. split; [reflexivity |].
  apply (selector_monotone demo_query "/data" demo_listing ∅ {[ "S1" ]}); [set_solver | reflexivity | reflexivity].
Defined.

Lemma selector_rerun_witness :
  exists accepted',
    CreateManifest.find_files_with_new_samples demo_query "/data" true demo_listing
      ({[ "S1" ]} ∪ {[ "S2" ]} ∪ {[ "S3" ]}) = Return accepted' /\
    ~ In "/data/a.vcf.gz" accepted'.
Proof.
  assert (Hfirst : CreateManifest.find_files_with_new_samples demo_query "/data" true
                     demo_listing {[ "S1" ]} = Return ["/data/a.vcf.gz"])
    by (vm_compute; reflexivity).
  eexists. split; [reflexivity |].
  apply (selector_rerun demo_query "/data" demo_listing {[ "S1" ]}
           ({[ "S1" ]} ∪ {[ "S2" ]} ∪ {[ "S3" ]}) ["/data/a.vcf.gz"] _ Hfirst eq_refl);
    [| now left].
  intros p names s [<- | []] Hget Hs. cbv in Hget. injection Hget as <-.
  destruct Hs as [<- | [<- | []]]; set_solver.
Defined.

Lemma selector_order_independent_witness :
  CreateManifest.find_files_with_new_samples demo_query "/data" true (rev demo_listing) {[ "S1" ]}
  = CreateManifest.find_files_with_new_samples demo_query "/data" true demo_listing {[ "S1" ]}.
Proof.
  apply selector_order_independent.
  - cbn. repeat constructor; rewrite ?elem_of_cons, ?elem_of_nil; intuition discriminate.
  - apply Permutation_rev.
Defined.

(** ** More on the manifest chunker, and the whole script *)

Section ChunkerMore.
Import CreateManifest.

(** The disk and the outcome of [write_manifest_files] on a non-empty list
    with a capacity other than zero. *)
Lemma write_manifest_files_eq (files : list string) (output_prefix : string)
    (capacity : Z) (disk : gmap string (list string)) :
  files <> [] -> capacity <> 0 ->
  let idx := seq 0 (length (groups files capacity)) in
  write_manifest_files files output_prefix capacity disk
  = (<[ "manifest_list.csv" := "manifest_file" :: List.map (manifest_filename output_prefix) idx ]>
       (fst (foldl (write_one files output_prefix capacity) (disk, ["manifest_file"]) idx)),
     Return tt).
Proof.
  intros Hne Hcap idx. subst idx. unfold write_manifest_files. rewrite groups_length.
  destruct files as [| f files']; [contradiction |].
  destruct (Z.eqb_spec capacity 0) as [? | _]; [contradiction |].
  set (st := foldl _ _ _).
  pose proof (write_loop_index (f :: files') output_prefix capacity
                (seq 0 (Z.to_nat ((Z.of_nat (length (f :: files')) + capacity - 1) / capacity)))
                disk ["manifest_file"]) as Hidx.
  fold st in Hidx. destruct st as [disk' p']. cbn in Hidx. subst p'. reflexivity.
Qed.

(** Whatever the capacity, the chunker writes to the index and to paths of
    the form of a manifest name only: every other file is as it was. *)
Theorem chunker_frame (files : list string) (output_prefix : string)
    (files_per_manifest : Z) (disk : gmap string (list string)) (path : string) :
  path <> "manifest_list.csv" ->
  (forall i, path <> manifest_filename output_prefix i) ->
  fst (write_manifest_files files output_prefix files_per_manifest disk) !! path
  = disk !! path.
Proof.
  intros Hindex Hmanifest.
  destruct files as [| f files']; [reflexivity |].
  destruct (Z.eq_dec files_per_manifest 0) as [-> | Hcap].
  - cbn. now apply lookup_insert_ne.
  - rewrite write_manifest_files_eq by (auto; discriminate). cbn [fst].
    rewrite lookup_insert_ne by auto.
    apply write_loop_other. intros i _ Heq. exact (Hmanifest i (eq_sym Heq)).
Qed.

Lemma chunker_frame_witness :
  fst (write_manifest_files ["a"; "b"; "c"] "manifest" 2 (<[ "notes.txt" := ["keep"] ]> ∅))
    !! "notes.txt" = Some ["keep"].
Proof.
  rewrite chunker_frame.
  - apply lookup_insert_eq.
  - discriminate.
  - intros i H. apply (f_equal list_ascii_of_string) in H.
    unfold manifest_filename in H. rewrite !string_chars_app in H.
    apply (f_equal (@rev ascii)) in H. rewrite !rev_app_distr in H. cbn in H.
    discriminate H.
Defined.

Lemma concat_map_Permutation {A B : Type} (f g : A -> list B) (l : list A) :
  (forall x, In x l -> Permutation (f x) (g x)) ->
  Permutation (concat (List.map f l)) (concat (List.map g l)).
Proof.
  induction l as [| x l IH]; intros H; cbn; [reflexivity |].
  apply Permutation_app; [apply H; now left | apply IH; intros y Hy; apply H; now right].
Qed.

Lemma listed_after_write (files : list string) (output_prefix : string)
    (capacity : Z) (disk : gmap string (list string)) :
  files <> [] -> 0 < capacity ->
  let after := fst (write_manifest_files files output_prefix capacity disk) in
  let index := "manifest_file"
               :: List.map (manifest_filename output_prefix)
                    (seq 0 (length (groups files capacity))) in
  after !! "manifest_list.csv" = Some index /\
  Permutation (CreateManifestMain.listed_files after index) files.
Proof.
  intros Hne Hcap after index. subst after index.
  rewrite write_manifest_files_eq by (auto; lia). cbn [fst].
  split; [apply lookup_insert_eq |].
  unfold CreateManifestMain.listed_files. cbn [tail]. rewrite List.map_map.
  transitivity (concat (groups files capacity));
    [| now rewrite groups_concat].
  rewrite groups_length. unfold groups.
  apply concat_map_Permutation. intros i Hi.
  rewrite lookup_insert_ne
    by (intros H; symmetry in H; revert H; apply manifest_filename_not_index).
  rewrite write_loop_manifest by (auto using NoDup_seq).
  cbn. apply sorted_str_Permutation.
Qed.

(** Reading the index back and then the manifests it lists gives every
    accepted file exactly once: the manifests partition the files. *)
Theorem chunker_round_trip (files : list string) (output_prefix : string)
    (capacity : Z) (disk : gmap string (list string)) :
  files <> [] -> 0 < capacity ->
  let after := fst (write_manifest_files files output_prefix capacity disk) in
  exists index,
    after !! "manifest_list.csv" = Some index /\
    head index = Some "manifest_file" /\
    length (tail index) = length (groups files capacity) /\
    Permutation (CreateManifestMain.listed_files after index) files.
Proof.
  intros Hne Hcap after.
  destruct (listed_after_write files output_prefix capacity disk Hne Hcap) as (Hindex & Hperm).
  eexists. split; [exact Hindex |]. split; [reflexivity |].
  split; [cbn; now rewrite length_map, length_seq | exact Hperm].
Qed.

Lemma chunker_round_trip_witness :
  exists index,
    fst (write_manifest_files ["e"; "d"; "c"; "b"; "a"] "m" 2 ∅) !! "manifest_list.csv"
    = Some index /\
    Permutation
      (CreateManifestMain.listed_files
         (fst (write_manifest_files ["e"; "d"; "c"; "b"; "a"] "m" 2 ∅)) index)
      ["e"; "d"; "c"; "b"; "a"].
Proof.
  destruct (chunker_round_trip ["e"; "d"; "c"; "b"; "a"] "m" 2 ∅ ltac:(discriminate) ltac:(lia))
    as (index & Hindex & _ & _ & Hperm).
  exists index. split; [exact Hindex | exact Hperm].
Defined.

End ChunkerMore.

Section CreateManifestScript.
Import CreateManifest CreateManifestMain.

(** The whole script: when the samples file cannot be read it dies on the
    exception of that reading, and without a directory on [ValueError],
    and writes nothing in either case; otherwise, with a positive
    capacity, it returns normally, writes nothing when no file is accepted,
    and else leaves an index whose manifests hold, between them, each
    accepted file once. *)
Theorem create_manifest_main_outcome (w : world)
    (bcftools_query_l : string -> option (list string)) (is_dir : bool)
    (listing : list dir_entry) (a : args) (disk : gmap string (list string)) :
  (open_lines w (samples_file a) = None ->
   main w bcftools_query_l is_dir listing a disk
   = (disk, Raise (open_error w (samples_file a)))) /\
  (forall lines, open_lines w (samples_file a) = Some lines -> is_dir = false ->
   main w bcftools_query_l is_dir listing a disk = (disk, Raise ValueError)) /\
  (forall lines, open_lines w (samples_file a) = Some lines -> is_dir = true ->
   0 < files_per_manifest a ->
   exists accepted,
     find_files_with_new_samples bcftools_query_l (directory a) true listing
       (read_existing_samples lines) = Return accepted /\
     let after := main w bcftools_query_l is_dir listing a disk in
     snd after = Return tt /\
     (accepted = [] -> fst after = disk) /\
     (accepted <> [] ->
      exists index, fst after !! "manifest_list.csv" = Some index /\
                    Permutation (listed_files (fst after) index) accepted)).
Proof.
  unfold main. split; [| split].
  - now intros ->.
  - intros lines -> ->. reflexivity.
  - intros lines -> -> Hcap. rewrite find_files_eq. eexists. split; [reflexivity |].
    destruct (omap _ _) as [| f accepted] eqn:Hacc.
    + cbn. split; [reflexivity | split; [auto | intros H; now contradiction H]].
    + cbn zeta. split; [| split; [discriminate |]].
      * rewrite write_manifest_files_eq by (try discriminate; lia). reflexivity.
      * intros _.
        destruct (listed_after_write (f :: accepted) (output_prefix a) (files_per_manifest a)
                    disk ltac:(discriminate) Hcap) as (Hindex & Hperm).
        eexists. split; [exact Hindex | exact Hperm].
Qed.

End CreateManifestScript.

Lemma create_manifest_main_outcome_witness :
  let a := {| CreateManifestMain.samples_file := "batch.manifest.txt";
              CreateManifestMain.directory := "/data";
              CreateManifestMain.output_prefix := "manifest";
              CreateManifestMain.files_per_manifest := 128 |} in
  let b := {| CreateManifestMain.samples_file := "adir";
              CreateManifestMain.directory := "/data";
              CreateManifestMain.output_prefix := "manifest";
              CreateManifestMain.files_per_manifest := 128 |} in
  snd (CreateManifestMain.main demo_world demo_query true demo_listing a ∅) = Return tt /\
  CreateManifestMain.main (with_directory demo_world "adir") demo_query true demo_listing b ∅
  = (∅, Raise IsADirectoryError).
Proof.
  intros a b.
  destruct (create_manifest_main_outcome demo_world demo_query true demo_listing a ∅)
    as (_ & _ & Hrun).
  destruct (Hrun _ eq_refl eq_refl ltac:(cbn; lia)) as (accepted & _ & Hret & _).
  destruct (create_manifest_main_outcome (with_directory demo_world "adir") demo_query true
              demo_listing b ∅) as (Hunread & _).
  split; [exact Hret | exact (Hunread eq_refl)].
Defined.

(** ** The index check, the other way round *)

Section IndexCheckMore.
Variable w : world.


End IndexCheckMore.


(** ** Running the engine *)

Section Engine.
Variable w : world.



End Engine.


(** ** [cohort_update.py] after the engine *)

Section UpdateFinalizing.
Variable w : world.

Lemma events_count_files (manifest : string) :
  events (CohortUpdate.count_files_in_manifest w manifest) = [].
Proof.
  unfold CohortUpdate.count_files_in_manifest, open_read.
  now destruct (open_lines w manifest).
Qed.

Lemma events_check_output (command : list string) (a : ThreadCount.args) (e : event) :
  In e (events (CohortUpdate.check_output_thread_count w command a)) -> e = Subprocess command.
Proof.
  unfold CohortUpdate.check_output_thread_count. cbn.
  destruct (ThreadCount.main _ a); cbn; intros [<- | []]; reflexivity.
Qed.

(** The child processes [calculate_thread_counts] starts are calls of
    [python3]. *)
Lemma events_thread_counts (cpu n : Z) (task_dir : string) (e : event) :
  In e (events (CohortUpdate.calculate_thread_counts w cpu n task_dir)) ->
  (exists l, e = Stderr l) \/
  (exists script flag, e = Subprocess ["python3"; script; flag; "--cpu-count";
                                       Py.str cpu; Py.str n]).
Proof.
  unfold CohortUpdate.calculate_thread_counts. destruct (negb _).
  - intros H. apply events_bind in H as [[<- | []] | (? & _ & H)]; [eauto |].
    apply events_bind in H as [[<- | []] | (? & _ & H)]; [eauto |].
    apply events_bind in H as [H | (? & _ & H)]; now destruct H.
  - intros H.
    apply events_bind in H as [H | (? & _ & H)];
      [apply events_check_output in H; subst; eauto |].
    apply events_bind in H as [H | (? & _ & H)]; [now destruct H |].
    apply events_bind in H as [H | (? & _ & H)];
      [apply events_check_output in H; subst; eauto |].
    apply events_bind in H as [H | (? & _ & H)]; now destruct H.
Qed.

Lemma run_gautil_returns (cmd : list string) (u : unit) :
  result (CohortUpdate.run_gautil w cmd) = Return u -> child_status w cmd = 0.
Proof.
  unfold CohortUpdate.run_gautil. cbn.
  destruct (child_fills_stderr w cmd); [discriminate |]. cbn.
  destruct (Z.eqb_spec (child_status w cmd) 0) as [H | H]; [auto | cbn; discriminate].
Qed.

Lemma run_gautil_stalls (cmd : list string) :
  child_fills_stderr w cmd = true ->
  CohortUpdate.run_gautil w cmd = ([Subprocess cmd], Stalls).
Proof. unfold CohortUpdate.run_gautil. now intros ->. Qed.

Lemma events_run_gautil (cmd : list string) (e : event) :
  In e (events (CohortUpdate.run_gautil w cmd)) ->
  e = Subprocess cmd \/ exists l, e = Stderr l.
Proof.
  unfold CohortUpdate.run_gautil. cbn.
  destruct (child_fills_stderr w cmd); cbn; [intros [<- | []]; auto |].
  destruct (negb _); cbn; rewrite ?app_nil_r, ?in_app_iff, in_map_iff; cbn;
    intros H; decompose [or ex and] H; subst; eauto; contradiction.
Qed.

Lemma run_checked_returns (cmd : list string) (u : unit) :
  result (run_checked w cmd) = Return u -> child_status w cmd = 0.
Proof.
  unfold run_checked. cbn.
  destruct (Z.eqb_spec (child_status w cmd) 0) as [H | H]; [auto | cbn; discriminate].
Qed.

(** The post-write pass is only started when the engine has left with
    status 0, and the log of skipped files is only removed when, in
    addition, that pass succeeded and the log is there and empty. *)
Theorem update_finalizing_after_success (a : CohortUpdate.args)
    (st : CohortUpdate.checked_state) (e : event) :
  let gautil_cmd :=
    [CohortUpdate.gautil_path a; "run";
     "--annotationFolder=" +:+ CohortUpdate.annotations_folder st;
     "--manifest"; CohortUpdate.manifest_file a; "-c"; "gautil_batch_file.yaml"] in
  let precompute_cmd :=
    [CohortUpdate.gautil_path a; "precompute"; CohortUpdate.new_out_file st] in
  In e (events (CohortUpdate.after_check w a st)) ->
  (e = Subprocess precompute_cmd -> child_status w gautil_cmd = 0) /\
  (forall p, e = RemoveFile p ->
     p = CohortUpdate.skipped_files_path st /\
     path_exists_after w p = true /\ getsize_after w p = 0 /\
     child_status w gautil_cmd = 0 /\ child_status w precompute_cmd = 0).
Proof.
  intros gautil_cmd precompute_cmd H. unfold CohortUpdate.after_check in H.
  apply events_bind in H as [H | (sections & _ & H)].
  { assert (Hkind : (exists p c, e = WriteFile p c)
                    \/ exists x, e = Subprocess [CohortUpdate.gautil_path a; "schema"; x]).
    { destruct (CohortUpdate.found_counts st) as [ec |]; [| now destruct H].
      destruct (Py.nonempty ec && Py.endswith ec ".tsf"
                && negb (CohortUpdate.skip_existing_counts a) && path_exists w ec);
        [| now destruct H].
      apply events_bind in H as [[<- | []] | (? & _ & H)]; [eauto |].
      apply events_bind in H as [H | (? & _ & H)];
        [apply events_run_checked in H; eauto |].
      apply events_bind in H as [[<- | []] | (? & _ & H)]; [eauto |].
      apply events_bind in H as [H | (? & _ & H)];
        [apply events_run_checked in H; eauto | now destruct H]. }
    destruct Hkind as [(p & c & ->) | (x & ->)]; (split; [intros [=] | intros q [=]]). }
  destruct sections as [[filter_existing existing_counts_path] existing_counts_samples_path].
  apply events_bind in H as [H | (file_count & _ & H)];
    [rewrite events_count_files in H; now destruct H |].
  apply events_bind in H as [H | ([reader_threads readers_per_flattener] & _ & H)].
  { apply events_thread_counts in H as [(l & ->) | (script & flag & ->)];
      (split; [intros Heq; unfold precompute_cmd in Heq | intros p Heq]; congruence). }
  apply events_bind in H as [[<- | []] | (? & _ & H)];
    [split; [intros [=] | intros p [=]] |].
  apply events_bind in H as [H | (? & Hengine & H)].
  { apply events_run_gautil in H as [-> | (l & ->)];
      (split; [intros [=] | intros p [=]]). }
  apply run_gautil_returns in Hengine. fold gautil_cmd in Hengine.
  apply events_bind in H as [H | (? & Hpre & H)].
  { apply events_run_checked in H as ->. split; [auto | intros p [=]]. }
  apply run_checked_returns in Hpre. fold precompute_cmd in Hpre.
  destruct (path_exists_after w _) eqn:Hex; [| now destruct H].
  destruct (Z.eqb_spec (getsize_after w (CohortUpdate.skipped_files_path st)) 0) as [Hsz | Hsz];
    [| now destruct H].
  cbn [andb] in H. apply events_remove in H as [-> _].
  split; [intros [=] |]. intros p [= <-]. auto.
Qed.

End UpdateFinalizing.

Example demo_update_state_ex :
  CohortUpdate.before_check demo_world demo_update_args = ([], Return demo_update_state).
Proof. reflexivity. Qed.

Lemma update_finalizing_after_success_witness :
  In (Subprocess ["/opt/apiserver/gautil"; "precompute"; "out_2024-03-15_1710498605.tsf"])
     (events (CohortUpdate.after_check demo_world demo_update_args demo_update_state)) /\
  child_status demo_world
    ["/opt/apiserver/gautil"; "run";
     "--annotationFolder=/ws/AppData/Common Data/Annotations";
     "--manifest"; "batch.manifest.txt"; "-c"; "gautil_batch_file.yaml"] = 0.
Proof.
  assert (Hin : In (Subprocess ["/opt/apiserver/gautil"; "precompute";
                                "out_2024-03-15_1710498605.tsf"])
                   (events (CohortUpdate.after_check demo_world demo_update_args
                              demo_update_state)))
    by (vm_compute; repeat (try (left; reflexivity); right)).
  split; [exact Hin |].
  apply (update_finalizing_after_success demo_world demo_update_args demo_update_state _ Hin).
  reflexivity.
Defined.

(** ** The shape of a run of [cohort_merge.py] *)

Section MergeRun.
Variable w : world.

Lemma open_read_returns (path : string) (lines : list string) :
  result (open_read w path) = Return lines -> open_lines w path = Some lines.
Proof. unfold open_read. destruct (open_lines w path); cbn; congruence. Qed.

Lemma run_process_returns (cmd fw : list string) (rc : Z) :
  result (CohortUtils.run_process_with_filtered_output w cmd fw) = Return rc ->
  child_status w cmd = 0.
Proof.
  unfold CohortUtils.run_process_with_filtered_output. cbn.
  destruct (Z.eqb_spec (child_status w cmd) 0) as [H | H]; [auto | cbn; discriminate].
Qed.

(** Without any batch named in the manifest list the run ends with status 1
    before it writes a file or starts a process. *)
Theorem merge_empty_manifest (a : CohortMerge.args) (config : gmap string string)
    (lines : list string) :
  load_config_file w (CohortMerge.config a) = Return config ->
  open_lines w (CohortMerge.manifest_parameter_file a) = Some lines ->
  CohortMerge.read_new_counts_files (CohortMerge.manifest_parameter_file a) lines = [] ->
  CohortMerge.main w a = ([], SysExit 1).
Proof.
  intros Hconfig Hopen Hempty. unfold CohortMerge.main, open_read.
  rewrite Hconfig, Hopen. cbn [lift mbind mret prog_mbind prog_mret prog_bind].
  rewrite Hempty. reflexivity.
Qed.

(** Every run writes at most its batch file and a manifest that lists the
    new counts files, at least one; the only processes it starts are the
    engine on that manifest and that batch file and, once the engine has
    left with status 0, the post-write pass on an output whose name ends in
    [.tsf]; and it removes no file. *)
Theorem merge_run_shape (a : CohortMerge.args) (e : event) :
  In e (events (CohortMerge.main w a)) ->
  (forall p, e <> RemoveFile p) /\
  (forall path content, e = WriteFile path content ->
     path = "gautil_batch_cohort.yaml" \/
     (path = "manifest_cohort_merge.txt" /\ content <> [] /\
      exists lines, open_lines w (CohortMerge.manifest_parameter_file a) = Some lines /\
        content = CohortMerge.read_new_counts_files
                    (CohortMerge.manifest_parameter_file a) lines)) /\
  (forall cmd, e = Subprocess cmd ->
     exists gautil_path folder,
       let gautil_cmd :=
         [gautil_path; "run"; "--annotationFolder=" +:+ folder;
          "--manifest"; "manifest_cohort_merge.txt"; "-c"; "gautil_batch_cohort.yaml"] in
       cmd = gautil_cmd \/
       exists out_file, cmd = [gautil_path; "precompute"; out_file] /\
                        Py.endswith out_file ".tsf" = true /\
                        child_status w gautil_cmd = 0).
Proof.
  intros H. unfold CohortMerge.main in H.
  skip_silent H.
  apply events_bind in H as [H | (lines & Hlines & H)];
    [rewrite events_open_read in H; now destruct H |].
  apply open_read_returns in Hlines.
  destruct (length _ =? 0)%nat eqn:Hlen; [now destruct H |].
  assert (Hne : CohortMerge.read_new_counts_files
                  (CohortMerge.manifest_parameter_file a) lines <> []).
  { intros Heq. rewrite Heq in Hlen. discriminate. }
  apply events_bind in H as [H | (? & _ & H)];
    [rewrite events_config_item in H; now destruct H |].
  apply events_bind in H as [H | (? & _ & H)];
    [rewrite events_config_item in H; now destruct H |].
  apply events_bind in H as [H | (workspace_dir & _ & H)].
  { apply events_get_env_or_error in H as (l & ->). repeat split; intros; discriminate. }
  apply events_bind in H as [H | (? & _ & H)].
  { apply events_get_env_or_error in H as (l & ->). repeat split; intros; discriminate. }
  do 2 skip_silent H.
  apply events_bind in H as [H | (chosen & _ & H)].
  { destruct (CohortMerge.given _); [now destruct H |].
    rewrite events_config_item in H. now destruct H. }
  do 2 skip_silent H.
  apply events_bind in H as [H | ([reader_threads readers_per_flattener] & _ & H)];
    [now destruct H |].
  apply events_bind in H as [[<- | []] | (_ & _ & H)].
  { split; [discriminate |]. split; [| discriminate]. intros path content [= <- _]. now left. }
  apply events_bind in H as [[<- | []] | (_ & _ & H)].
  { split; [discriminate |]. split; [| discriminate].
    intros path content [= <- <-]. right. eauto. }
  apply events_bind in H as [H | (rc & Hengine & H)].
  { apply events_run_process in H as [-> | (l & ->)];
      (split; [discriminate |]; split; [discriminate |]); [| discriminate].
    intros cmd [= <-]. eexists _, _. left. reflexivity. }
  apply run_process_returns in Hengine. apply events_run_checked in H as ->.
  split; [discriminate |]. split; [discriminate |].
  intros cmd [= <-]. eexists _, _. right. eexists. split; [reflexivity |].
  split; [apply merge_out_file_ends_tsf | exact Hengine].
Qed.

End MergeRun.

Lemma merge_empty_manifest_witness :
  let w := with_file demo_world "manifest_list.csv"
             ["manifest_file" +:+ String "010" EmptyString;
              "# nothing yet" +:+ String "010" EmptyString] in
  CohortMerge.main w demo_merge_args = ([], SysExit 1).
Proof.
  intros w. apply (merge_empty_manifest w demo_merge_args demo_config
                     ["manifest_file" +:+ String "010" EmptyString;
                      "# nothing yet" +:+ String "010" EmptyString]); reflexivity.
Defined.

Lemma merge_run_shape_witness :
  exists out_file,
    In (Subprocess ["/opt/apiserver/gautil"; "precompute"; out_file])
       (events (CohortMerge.main demo_world demo_merge_args)) /\
    Py.endswith out_file ".tsf" = true.
Proof.
  eexists. 
  assert (Hin : In (Subprocess ["/opt/apiserver/gautil"; "precompute";
                                "/ws/out_2024-03-15-10-30.tsf"])
                   (events (CohortMerge.main demo_world demo_merge_args)))
    by (vm_compute; repeat (try (left; reflexivity); right)).
  split; [exact Hin |].
  destruct (merge_run_shape demo_world demo_merge_args _ Hin) as (_ & _ & Hcmd).
  destruct (Hcmd _ eq_refl) as (g & folder & [Heq | (out & Heq & Hend & _)]);
    [discriminate Heq |].
  injection Heq as _ ->. exact Hend.
Defined.

(** ** The shape of a run of [vcf_merge.py] *)

Lemma app_middle {X : Type} (a f b m c : list X) :
  (a ++ f ++ b ++ m ++ c = (a ++ f ++ b) ++ m ++ c)%list.
Proof. now rewrite <- !app_assoc. Qed.

Section VcfRun.
Variable w : world.

Lemma check_vcf_returns (checked : world) (manifest : string) (u : unit) :
  result (VcfMerge.check_tbi_files checked manifest) = Return u ->
  VcfMerge.check_tbi_files checked manifest = ([], Return tt).
Proof.
  unfold VcfMerge.check_tbi_files, open_read.
  destruct (open_lines checked manifest) as [lines |]; [| discriminate].
  cbn [mbind mret prog_mbind prog_mret prog_bind].
  destruct (VcfMerge.missing_tbi_files checked lines); [reflexivity | discriminate].
Qed.

Lemma missing_after_removal (path : string) (lines : list string) (p : string) :
  In p (VcfMerge.missing_tbi_files w lines) ->
  In p (VcfMerge.missing_tbi_files (remove_file w path) lines).
Proof.
  change VcfMerge.missing_tbi_files with CohortUpdate.missing_tbi_files.
  rewrite !missing_tbi_files_spec. intros (line & Hline & Hend & Hex & ->).
  exists line. repeat split; try assumption. cbn.
  now destruct (String.eqb _ path).
Qed.

(** A check that passes once a file has been removed would have passed
    before. *)
Lemma check_after_removal (path manifest : string) :
  VcfMerge.check_tbi_files (remove_file w path) manifest = ([], Return tt) ->
  VcfMerge.check_tbi_files w manifest = ([], Return tt).
Proof.
  unfold VcfMerge.check_tbi_files, open_read. cbn [open_lines remove_file].
  destruct (String.eqb manifest path); [discriminate |].
  destruct (open_lines w manifest) as [lines |]; [| discriminate].
  cbn [mbind mret prog_mbind prog_mret prog_bind].
  destruct (VcfMerge.missing_tbi_files w lines) as [| m ms] eqn:Hmiss; [reflexivity |].
  assert (Hm : In m (VcfMerge.missing_tbi_files (remove_file w path) lines))
    by (apply missing_after_removal; rewrite Hmiss; now left).
  destruct (VcfMerge.missing_tbi_files (remove_file w path) lines); [destruct Hm | discriminate].
Qed.

Lemma check_at_check (a : VcfMerge.args) :
  VcfMerge.check_tbi_files (VcfMerge.at_check w a) (VcfMerge.manifest_file a)
  = ([], Return tt) ->
  VcfMerge.check_tbi_files w (VcfMerge.manifest_file a) = ([], Return tt).
Proof.
  unfold VcfMerge.at_check. destruct (path_exists w _); [apply check_after_removal | auto].
Qed.

(** The only file a run removes is the previous output of the same
    manifest, which it does before it checks anything; the only file it
    writes is the batch file, whose merge stage carries 5 reader threads
    and 1 reader per flattener whatever the manifest holds; and the only
    process it starts is the engine on the manifest, after the index check
    has passed.  It never starts the post-write pass. *)
Theorem vcf_run_shape (a : VcfMerge.args) (e : event) :
  In e (events (VcfMerge.main w a)) ->
  (forall p, e = RemoveFile p ->
     p = Py.replace ".manifest.txt" ".tsf" (VcfMerge.manifest_file a) /\
     path_exists w p = true) /\
  (forall path content, e = WriteFile path content ->
     path = "gautil_batch_file.yaml" /\
     exists pre post, content = (pre ++ VcfMerge.merge_stage 5 1 ++ post)%list) /\
  (forall cmd, e = Subprocess cmd ->
     VcfMerge.check_tbi_files w (VcfMerge.manifest_file a) = ([], Return tt) /\
     exists gautil_path folder,
       cmd = [gautil_path; "run"; "--annotationFolder=" +:+ folder;
              "--manifest"; VcfMerge.manifest_file a; "-c"; "gautil_batch_file.yaml"]).
Proof.
  intros H. unfold VcfMerge.main in H.
  apply events_bind in H as [H | (st & _ & H)].
  { unfold VcfMerge.before_check in H.
    skip_silent H.
    apply events_bind in H as [H | (? & _ & H)].
    { destruct (path_exists w _) eqn:Hex; [| now destruct H].
      apply events_remove in H as [-> _]. split; [| split; discriminate].
      intros p [= <-]. auto. }
    do 3 skip_silent H.
    apply events_bind in H as [H | (? & _ & H)].
    { apply events_get_env_or_error in H as (l & ->). repeat split; intros; discriminate. }
    apply events_bind in H as [H | (? & _ & H)].
    { apply events_get_env_or_error in H as (l & ->). repeat split; intros; discriminate. }
    do 2 skip_silent H. now destruct H. }
  apply events_bind in H as [H | (u & Hcheck & H)].
  { assert (Hstderr : exists l, e = Stderr l).
    { unfold VcfMerge.check_tbi_files in H.
      apply events_bind in H as [H | (lines & _ & H)];
        [rewrite events_open_read in H; now destruct H |].
      destruct (VcfMerge.missing_tbi_files _ lines); [now destruct H |].
      apply events_bind in H as [[<- | []] | (? & _ & H)]; [eauto |].
      apply events_bind in H as [H | (? & _ & H)]; [| now destruct H].
      cbn in H. destruct H as [<- | H]; [eauto |].
      apply in_map_iff in H as (? & <- & _). eauto. }
    destruct Hstderr as (l & ->). repeat split; intros; discriminate. }
  apply check_vcf_returns, check_at_check in Hcheck.
  unfold VcfMerge.after_check in H.
  do 2 skip_silent H.
  destruct (length _ =? 0)%nat; [now destruct H |].
  apply events_bind in H as [H | ([reader_threads readers_per_flattener] & Hthreads & H)];
    [now destruct H |].
  cbn in Hthreads. injection Hthreads as <- <-.
  apply events_bind in H as [[<- | []] | (_ & _ & H)].
  { split; [discriminate |]. split; [| discriminate].
    intros path content [= <- <-]. split; [reflexivity |].
    unfold VcfMerge.gautil_batch_content. eexists _, _. apply app_middle. }
  apply events_bind in H as [H | (? & _ & H)]; [| now destruct H].
  apply events_run_process in H as [-> | (l & ->)];
    (split; [discriminate |]; split; [discriminate |]); [| discriminate].
  intros cmd [= <-]. split; [exact Hcheck |]. eexists _, _. reflexivity.
Qed.

End VcfRun.

(** A manifest whose name does not hold [.manifest.txt] is its own output
    name: the run removes it and then fails to read it. *)
Example vcf_merge_removes_its_manifest :
  let w := with_file demo_world "batch.txt" ["/data/s1.vcf.gz"] in
  VcfMerge.main w {| VcfMerge.config := "cohort.conf"; VcfMerge.manifest_file := "batch.txt" |}
  = ([RemoveFile "batch.txt"], Raise FileNotFoundError).
Proof. reflexivity. Qed.

Lemma vcf_run_shape_witness :
  exists cmd,
    In (Subprocess cmd) (events (VcfMerge.main (with_indexes demo_world) demo_vcf_args)) /\
    VcfMerge.check_tbi_files (with_indexes demo_world) "batch.manifest.txt" = ([], Return tt).
Proof.
  eexists.
  assert (Hin : In (Subprocess ["/opt/apiserver/gautil"; "run";
                                "--annotationFolder=/ws/AppData/Common Data/Annotations";
                                "--manifest"; "batch.manifest.txt"; "-c";
                                "gautil_batch_file.yaml"])
                   (events (VcfMerge.main (with_indexes demo_world) demo_vcf_args)))
    by (vm_compute; repeat (try (left; reflexivity); right)).
  split; [exact Hin |].
  destruct (vcf_run_shape (with_indexes demo_world) demo_vcf_args _ Hin) as (_ & _ & Hcmd).
  destruct (Hcmd _ eq_refl) as (Hcheck & _). exact Hcheck.
Defined.

(** ** From [vcf_merge.py] to [cohort_merge.py] *)

Section BatchNames.

Lemma new_counts_loop (manifest_parameter_file : string) (lines acc : list string) :
  foldl (fun new_counts_files line =>
           let line := Py.strip line in
           if negb (Py.nonempty line) || Py.startswith line "#" then new_counts_files
           else
             let output_file := Py.before "," line in
             let output_file := Py.replace ".manifest.txt" ".tsf" output_file in
             let output_file_path :=
               Py.join (Py.dirname manifest_parameter_file) output_file in
             (new_counts_files ++ [output_file_path])%list) acc lines
  = (acc ++ omap (fun line =>
                    if negb (Py.nonempty (Py.strip line)) || Py.startswith (Py.strip line) "#"
                    then None
                    else Some (Py.join (Py.dirname manifest_parameter_file)
                                 (Py.replace ".manifest.txt" ".tsf"
                                    (Py.before "," (Py.strip line))))) lines)%list.
Proof.
  revert acc. induction lines as [| line lines IH]; intros acc; cbn [foldl omap list_omap].
  - now rewrite app_nil_r.
  - rewrite IH. cbn zeta.
    destruct (negb (Py.nonempty (Py.strip line)) || Py.startswith (Py.strip line) "#");
      [reflexivity | now rewrite <- app_assoc].
Qed.

Lemma before_without (c : ascii) (s : string) :
  LoadConfig.has_char c s = false -> Py.before c s = s.
Proof.
  induction s as [| a s IH]; [reflexivity |]. cbn.
  destruct (Ascii.eqb a c); [discriminate |]. cbn. intros H. now rewrite IH.
Qed.

Lemma vcf_before_check_out_file (w : world) (a : VcfMerge.args) (t : list event)
    (st : VcfMerge.checked_state) :
  VcfMerge.before_check w a = (t, Return st) ->
  VcfMerge.out_file st = Py.replace ".manifest.txt" ".tsf" (VcfMerge.manifest_file a).
Proof.
  intros H. assert (Hres : result (VcfMerge.before_check w a) = Return st) by now rewrite H.
  clear H. unfold VcfMerge.before_check in Hres.
  repeat (apply result_bind_return in Hres as (? & _ & Hres)).
  cbn in Hres. injection Hres as <-. reflexivity.
Qed.

Lemma join_in_place (a b : string) :
  a = EmptyString \/ Py.startswith b "/" = true -> Py.join a b = b.
Proof.
  unfold Py.join. intros [-> | ->]; [| reflexivity].
  now destruct (Py.startswith b "/").
Qed.

(** [cohort_merge.py] looks for the counts of a batch where [vcf_merge.py]
    writes them: whenever a line of the manifest list, after its header, is
    the manifest [vcf_merge.py] was given, a name without comma that is not
    a comment, the paths read from the list include the output path of
    [vcf_merge.py] joined to the directory of the list, which is that very
    path when the list lies in the working directory or the path is
    absolute. *)
Theorem merge_reads_what_vcf_writes (w : world) (a : VcfMerge.args) (t : list event)
    (st : VcfMerge.checked_state) (manifest_parameter_file header line : string)
    (lines : list string) :
  VcfMerge.before_check w a = (t, Return st) ->
  In line lines ->
  Py.strip line = VcfMerge.manifest_file a ->
  Py.nonempty (VcfMerge.manifest_file a) = true ->
  Py.startswith (VcfMerge.manifest_file a) "#" = false ->
  LoadConfig.has_char "," (VcfMerge.manifest_file a) = false ->
  In (Py.join (Py.dirname manifest_parameter_file) (VcfMerge.out_file st))
     (CohortMerge.read_new_counts_files manifest_parameter_file (header :: lines)) /\
  (Py.dirname manifest_parameter_file = EmptyString \/
   Py.startswith (VcfMerge.out_file st) "/" = true ->
   In (VcfMerge.out_file st)
      (CohortMerge.read_new_counts_files manifest_parameter_file (header :: lines))).
Proof.
  intros Hbefore Hin Hline Hne Hcomment Hcomma.
  rewrite (vcf_before_check_out_file w a t st Hbefore) in *.
  assert (Hread : In (Py.join (Py.dirname manifest_parameter_file)
                        (Py.replace ".manifest.txt" ".tsf" (VcfMerge.manifest_file a)))
                     (CohortMerge.read_new_counts_files manifest_parameter_file
                        (header :: lines))).
  { unfold CohortMerge.read_new_counts_files. cbn [tail]. rewrite new_counts_loop.
    cbn [app]. rewrite <- list_elem_of_In, list_elem_of_omap.
    exists line. split; [now apply list_elem_of_In |].
    rewrite Hline, Hne, Hcomment. cbn [negb orb].
    now rewrite (before_without _ _ Hcomma). }
  split; [exact Hread |].
  intros Hplace. now rewrite (join_in_place _ _ Hplace) in Hread.
Qed.

Lemma merge_reads_what_vcf_writes_witness :
  In "batch.tsf"
     (CohortMerge.read_new_counts_files "manifest_list.csv"
        ["manifest_file" +:+ String "010" EmptyString;
         "other.manifest.txt" +:+ String "010" EmptyString;
         "batch.manifest.txt" +:+ String "010" EmptyString]).
Proof.
  refine (proj2 (merge_reads_what_vcf_writes demo_world demo_vcf_args _ _ "manifest_list.csv"
                   ("manifest_file" +:+ String "010" EmptyString)
                   ("batch.manifest.txt" +:+ String "010" EmptyString)
                   ["other.manifest.txt" +:+ String "010" EmptyString;
                    "batch.manifest.txt" +:+ String "010" EmptyString]
                   eq_refl _ eq_refl eq_refl eq_refl eq_refl) _).
  - right. now left.
  - now left.
Defined.

End BatchNames.

(** ** Thread counts in [cohort_update.py] *)

Lemma compute_never_stalls (cpu n : Z) : ThreadCount.compute cpu n <> Stalls.
Proof.
  unfold ThreadCount.compute, ThreadCount.floor_truediv, ThreadCount.ceil_truediv,
    ThreadCount.truediv.
  destruct (_ =? 0); cbn; [discriminate |].
  destruct (_ =? 0); cbn; discriminate.
Qed.

Section UpdateThreads.
Variable w : world.

(** With [threadCount.py] in place and positive counts, the two calls of the
    script are the only events; the numbers it prints are read back
    unchanged, and a failure of the script becomes [CalledProcessError]
    after the first call. *)
Theorem thread_counts_from_script (cpu n : Z) (task_dir : string) :
  let script := CreateManifest.path_str task_dir "threadCount.py" in
  let call flag := Subprocess ["python3"; script; flag; "--cpu-count"; Py.str cpu; Py.str n] in
  path_exists w script = true -> 0 < cpu -> 0 < n ->
  (forall c, ThreadCount.compute cpu n = Return c ->
     CohortUpdate.calculate_thread_counts w cpu n task_dir
     = ([call "--reader-threads"; call "--readers-per-flattener"],
        Return (ThreadCount.reader_threads c, ThreadCount.readers_per_flattener c))) /\
  (fails (ThreadCount.compute cpu n) ->
   CohortUpdate.calculate_thread_counts w cpu n task_dir
   = ([call "--reader-threads"], Raise CalledProcessError)).
Proof.
  intros script call Hscript Hcpu Hn. unfold CohortUpdate.calculate_thread_counts.
  fold script. rewrite Hscript. cbn [negb].
  unfold CohortUpdate.check_output_thread_count, ThreadCount.main.
  cbn [ThreadCount.count ThreadCount.cpu_count_arg ThreadCount.reader_threads_flag
       ThreadCount.readers_per_flattener_flag].
  destruct (Z.leb_spec n 0) as [? | _]; [lia |].
  destruct (Z.leb_spec cpu 0) as [? | _]; [lia |].
  cbn [mbind mret outcome_mbind outcome_mret outcome_bind].
  split.
  - intros c Hc. rewrite Hc.
    cbn [mbind mret outcome_mbind outcome_mret outcome_bind prog_mbind prog_mret prog_bind
         emit lift thread_count_stdout].
    rewrite !int_of_printed_number. reflexivity.
  - intros Hfails. pose proof (compute_never_stalls cpu n) as Hruns.
    destruct (ThreadCount.compute cpu n); [contradiction | | |]; try reflexivity.
    now contradiction Hruns.
Qed.

(** Without [threadCount.py] two warnings are printed and no process is
    started; the counts are [max(1, cpu // 4)] and
    [max(1, files // (cpu - 2))], both at least 1, except that 2 CPUs end
    the run with [ZeroDivisionError]. *)
Theorem thread_counts_fallback (cpu n : Z) (task_dir : string) :
  let script := CreateManifest.path_str task_dir "threadCount.py" in
  let warnings :=
    [Stderr ("Warning: threadCount.py not found at " +:+ script);
     Stderr "Using fallback thread calculation"] in
  path_exists w script = false ->
  (cpu = 2 ->
   CohortUpdate.calculate_thread_counts w cpu n task_dir = (warnings, Raise ZeroDivisionError)) /\
  (cpu <> 2 ->
   exists reader_threads readers_per_flattener,
     CohortUpdate.calculate_thread_counts w cpu n task_dir
     = (warnings, Return (reader_threads, readers_per_flattener)) /\
     reader_threads = Z.max 1 (cpu / 4) /\
     readers_per_flattener = Z.max 1 (n / (cpu - 2)) /\
     1 <= reader_threads /\ 1 <= readers_per_flattener).
Proof.
  intros script warnings Hscript. unfold CohortUpdate.calculate_thread_counts.
  fold script. rewrite Hscript. cbn [negb]. split.
  - intros ->. reflexivity.
  - intros Hcpu. destruct (Z.eqb_spec (cpu - 2) 0) as [? | _]; [lia |].
    eexists _, _. split; [reflexivity |]. repeat split; lia.
Qed.

End UpdateThreads.

Lemma thread_counts_from_script_witness :
  CohortUpdate.calculate_thread_counts demo_world 8 3 "/repo/tasks"
  = ([Subprocess ["python3"; "/repo/tasks/threadCount.py"; "--reader-threads";
                  "--cpu-count"; "8"; "3"];
      Subprocess ["python3"; "/repo/tasks/threadCount.py"; "--readers-per-flattener";
                  "--cpu-count"; "8"; "3"]],
     Return (1, 1)).
Proof.
  destruct (thread_counts_from_script demo_world 8 3 "/repo/tasks" eq_refl
              ltac:(lia) ltac:(lia)) as (Hok & _).
  exact (Hok _ eq_refl).
Defined.

Lemma thread_counts_fallback_witness :
  exists r p, result (CohortUpdate.calculate_thread_counts
                        (no_script demo_world) 8 3 "/repo/tasks") = Return (r, p) /\
              1 <= r /\ 1 <= p.
Proof.
  destruct (thread_counts_fallback (no_script demo_world) 8 3 "/repo/tasks" eq_refl)
    as (_ & Hok).
  destruct (Hok ltac:(lia)) as (r & p & Heq & _ & _ & Hr & Hp).
  exists r, p. rewrite Heq. auto.
Defined.

Lemma merge_pattern_extends_full_name_witness :
  exists stem,
    CohortMerge.find_existing_counts demo_world demo_merge_args
      (CohortMerge.next_out_file false "out" (CohortMerge.source_version demo_world) "/ws")
    = CohortMerge.latest_by_name (glob demo_world (stem +:+ ".tsf" +:+ "_*.tsf")).
Proof.
  apply (merge_pattern_extends_full_name demo_world demo_merge_args). reflexivity.
Defined.
